(** * Traditional horary judgment engine (backend/horary_engine.py)

    A shallow embedding of the judgment pipeline of [horary_engine.py]:
    the aspect engine, the solar-condition classifier, the lunar state
    tracker and the judgment procedure, followed by the properties the
    specification states about them.

    Numbers.  Python [float]s are modelled as exact rationals ([Q]);
    [float('inf')] is the extra point of [xfloat].  Integer scores are [Z].
    Text is [string]; the degree sign is kept as its UTF-8 bytes. *)

From Stdlib Require Import QArith Qabs Qround Lqa.
From Stdlib Require Import ZArith Lia List String Ascii Bool.
Import ListNotations.

Open Scope Q_scope.
Open Scope string_scope.

(* ================================================================== *)
(** ** Python numerics *)

Definition Qleb (x y : Q) : bool := Qle_bool x y.
Definition Qltb (x y : Q) : bool := negb (Qle_bool y x).
Definition Qeqb (x y : Q) : bool := Qeq_bool x y.

(** [x % m] on floats, for a positive modulus: the result has the sign of
    [m], i.e. lies in [[0, m)]. *)
Definition py_mod (x m : Q) : Q := x - m * inject_Z (Qfloor (x / m)).

(** [int(x)]: truncation toward zero. *)
Definition py_int (x : Q) : Z := Z.quot (Qnum x) (Zpos (Qden x)).

(** [min(a, b)]: Python returns the first argument unless the second is
    strictly smaller. *)
Definition py_min (a b : Q) : Q := if Qltb b a then b else a.
Definition py_max (a b : Q) : Q := if Qltb a b then b else a.

(** A float that may be [float('inf')]. *)
Inductive xfloat : Type :=
| Fin (q : Q)
| Inf.

(** [x > d] for a possibly infinite [x]. *)
Definition xgt (x : xfloat) (d : Q) : bool :=
  match x with
  | Fin q => Qltb d q
  | Inf => true
  end.

(** Truthiness of an [Optional[float]]: [None] and [0.0] are both falsy. *)
Definition truthy (o : option Q) : bool :=
  match o with
  | Some d => negb (Qeqb d 0)
  | None => false
  end.

(** [x < y] for possibly infinite floats. *)
Definition xltb (x y : xfloat) : bool :=
  match x, y with
  | Fin a, Fin b => Qltb a b
  | Fin _, Inf => true
  | Inf, _ => false
  end.

(** [min(xs, key=f)]: the first element whose key is minimal. *)
Fixpoint min_by {A : Type} (key : A -> xfloat) (x : A) (xs : list A) : A :=
  match xs with
  | [] => x
  | y :: ys => if xltb (key y) (key x) then min_by key y ys else min_by key x ys
  end.

Definition py_min_key {A : Type} (key : A -> xfloat) (xs : list A) : option A :=
  match xs with
  | [] => None
  | x :: rest => Some (min_by key x rest)
  end.

(** The two [while] loops that bring a separation into [[-180, 180]]. *)
Fixpoint while_above (fuel : nat) (s : Q) : Q :=
  match fuel with
  | O => s
  | S f => if Qltb 180 s then while_above f (s - 360) else s
  end.

Fixpoint while_below (fuel : nat) (s : Q) : Q :=
  match fuel with
  | O => s
  | S f => if Qltb s (-(180)) then while_below f (s + 360) else s
  end.

(** Enough iterations for either loop to reach its exit test. *)
Definition loop_bound (s : Q) : nat := S (Z.to_nat (Qceiling (Qabs s / 360))).

Definition normalize_180 (s : Q) : Q :=
  let s1 := while_above (loop_bound s) s in
  while_below (loop_bound s1) s1.

(** [abs(a - b)] folded into [[0, 180]]. *)
Definition angular_separation (a b : Q) : Q :=
  let d := Qabs (a - b) in
  if Qltb 180 d then 360 - d else d.

(* ================================================================== *)
(** ** Text helpers *)

(** [l + [x]] and [l + l'] on lists. *)
Definition append {A : Type} (l : list A) (x : A) : list A := List.app l [x].
Definition extend {A : Type} (l l' : list A) : list A := List.app l l'.

(** [sep.join(parts)]. *)
Definition join (sep : string) (parts : list string) : string :=
  String.concat sep parts.

(** [sub in s]. *)
Definition contains (sub s : string) : Prop :=
  exists pre post, s = pre ++ sub ++ post.

(** Decimal text of an integer, and the [:+d] format. *)
Fixpoint digits_of_pos (fuel : nat) (n : Z) (acc : string) : string :=
  match fuel with
  | O => acc
  | S f =>
      let d := String (ascii_of_nat (48 + Z.to_nat (n mod 10))) acc in
      if (n / 10 =? 0)%Z then d else digits_of_pos f (n / 10) d
  end.

Definition str_nat (n : Z) : string := digits_of_pos (S (Z.to_nat (Z.log2 n))) n "".

Definition str_int (n : Z) : string :=
  if (n <? 0)%Z then "-" ++ str_nat (- n) else str_nat n.

Definition fmt_signed (n : Z) : string :=
  if (n <? 0)%Z then "-" ++ str_nat (- n) else "+" ++ str_nat n.

(** Round half to even, as the float formatter does on the exact value. *)
Definition round_half_even (q : Q) : Z :=
  let f := Qfloor q in
  let r := q - inject_Z f in
  if Qltb r (1 # 2) then f
  else if Qltb (1 # 2) r then (f + 1)%Z
  else if Z.even f then f else (f + 1)%Z.

(** [f"{x:.1f}"]. *)
Definition fmt_1f (x : Q) : string :=
  let t := round_half_even (Qabs x * 10) in
  (if Qltb x 0 then "-" else "") ++ str_nat (t / 10) ++ "." ++ str_nat (t mod 10).

(* ================================================================== *)
(** ** Enumerations *)

Inductive Planet : Type :=
| SUN | MOON | MERCURY | VENUS | MARS | JUPITER | SATURN
| ASC | MC.

Definition planet_value (p : Planet) : string :=
  match p with
  | SUN => "Sun" | MOON => "Moon" | MERCURY => "Mercury" | VENUS => "Venus"
  | MARS => "Mars" | JUPITER => "Jupiter" | SATURN => "Saturn"
  | ASC => "Ascendant" | MC => "Midheaven"
  end.

Definition planet_eqb (a b : Planet) : bool :=
  match a, b with
  | SUN, SUN | MOON, MOON | MERCURY, MERCURY | VENUS, VENUS | MARS, MARS
  | JUPITER, JUPITER | SATURN, SATURN | ASC, ASC | MC, MC => true
  | _, _ => false
  end.

(** [p in [a, b]]. *)
Definition planet_in (p : Planet) (l : list Planet) : bool :=
  existsb (planet_eqb p) l.

Inductive Aspect : Type :=
| CONJUNCTION | SEXTILE | SQUARE | TRINE | OPPOSITION.

(** Enumeration order of [for aspect_type in Aspect]. *)
Definition all_aspects : list Aspect :=
  [CONJUNCTION; SEXTILE; SQUARE; TRINE; OPPOSITION].

Definition aspect_degrees (a : Aspect) : Q :=
  match a with
  | CONJUNCTION => 0 | SEXTILE => 60 | SQUARE => 90 | TRINE => 120
  | OPPOSITION => 180
  end.

Definition display_name (a : Aspect) : string :=
  match a with
  | CONJUNCTION => "Conjunction" | SEXTILE => "Sextile" | SQUARE => "Square"
  | TRINE => "Trine" | OPPOSITION => "Opposition"
  end.

Definition display_name_lower (a : Aspect) : string :=
  match a with
  | CONJUNCTION => "conjunction" | SEXTILE => "sextile" | SQUARE => "square"
  | TRINE => "trine" | OPPOSITION => "opposition"
  end.

Definition aspect_eqb (a b : Aspect) : bool :=
  match a, b with
  | CONJUNCTION, CONJUNCTION | SEXTILE, SEXTILE | SQUARE, SQUARE
  | TRINE, TRINE | OPPOSITION, OPPOSITION => true
  | _, _ => false
  end.

Inductive Sign : Type :=
| ARIES | TAURUS | GEMINI | CANCER | LEO | VIRGO
| LIBRA | SCORPIO | SAGITTARIUS | CAPRICORN | AQUARIUS | PISCES.

Definition all_signs : list Sign :=
  [ARIES; TAURUS; GEMINI; CANCER; LEO; VIRGO;
   LIBRA; SCORPIO; SAGITTARIUS; CAPRICORN; AQUARIUS; PISCES].

Definition start_degree (s : Sign) : Q :=
  match s with
  | ARIES => 0 | TAURUS => 30 | GEMINI => 60 | CANCER => 90 | LEO => 120
  | VIRGO => 150 | LIBRA => 180 | SCORPIO => 210 | SAGITTARIUS => 240
  | CAPRICORN => 270 | AQUARIUS => 300 | PISCES => 330
  end.

Definition sign_name (s : Sign) : string :=
  match s with
  | ARIES => "Aries" | TAURUS => "Taurus" | GEMINI => "Gemini"
  | CANCER => "Cancer" | LEO => "Leo" | VIRGO => "Virgo" | LIBRA => "Libra"
  | SCORPIO => "Scorpio" | SAGITTARIUS => "Sagittarius"
  | CAPRICORN => "Capricorn" | AQUARIUS => "Aquarius" | PISCES => "Pisces"
  end.

Definition ruler (s : Sign) : Planet :=
  match s with
  | ARIES => MARS | TAURUS => VENUS | GEMINI => MERCURY | CANCER => MOON
  | LEO => SUN | VIRGO => MERCURY | LIBRA => VENUS | SCORPIO => MARS
  | SAGITTARIUS => JUPITER | CAPRICORN => SATURN | AQUARIUS => SATURN
  | PISCES => JUPITER
  end.

Definition sign_eqb (a b : Sign) : bool :=
  match a, b with
  | ARIES, ARIES | TAURUS, TAURUS | GEMINI, GEMINI | CANCER, CANCER
  | LEO, LEO | VIRGO, VIRGO | LIBRA, LIBRA | SCORPIO, SCORPIO
  | SAGITTARIUS, SAGITTARIUS | CAPRICORN, CAPRICORN | AQUARIUS, AQUARIUS
  | PISCES, PISCES => true
  | _, _ => false
  end.

Inductive SolarCondition : Type :=
| CAZIMI | COMBUSTION | UNDER_BEAMS | FREE.

Definition condition_name (c : SolarCondition) : string :=
  match c with
  | CAZIMI => "Cazimi" | COMBUSTION => "Combustion"
  | UNDER_BEAMS => "Under the Beams" | FREE => "Free of Sun"
  end.

Definition dignity_modifier (c : SolarCondition) : Z :=
  match c with
  | CAZIMI => 6 | COMBUSTION => -5 | UNDER_BEAMS => -3 | FREE => 0
  end%Z.

(* ================================================================== *)
(** ** Records *)

Record SolarAnalysis : Type := mkSolarAnalysis {
  sa_planet : Planet;
  distance_from_sun : Q;
  condition : SolarCondition;
  exact_cazimi : bool;
  traditional_exception : bool
}.

Record PlanetPosition : Type := mkPlanetPosition {
  planet : Planet;
  longitude : Q;
  latitude : Q;
  house : Z;
  sign : Sign;
  dignity_score : Z;
  retrograde : bool;
  speed : Q
}.

(** [exact_time] (a timestamp for display) is not read by the judgment and
    is left out. *)
Record AspectInfo : Type := mkAspectInfo {
  planet1 : Planet;
  planet2 : Planet;
  aspect : Aspect;
  orb : Q;
  applying : bool;
  degrees_to_exact : Q
}.

Record LunarAspect : Type := mkLunarAspect {
  la_planet : Planet;
  la_aspect : Aspect;
  la_orb : Q;
  degrees_difference : Q;
  perfection_eta_days : xfloat;
  perfection_eta_description : string;
  la_applying : bool
}.

(** The chart.  [calculate_chart] stores a position (computed or fallback)
    and a solar analysis for each of the seven traditional planets, in the
    order of [traditional_planets]; the dictionaries are therefore total on
    those keys and iterate in that order. *)
Record HoraryChart : Type := mkHoraryChart {
  location : Q * Q;
  planets : Planet -> PlanetPosition;
  aspects : list AspectInfo;
  houses : list Q;
  house_rulers : Z -> option Planet;
  ascendant : Q;
  midheaven : Q;
  solar_analyses : Planet -> SolarAnalysis;
  julian_day : Q;
  moon_last_aspect : option LunarAspect;
  moon_next_aspect : option LunarAspect
}.

Definition traditional_planets : list Planet :=
  [SUN; MOON; MERCURY; VENUS; MARS; JUPITER; SATURN].

(* ================================================================== *)
(** ** Exceptions *)

Inductive PyException : Type :=
| LocationError (msg : string)
| ValueError (msg : string)
| ZeroDivisionError (msg : string)
| OtherException (msg : string).

(** [str(e)]. *)
Definition exn_message (e : PyException) : string :=
  match e with
  | LocationError m | ValueError m | ZeroDivisionError m | OtherException m => m
  end.

Definition is_location_error (e : PyException) : bool :=
  match e with
  | LocationError _ => true
  | _ => false
  end.

Inductive result (A : Type) : Type :=
| Ok (a : A)
| Raise (e : PyException).

Arguments Ok {A} a.
Arguments Raise {A} e.

Definition bind {A B : Type} (m : result A) (k : A -> result B) : result B :=
  match m with
  | Ok a => k a
  | Raise e => Raise e
  end.

Notation "x <- m ;; k" := (bind m (fun x => k))
  (at level 61, m at next level, right associativity).

(** [a / b] on floats. *)
Definition py_div (a b : Q) : result Q :=
  if Qeqb b 0 then Raise (ZeroDivisionError "float division by zero")
  else Ok (a / b).

(* ================================================================== *)
(** ** Configuration ([cfg()])

    The configuration module is read-only during judgment; it is passed
    explicitly.  Only the keys the engine reads are kept. *)

Record OrbsConfig : Type := mkOrbsConfig {
  conjunction : option Q;
  sextile : option Q;
  square : option Q;
  trine : option Q;
  opposition : option Q;
  sun_orb_bonus : Q;
  moon_orb_bonus : Q;
  cazimi_orb_arcmin : Q;
  combustion_orb : Q;
  under_beams_orb : Q;
  void_orb_deg : Q
}.

Record TimingConfig : Type := mkTimingConfig {
  timing_precision_days : Q;
  stationary_speed_threshold : Q
}.

Record PhaseBonus : Type := mkPhaseBonus {
  new_moon : Z;
  waxing_crescent : Z;
  first_quarter : Z;
  waxing_gibbous : Z;
  full_moon : Z;
  waning_gibbous : Z;
  last_quarter : Z;
  waning_crescent : Z
}.

Record SpeedBonus : Type := mkSpeedBonus {
  very_slow : Z;
  slow : Z;
  average : Z;
  fast : Z;
  very_fast : Z
}.

Record AngularityBonus : Type := mkAngularityBonus {
  ab_angular : Z;
  ab_succedent : Z;
  ab_cadent : Z
}.

Record VoidExceptions : Type := mkVoidExceptions {
  ve_cancer : bool;
  ve_sagittarius : bool;
  ve_taurus : bool
}.

Record TranslationConfig : Type := mkTranslationConfig {
  require_speed_advantage : bool;
  require_proper_sequence : bool
}.

Record CollectionConfig : Type := mkCollectionConfig {
  require_collector_dignity : bool;
  minimum_dignity_score : Z
}.

Record MoonConfig : Type := mkMoonConfig {
  phase_bonus : PhaseBonus;
  speed_bonus : SpeedBonus;
  angularity_bonus : AngularityBonus;
  void_rule : string;
  void_exceptions : VoidExceptions;
  translation : TranslationConfig;
  collection : CollectionConfig
}.

Record SolarConfidence : Type := mkSolarConfidence {
  cazimi_bonus : Z;
  exact_cazimi_bonus : Z;
  combustion_penalty : Z;
  under_beams_penalty : Z
}.

Record PerfectionConfidence : Type := mkPerfectionConfidence {
  direct_with_mutual_rulership : Q;
  direct_with_mutual_exaltation : Q;
  direct_basic : Q;
  translation_of_light : Q;
  collection_of_light : Q;
  reception_only : Q
}.

Record DenialConfidence : Type := mkDenialConfidence {
  prohibition : Q;
  frustration_retrograde : Q
}.

Record LunarCaps : Type := mkLunarCaps {
  cap_favorable : Q;
  cap_unfavorable : Q;
  cap_neutral : Q
}.

Record ConfidenceConfig : Type := mkConfidenceConfig {
  base_confidence : Q;
  solar : SolarConfidence;
  perfection : PerfectionConfidence;
  denial : DenialConfidence;
  lunar_confidence_caps : LunarCaps;
  mutual_exaltation_bonus : Q
}.

Record ViaCombusta : Type := mkViaCombusta {
  libra_start : Q;
  scorpio_full : bool;
  capricorn_start : Q
}.

Record RadicalityConfig : Type := mkRadicalityConfig {
  asc_too_early : Q;
  asc_too_late : Q;
  saturn_7th_enabled : bool;
  via_combusta_enabled : bool;
  via_combusta : ViaCombusta
}.

Record DignityConfig : Type := mkDignityConfig {
  rulership : Z;
  exaltation : Z;
  detriment : Z;
  fall : Z;
  joy : Z;
  angular : Z;
  succedent : Z;
  cadent : Z
}.

Record Config : Type := mkConfig {
  orbs : OrbsConfig;
  timing : TimingConfig;
  moon : MoonConfig;
  confidence : ConfidenceConfig;
  radicality : RadicalityConfig;
  dignity : DignityConfig;
  retrograde_automatic_denial : bool
}.

(** [config.confidence], for places where a local variable of that name
    is in scope. *)
Definition confidence_cfg_of (config : Config) : ConfidenceConfig := confidence config.

(** [Aspect.orb]: the configured orb, 8.0 when the key is missing. *)
Definition aspect_orb (config : Config) (a : Aspect) : Q :=
  let o := match a with
           | CONJUNCTION => conjunction (orbs config)
           | SEXTILE => sextile (orbs config)
           | SQUARE => square (orbs config)
           | TRINE => trine (orbs config)
           | OPPOSITION => opposition (orbs config)
           end in
  match o with
  | Some v => v
  | None => 8
  end.

(** Tables of the calculator ([self.exaltations], [self.falls],
    [self.combustion_resistant]). *)
Definition exaltations (p : Planet) : option Sign :=
  match p with
  | SUN => Some ARIES | MOON => Some TAURUS | MERCURY => Some VIRGO
  | VENUS => Some PISCES | MARS => Some CAPRICORN | JUPITER => Some CANCER
  | SATURN => Some LIBRA | _ => None
  end.

Definition falls (p : Planet) : option Sign :=
  match p with
  | SUN => Some LIBRA | MOON => Some SCORPIO | MERCURY => Some PISCES
  | VENUS => Some VIRGO | MARS => Some CANCER | JUPITER => Some CAPRICORN
  | SATURN => Some ARIES | _ => None
  end.

Definition combustion_resistant (p : Planet) : bool :=
  match p with
  | MERCURY | VENUS => true
  | _ => false
  end.

(** [table.get(p) == s] for an optional table entry. *)
Definition entry_is (o : option Sign) (s : Sign) : bool :=
  match o with
  | Some s' => sign_eqb s' s
  | None => false
  end.

(** Monadic traversal used for the nested [for] loops that may raise. *)
Fixpoint collect {A B : Type} (f : A -> result (list B)) (l : list A)
  : result (list B) :=
  match l with
  | [] => Ok []
  | x :: xs => ys <- f x ;; zs <- collect f xs ;; Ok (ys ++ zs)%list
  end.

(** What the ephemeris returns for one instant and place: per planet
    [(longitude, latitude, speed)] or a failure, and the house cusps with
    ascendant and midheaven or a failure. *)
Record Ephemeris : Type := mkEphemeris {
  eph_planet : Planet -> option (Q * Q * Q);
  eph_houses : option (list Q * Q * Q)
}.

(** [_format_timing_description] and its twin
    [_format_timing_description_enhanced] (same body). *)
Definition _format_timing_description (days : xfloat) : string :=
  match days with
  | Inf => "More than a year"
  | Fin d =>
      if Qltb d (1 # 2) then "Within hours"
      else if Qltb d 1 then "Within a day"
      else if Qltb d 7 then "Within " ++ str_int (py_int d) ++ " days"
      else if Qltb d 30 then "Within " ++ str_int (py_int (d / 7)) ++ " weeks"
      else if Qltb d 365 then "Within " ++ str_int (py_int (d / 30)) ++ " months"
      else "More than a year"
  end.

Definition _format_timing_description_enhanced := _format_timing_description.

(* ================================================================== *)
(** ** Dictionaries passed between the judgment stages *)

Record QuestionAnalysis : Type := mkQuestionAnalysis {
  question_type : string;
  relevant_houses : list Z;
  quesited_house : Z
}.

Record Radicality : Type := mkRadicality {
  valid : bool;
  rad_reason : string
}.

Inductive Significators : Type :=
| InvalidSignificators (reason : string)
| ValidSignificators (querent quesited : Planet) (description : string).

Record SolarFactors : Type := mkSolarFactors {
  significant : bool;
  summary : string;
  cazimi_count : nat;
  combustion_count : nat;
  under_beams_count : nat
}.

(** The dictionary returned by [_find_applying_aspect]. *)
Record AppliedAspect : Type := mkAppliedAspect {
  aa_aspect : Aspect;
  aa_orb : Q;
  aa_degrees_to_exact : Q
}.

Record Translation : Type := mkTranslation {
  translator : Planet;
  tr_favorable : bool;
  tr_sequence : string
}.

Record Collection : Type := mkCollection {
  collector : Planet;
  col_favorable : bool
}.

(** A found perfection ([{"perfects": True, ...}]); [None] stands for
    [{"perfects": False, ...}]. *)
Record Perfection : Type := mkPerfection {
  p_type : string;
  p_favorable : bool;
  p_confidence : Q;
  p_reason : string;
  p_reception : option string;
  p_aspect : option AppliedAspect
}.

Record Denial : Type := mkDenial {
  d_confidence : Q;
  d_reason : string
}.

Record VoidCheck : Type := mkVoidCheck {
  void : bool;
  exception : bool;
  vc_reason : string;
  degrees_left_in_sign : option Q
}.

Record MoonTestimony : Type := mkMoonTestimony {
  favorable : bool;
  unfavorable : bool;
  mt_reason : string;
  mt_timing : option string;
  void_of_course : bool
}.

Record FutureAspect : Type := mkFutureAspect {
  fa_planet : Planet;
  fa_aspect : Aspect;
  target_degree : Q;
  degrees_to_reach : Q
}.

(** The judgment dictionary: verdict, confidence, reasoning trail and
    timing text.  The factor breakdowns carried along for display are not
    read by any later stage. *)
Record JudgmentResult : Type := mkJudgmentResult {
  jr_result : string;
  jr_confidence : Q;
  jr_reasoning : list string;
  jr_timing : option string
}.

(** The response of [judge_question], restricted to the keys every
    response carries. *)
Record Response : Type := mkResponse {
  r_judgment : string;
  r_confidence : Q;
  r_reasoning : list string;
  r_timing : option string;
  r_error : option string;
  r_error_type : option string
}.

Record Request : Type := mkRequest {
  question : string;
  location_text : string;
  date_str : option string;
  time_str : option string;
  timezone_str : option string;
  use_current_time : bool;
  manual_houses : option (list Z);
  ignore_radicality : bool;
  ignore_void_moon : bool;
  ignore_combustion : bool;
  ignore_saturn_7th : bool;
  exaltation_confidence_boost : option Q
}.

(* ================================================================== *)
(** ** The engine

    Everything below reads one configuration snapshot and the helpers of
    [_horary_math]; both are fixed for the whole section. *)

Section Engine.

Variable config : Config.

(** Helpers imported from [_horary_math], whose source is not at hand;
    they are taken as given.  [is_separating] stands for
    [check_aspect_separation_order(...)["is_separating"]]. *)
Variable days_to_sign_exit : Q -> Q -> option Q.
Variable calculate_elongation : Q -> Q -> Q.
Variable sun_altitude_at_civil_twilight : Q -> Q -> Q -> Q.
Variable is_separating : Q -> Q -> Q -> Q -> Q -> Q -> bool.

(** [str(x)] of a float inside an f-string. *)
Variable str_float : Q -> string.

(** *** The calculator ([EnhancedTraditionalAstrologicalCalculator]) *)

(** The ephemeris query behind [get_real_moon_speed]. *)
Variable get_real_moon_speed : Q -> Q.

Definition _get_sign (lon : Q) : Sign :=
  let l := py_mod lon 360 in
  match find (fun s => Qleb (start_degree s) l && Qltb l (start_degree s + 30))
             all_signs with
  | Some s => s
  | None => PISCES
  end.

Fixpoint house_scan (lon : Q) (cusps : list Q) (idx : list nat) : Z :=
  match idx with
  | [] => 1%Z
  | i :: rest =>
      let current_cusp := py_mod (nth i cusps 0) 360 in
      let next_cusp := py_mod (nth (Nat.modulo (i + 1) 12) cusps 0) 360 in
      if Qltb next_cusp current_cusp then
        if Qleb current_cusp lon || Qltb lon next_cusp
        then (Z.of_nat i + 1)%Z else house_scan lon cusps rest
      else
        if Qleb current_cusp lon && Qltb lon next_cusp
        then (Z.of_nat i + 1)%Z else house_scan lon cusps rest
  end.

Definition _calculate_house_position (lon : Q) (cusps : list Q) : Z :=
  house_scan (py_mod lon 360) cusps (seq 0 12).

(** *** Solar condition *)

Definition _check_enhanced_combustion_exception
    (p : Planet) (planet_pos sun_pos : PlanetPosition) (lat lon jd_ut : Q) : bool :=
  let elongation := calculate_elongation (longitude planet_pos) (longitude sun_pos) in
  if Qltb elongation 10 then false
  else
    let sun_altitude := sun_altitude_at_civil_twilight lat lon jd_ut in
    match p with
    | MERCURY =>
        if Qleb 10 elongation
           && (sign_eqb (sign planet_pos) GEMINI || sign_eqb (sign planet_pos) VIRGO)
        then true
        else if Qleb 18 elongation then true
        else false
    | VENUS =>
        if Qleb 10 elongation then
          if Qleb sun_altitude (-(8)) then true
          else if Qleb 40 elongation then true
          else false
        else false
    | _ => false
    end.

Definition _analyze_enhanced_solar_condition
    (p : Planet) (planet_pos sun_pos : PlanetPosition) (lat lon jd_ut : Q)
  : SolarAnalysis :=
  match p with
  | SUN => mkSolarAnalysis p 0 FREE false false
  | _ =>
      let elongation := calculate_elongation (longitude planet_pos) (longitude sun_pos) in
      let cazimi_orb := cazimi_orb_arcmin (orbs config) / 60 in
      let combustion_orb := combustion_orb (orbs config) in
      let under_beams_orb := under_beams_orb (orbs config) in
      let traditional_exception :=
        if combustion_resistant p
        then _check_enhanced_combustion_exception p planet_pos sun_pos lat lon jd_ut
        else false in
      if Qleb elongation cazimi_orb then
        mkSolarAnalysis p elongation CAZIMI (Qleb elongation (3 / 60)) false
      else if Qleb elongation combustion_orb then
        if traditional_exception
        then mkSolarAnalysis p elongation FREE false true
        else mkSolarAnalysis p elongation COMBUSTION false false
      else if Qleb elongation under_beams_orb then
        if traditional_exception
        then mkSolarAnalysis p elongation FREE false true
        else mkSolarAnalysis p elongation UNDER_BEAMS false false
      else mkSolarAnalysis p elongation FREE false false
  end.

(** *** Dignity *)

Definition detriment_signs (p : Planet) : list Sign :=
  match p with
  | SUN => [AQUARIUS] | MOON => [CAPRICORN]
  | MERCURY => [PISCES; SAGITTARIUS] | VENUS => [ARIES; SCORPIO]
  | MARS => [LIBRA; TAURUS] | JUPITER => [GEMINI; VIRGO]
  | SATURN => [CANCER; LEO] | _ => []
  end.

Definition house_joys (p : Planet) : option Z :=
  match p with
  | MERCURY => Some 1 | MOON => Some 3 | VENUS => Some 5 | MARS => Some 6
  | SUN => Some 9 | JUPITER => Some 11 | SATURN => Some 12 | _ => None
  end%Z.

Definition house_in (h : Z) (l : list Z) : bool := existsb (Z.eqb h) l.

Definition _calculate_enhanced_dignity
    (p : Planet) (s : Sign) (h : Z) (solar_analysis : SolarAnalysis) : Z :=
  let d := dignity config in
  let sc := solar (confidence config) in
  let score := 0%Z in
  let score := if planet_eqb (ruler s) p then (score + rulership d)%Z else score in
  let score := if entry_is (exaltations p) s then (score + exaltation d)%Z else score in
  let score := if existsb (sign_eqb s) (detriment_signs p)
               then (score + detriment d)%Z else score in
  let score := if entry_is (falls p) s then (score + fall d)%Z else score in
  let score := match house_joys p with
               | Some j => if (j =? h)%Z then (score + joy d)%Z else score
               | None => score
               end in
  let score := if house_in h [1; 4; 7; 10]%Z then (score + angular d)%Z
               else if house_in h [2; 5; 8; 11]%Z then (score + succedent d)%Z
               else if house_in h [3; 6; 9; 12]%Z then (score + cadent d)%Z
               else score in
  match condition solar_analysis with
  | CAZIMI =>
      if exact_cazimi solar_analysis then (score + exact_cazimi_bonus sc)%Z
      else (score + cazimi_bonus sc)%Z
  | COMBUSTION =>
      if negb (traditional_exception solar_analysis)
      then (score - combustion_penalty sc)%Z else score
  | UNDER_BEAMS =>
      if negb (traditional_exception solar_analysis)
      then (score - under_beams_penalty sc)%Z else score
  | FREE => score
  end.

(** *** Aspects *)

(** The part of [_is_applying_enhanced] up to the sign-exit test. *)
Definition faster_slower (pos1 pos2 : PlanetPosition)
  : PlanetPosition * PlanetPosition :=
  if Qltb (Qabs (speed pos2)) (Qabs (speed pos1)) then (pos1, pos2) else (pos2, pos1).

Definition applying_separation (pos1 pos2 : PlanetPosition) : Q :=
  let '(faster, slower) := faster_slower pos1 pos2 in
  normalize_180 (longitude faster - longitude slower).

Definition closest_target (separation : Q) (a : Aspect) : Q :=
  let target := aspect_degrees a in
  let targets :=
    ([target; - target]
     ++ (if negb (Qeqb target 0) && negb (Qeqb target 180)
         then [target - 360; - target + 360] else []))%list in
  min_by (fun t => Fin (Qabs (separation - t))) target (tl targets).

Definition current_orb (pos1 pos2 : PlanetPosition) (a : Aspect) : Q :=
  let separation := applying_separation pos1 pos2 in
  Qabs (separation - closest_target separation a).

Definition days_to_perfect (pos1 pos2 : PlanetPosition) (a : Aspect) : xfloat :=
  let '(faster, slower) := faster_slower pos1 pos2 in
  let rel := Qabs (speed faster - speed slower) in
  if Qltb 0 rel then Fin (current_orb pos1 pos2 a / rel) else Inf.

Definition _is_applying_enhanced (pos1 pos2 : PlanetPosition) (a : Aspect) : bool :=
  let '(faster, slower) := faster_slower pos1 pos2 in
  let separation := applying_separation pos1 pos2 in
  let closest := closest_target separation a in
  let days := days_to_perfect pos1 pos2 a in
  let faster_days_to_exit := days_to_sign_exit (longitude faster) (speed faster) in
  let slower_days_to_exit := days_to_sign_exit (longitude slower) (speed slower) in
  if truthy faster_days_to_exit
     && xgt days (match faster_days_to_exit with Some d => d | None => 0 end)
  then false
  else if truthy slower_days_to_exit
          && xgt days (match slower_days_to_exit with Some d => d | None => 0 end)
  then false
  else
    let time_increment := timing_precision_days (timing config) in
    let future_separation :=
      normalize_180 (separation + (speed faster - speed slower) * time_increment) in
    let future_orb := Qabs (future_separation - closest) in
    Qltb future_orb (current_orb pos1 pos2 a).

(** The first component of [_calculate_enhanced_degrees_to_exact]. *)
Definition _calculate_enhanced_degrees_to_exact
    (pos1 pos2 : PlanetPosition) (a : Aspect) : Q :=
  let separation := angular_separation (longitude pos1) (longitude pos2) in
  let orb_from_exact := Qabs (separation - aspect_degrees a) in
  if Qltb orb_from_exact (1 # 10) then 1 # 10 else orb_from_exact.

Fixpoint first_aspect (p1 p2 : Planet) (pos1 pos2 : PlanetPosition)
    (kinds : list Aspect) : list AspectInfo :=
  match kinds with
  | [] => []
  | aspect_type :: rest =>
      let angle_diff := angular_separation (longitude pos1) (longitude pos2) in
      let orb_diff := Qabs (angle_diff - aspect_degrees aspect_type) in
      let max_orb := aspect_orb config aspect_type in
      let max_orb := if planet_in SUN [p1; p2]
                     then max_orb + sun_orb_bonus (orbs config) else max_orb in
      let max_orb := if planet_in MOON [p1; p2]
                     then max_orb + moon_orb_bonus (orbs config) else max_orb in
      if Qleb orb_diff max_orb then
        [mkAspectInfo p1 p2 aspect_type orb_diff
           (_is_applying_enhanced pos1 pos2 aspect_type)
           (_calculate_enhanced_degrees_to_exact pos1 pos2 aspect_type)]
      else first_aspect p1 p2 pos1 pos2 rest
  end.

Fixpoint aspects_from (positions : Planet -> PlanetPosition)
    (planet_list : list Planet) : list AspectInfo :=
  match planet_list with
  | [] => []
  | p1 :: rest =>
      (flat_map (fun p2 => first_aspect p1 p2 (positions p1) (positions p2) all_aspects)
                rest
       ++ aspects_from positions rest)%list
  end.

Definition _calculate_enhanced_aspects (positions : Planet -> PlanetPosition)
  : list AspectInfo :=
  aspects_from positions traditional_planets.

(** *** The Moon's last and next aspect *)

Definition moon_orbs (moon_pos planet_pos : PlanetPosition) (a : Aspect)
    (moon_speed : Q) : Q * Q :=
  let time_increment := 1 # 10 in
  let current_separation :=
    angular_separation (longitude moon_pos) (longitude planet_pos) in
  let future_moon_lon := py_mod (longitude moon_pos + moon_speed * time_increment) 360 in
  let future_separation := angular_separation future_moon_lon (longitude planet_pos) in
  (Qabs (current_separation - aspect_degrees a),
   Qabs (future_separation - aspect_degrees a)).

Definition _is_moon_separating_from_aspect moon_pos planet_pos a moon_speed : bool :=
  let '(current_orb, future_orb) := moon_orbs moon_pos planet_pos a moon_speed in
  Qltb current_orb future_orb.

Definition _is_moon_applying_to_aspect moon_pos planet_pos a moon_speed : bool :=
  let '(current_orb, future_orb) := moon_orbs moon_pos planet_pos a moon_speed in
  Qltb future_orb current_orb.

Definition other_planets : list Planet :=
  filter (fun p => negb (planet_eqb p MOON)) traditional_planets.

Definition _calculate_moon_last_aspect (positions : Planet -> PlanetPosition)
    (jd_ut : Q) : result (option LunarAspect) :=
  let moon_pos := positions MOON in
  let moon_speed := get_real_moon_speed jd_ut in
  separating_aspects <-
    collect (fun p =>
      let planet_pos := positions p in
      let separation := angular_separation (longitude moon_pos) (longitude planet_pos) in
      collect (fun aspect_type =>
        let orb_diff := Qabs (separation - aspect_degrees aspect_type) in
        let max_orb := aspect_orb config aspect_type in
        if Qleb orb_diff (max_orb * (3 # 2))
           && _is_moon_separating_from_aspect moon_pos planet_pos aspect_type moon_speed
        then
          time_since_exact <- py_div orb_diff moon_speed ;;
          Ok [mkLunarAspect p aspect_type orb_diff orb_diff (Fin time_since_exact)
                (fmt_1f time_since_exact ++ " days ago") false]
        else Ok []) all_aspects) other_planets ;;
  Ok (py_min_key perfection_eta_days separating_aspects).

Definition _calculate_moon_next_aspect (positions : Planet -> PlanetPosition)
    (jd_ut : Q) : option LunarAspect :=
  let moon_pos := positions MOON in
  let moon_speed := get_real_moon_speed jd_ut in
  let applying_aspects :=
    flat_map (fun p =>
      let planet_pos := positions p in
      let separation := angular_separation (longitude moon_pos) (longitude planet_pos) in
      flat_map (fun aspect_type =>
        let orb_diff := Qabs (separation - aspect_degrees aspect_type) in
        let max_orb := aspect_orb config aspect_type in
        if Qleb orb_diff max_orb
           && _is_moon_applying_to_aspect moon_pos planet_pos aspect_type moon_speed
        then
          let relative_speed := Qabs (moon_speed - Qabs (speed planet_pos)) in
          let time_to_exact :=
            if Qltb 0 relative_speed then Fin (orb_diff / relative_speed) else Inf in
          [mkLunarAspect p aspect_type orb_diff orb_diff time_to_exact
             (_format_timing_description time_to_exact) true]
        else []) all_aspects) other_planets in
  py_min_key perfection_eta_days applying_aspects.

(** *** Chart assembly ([calculate_chart]) *)

Definition default_cusps : list Q := map (fun i => inject_Z (Z.of_nat i) * 30) (seq 0 12).

Definition calculate_chart (eph : Ephemeris) (jd_ut lat lon : Q)
  : result HoraryChart :=
  let raw := fun p =>
    match eph_planet eph p with
    | Some (l, b, v) => mkPlanetPosition p l b 0 (_get_sign l) 0 (Qltb v 0) v
    | None => mkPlanetPosition p 0 0 1 ARIES 0 false 0
    end in
  let '(cusps, asc, mc) :=
    match eph_houses eph with
    | Some hs => hs
    | None => (default_cusps, 0, 90)
    end in
  let rulers := fun h : Z =>
    if ((1 <=? h) && (h <=? Z.of_nat (List.length cusps)))%Z
    then Some (ruler (_get_sign (nth (Z.to_nat (h - 1)) cusps 0)))
    else None in
  let housed := fun p =>
    let r := raw p in
    mkPlanetPosition p (longitude r) (latitude r)
      (_calculate_house_position (longitude r) cusps)
      (sign r) 0 (retrograde r) (speed r) in
  let sun_pos := housed SUN in
  let analyses := fun p =>
    _analyze_enhanced_solar_condition p (housed p) sun_pos lat lon jd_ut in
  let positions := fun p =>
    let r := housed p in
    mkPlanetPosition p (longitude r) (latitude r) (house r) (sign r)
      (_calculate_enhanced_dignity p (sign r) (house r) (analyses p))
      (retrograde r) (speed r) in
  last <- _calculate_moon_last_aspect positions jd_ut ;;
  Ok (mkHoraryChart (lat, lon) positions (_calculate_enhanced_aspects positions)
        cusps rulers asc mc analyses jd_ut last
        (_calculate_moon_next_aspect positions jd_ut)).

(** *** The judgment engine ([EnhancedTraditionalHoraryJudgmentEngine]) *)

Definition _check_enhanced_radicality (chart : HoraryChart)
    (ignore_saturn_7th : bool) : Radicality :=
  let rc := radicality config in
  let asc_degree := py_mod (ascendant chart) 30 in
  if Qltb asc_degree (asc_too_early rc) then
    mkRadicality false
      ("Ascendant too early at " ++ fmt_1f asc_degree
       ++ "° - question premature or not mature")
  else if Qltb (asc_too_late rc) asc_degree then
    mkRadicality false
      ("Ascendant too late at " ++ fmt_1f asc_degree
       ++ "° - question too late or already decided")
  else if saturn_7th_enabled rc && negb ignore_saturn_7th
          && (house (planets chart SATURN) =? 7)%Z then
    mkRadicality false
      "Saturn in 7th house - astrologer may err in judgment (Bonatti)"
  else
    let moon_pos := planets chart MOON in
    let moon_degree_in_sign := py_mod (longitude moon_pos) 30 in
    let vc := via_combusta rc in
    if via_combusta_enabled rc
       && ((sign_eqb (sign moon_pos) LIBRA && Qltb (libra_start vc) moon_degree_in_sign)
           || (sign_eqb (sign moon_pos) SCORPIO && scorpio_full vc)
           || (sign_eqb (sign moon_pos) CAPRICORN
               && Qltb (capricorn_start vc) moon_degree_in_sign))
    then
      mkRadicality false
        ("Moon in Via Combusta (" ++ sign_name (sign moon_pos) ++ " "
         ++ fmt_1f moon_degree_in_sign ++ "°) - volatile or corrupted matter")
    else
      mkRadicality true ("Chart is radical - Ascendant at " ++ fmt_1f asc_degree ++ "°").

Definition _identify_significators (chart : HoraryChart)
    (question_analysis : QuestionAnalysis) : Significators :=
  let querent_house := 1%Z in
  let quesited_house := quesited_house question_analysis in
  match house_rulers chart querent_house, house_rulers chart quesited_house with
  | Some querent_ruler, Some quesited_ruler =>
      if planet_eqb querent_ruler quesited_ruler then
        InvalidSignificators
          (planet_value querent_ruler
           ++ " rules both querent and quesited - seek natural significators")
      else
        ValidSignificators querent_ruler quesited_ruler
          ("Querent: " ++ planet_value querent_ruler ++ " (ruler of "
           ++ str_int querent_house ++ "), Quesited: " ++ planet_value quesited_ruler
           ++ " (ruler of " ++ str_int quesited_house ++ ")")
  | _, _ => InvalidSignificators "Cannot determine house rulers"
  end.

Definition _analyze_enhanced_solar_factors (chart : HoraryChart)
    (querent quesited : Planet) (ignore_combustion : bool) : SolarFactors :=
  let has := fun c p => match condition (solar_analyses chart p), c with
                        | CAZIMI, CAZIMI | COMBUSTION, COMBUSTION
                        | UNDER_BEAMS, UNDER_BEAMS => true
                        | _, _ => false
                        end in
  let cazimi_planets := filter (has CAZIMI) traditional_planets in
  let combusted_planets :=
    filter (fun p => has COMBUSTION p && negb ignore_combustion) traditional_planets in
  let under_beams_planets :=
    filter (fun p => has UNDER_BEAMS p && negb ignore_combustion) traditional_planets in
  let names := fun ps => join ", " (map planet_value ps) in
  let nonempty := fun ps : list Planet => match ps with [] => false | _ => true end in
  let summary_parts :=
    List.concat
      [ if nonempty cazimi_planets then ["Cazimi: " ++ names cazimi_planets] else [];
        if nonempty combusted_planets
        then ["Combusted: " ++ names combusted_planets] else [];
        if nonempty under_beams_planets
        then ["Under Beams: " ++ names under_beams_planets] else [];
        if ignore_combustion
           && (nonempty combusted_planets || nonempty under_beams_planets)
        then ["(Combustion effects ignored by override)"] else [] ] in
  mkSolarFactors
    (match summary_parts with [] => false | _ => true end)
    (match summary_parts with
     | [] => "No significant solar conditions"
     | _ => join "; " summary_parts
     end)
    (List.length cazimi_planets)
    (if negb ignore_combustion then List.length combusted_planets else O)
    (if negb ignore_combustion then List.length under_beams_planets else O).

Definition _find_applying_aspect (chart : HoraryChart) (p1 p2 : Planet)
  : option AppliedAspect :=
  match find (fun a =>
                ((planet_eqb (planet1 a) p1 && planet_eqb (planet2 a) p2)
                 || (planet_eqb (planet1 a) p2 && planet_eqb (planet2 a) p1))
                && applying a) (aspects chart) with
  | Some a => Some (mkAppliedAspect (aspect a) (orb a) (degrees_to_exact a))
  | None => None
  end.

Definition _check_enhanced_mutual_reception (chart : HoraryChart)
    (p1 p2 : Planet) : string :=
  let pos1 := planets chart p1 in
  let pos2 := planets chart p2 in
  if planet_eqb (ruler (sign pos1)) p2 && planet_eqb (ruler (sign pos2)) p1
  then "mutual_rulership"
  else if entry_is (exaltations p1) (sign pos2) && entry_is (exaltations p2) (sign pos1)
  then "mutual_exaltation"
  else if (planet_eqb (ruler (sign pos1)) p2 && entry_is (exaltations p2) (sign pos1))
          || (planet_eqb (ruler (sign pos2)) p1 && entry_is (exaltations p1) (sign pos2))
  then "mixed_reception"
  else "none".

Definition _is_aspect_favorable (a : Aspect) (reception : string) : bool :=
  let base_favorable :=
    match a with
    | CONJUNCTION | SEXTILE | TRINE => true
    | _ => false
    end in
  if String.eqb reception "mutual_rulership" || String.eqb reception "mutual_exaltation"
     || String.eqb reception "mixed_reception"
  then true else base_favorable.

Definition _enhanced_perfects_in_sign (pos1 pos2 : PlanetPosition)
    (aspect_info : AppliedAspect) : bool :=
  let days_to_exit_1 := days_to_sign_exit (longitude pos1) (speed pos1) in
  let days_to_exit_2 := days_to_sign_exit (longitude pos2) (speed pos2) in
  let relative_speed := Qabs (speed pos1 - speed pos2) in
  if Qeqb relative_speed 0 then false
  else
    let days := aa_degrees_to_exact aspect_info / relative_speed in
    if truthy days_to_exit_1
       && Qltb (match days_to_exit_1 with Some d => d | None => 0 end) days
    then false
    else if truthy days_to_exit_2
            && Qltb (match days_to_exit_2 with Some d => d | None => 0 end) days
    then false
    else true.

(** The significators are skipped; the dictionary order of the other
    planets is kept. *)
Definition third_bodies (querent quesited : Planet) : list Planet :=
  filter (fun p => negb (planet_in p [querent; quesited])) traditional_planets.

Definition translation_by (chart : HoraryChart) (querent quesited p : Planet)
  : option Translation :=
  let tc := translation (moon config) in
  let pos := planets chart p in
  match _find_applying_aspect chart p querent, _find_applying_aspect chart p quesited with
  | Some aspect_to_querent, Some aspect_to_quesited =>
      if require_proper_sequence tc then
        let querent_separation :=
          is_separating (longitude (planets chart querent)) (speed (planets chart querent))
            (longitude pos) (speed pos)
            (aspect_degrees (aa_aspect aspect_to_querent)) (julian_day chart) in
        let quesited_separation :=
          is_separating (longitude (planets chart quesited)) (speed (planets chart quesited))
            (longitude pos) (speed pos)
            (aspect_degrees (aa_aspect aspect_to_quesited)) (julian_day chart) in
        if querent_separation
           && Qltb (aa_degrees_to_exact aspect_to_quesited)
                   (aa_degrees_to_exact aspect_to_querent)
        then Some (mkTranslation p true
                     ("separating from " ++ planet_value querent
                      ++ ", applying to " ++ planet_value quesited))
        else if quesited_separation
                && Qltb (aa_degrees_to_exact aspect_to_querent)
                        (aa_degrees_to_exact aspect_to_quesited)
        then Some (mkTranslation p true
                     ("separating from " ++ planet_value quesited
                      ++ ", applying to " ++ planet_value querent))
        else None
      else
        Some (mkTranslation p true
                ("connecting " ++ planet_value querent ++ " and " ++ planet_value quesited))
  | _, _ => None
  end.

Fixpoint first_some {A B : Type} (f : A -> option B) (l : list A) : option B :=
  match l with
  | [] => None
  | x :: xs => match f x with
               | Some b => Some b
               | None => first_some f xs
               end
  end.

Definition _check_enhanced_translation_of_light (chart : HoraryChart)
    (querent quesited : Planet) : option Translation :=
  if negb (require_speed_advantage (translation (moon config))) then
    first_some (translation_by chart querent quesited) (third_bodies querent quesited)
  else None.

Definition collection_by (chart : HoraryChart) (querent quesited p : Planet)
  : option Collection :=
  let cc := collection (moon config) in
  let pos := planets chart p in
  match _find_applying_aspect chart querent p, _find_applying_aspect chart quesited p with
  | Some aspects_from_querent, Some aspects_from_quesited =>
      if require_collector_dignity cc
         && (dignity_score pos <? minimum_dignity_score cc)%Z
      then None
      else
        let querent_pos := planets chart querent in
        let quesited_pos := planets chart quesited in
        let querent_days_to_sign :=
          days_to_sign_exit (longitude querent_pos) (speed querent_pos) in
        let quesited_days_to_sign :=
          days_to_sign_exit (longitude quesited_pos) (speed quesited_pos) in
        let leg := fun (a : AppliedAspect) (sig_pos : PlanetPosition) =>
          let rel := Qabs (speed sig_pos - speed pos) in
          if Qltb 0 rel then aa_degrees_to_exact a / rel else 0 in
        let max_collection_days :=
          py_max (leg aspects_from_querent querent_pos)
                 (leg aspects_from_quesited quesited_pos) in
        let late := fun o =>
          truthy o && Qltb (match o with Some d => d | None => 0 end) max_collection_days in
        if late querent_days_to_sign || late quesited_days_to_sign then None
        else Some (mkCollection p true)
  | _, _ => None
  end.

Definition _check_enhanced_collection_of_light (chart : HoraryChart)
    (querent quesited : Planet) : option Collection :=
  first_some (collection_by chart querent quesited) (third_bodies querent quesited).

Definition _check_enhanced_perfection (chart : HoraryChart)
    (querent quesited : Planet) (boost : Q) : option Perfection :=
  let pc := perfection (confidence config) in
  let querent_pos := planets chart querent in
  let quesited_pos := planets chart quesited in
  let direct :=
    match _find_applying_aspect chart querent quesited with
    | Some direct_aspect =>
        if _enhanced_perfects_in_sign querent_pos quesited_pos direct_aspect then
          let reception := _check_enhanced_mutual_reception chart querent quesited in
          if String.eqb reception "mutual_rulership" then
            Some (mkPerfection "direct" true (direct_with_mutual_rulership pc)
                    (display_name (aa_aspect direct_aspect)
                     ++ " with mutual rulership - unconditional perfection")
                    (Some reception) (Some direct_aspect))
          else if String.eqb reception "mutual_exaltation" then
            let base_confidence := direct_with_mutual_exaltation pc in
            let boosted_confidence := py_min 100 (base_confidence + boost) in
            Some (mkPerfection "direct" true (inject_Z (py_int boosted_confidence))
                    (display_name (aa_aspect direct_aspect)
                     ++ " with mutual exaltation (+" ++ str_float boost ++ "% confidence)")
                    (Some reception) (Some direct_aspect))
          else
            Some (mkPerfection "direct"
                    (_is_aspect_favorable (aa_aspect direct_aspect) reception)
                    (direct_basic pc)
                    (display_name (aa_aspect direct_aspect) ++ " between significators"
                     ++ (if negb (String.eqb reception "none")
                         then " with " ++ reception else ""))
                    (Some reception) (Some direct_aspect))
        else None
    | None => None
    end in
  match direct with
  | Some p => Some p
  | None =>
      match _check_enhanced_translation_of_light chart querent quesited with
      | Some t =>
          Some (mkPerfection "translation" (tr_favorable t) (translation_of_light pc)
                  ("Translation of light by " ++ planet_value (translator t) ++ " - "
                   ++ tr_sequence t)
                  None None)
      | None =>
          match _check_enhanced_collection_of_light chart querent quesited with
          | Some c =>
              Some (mkPerfection "collection" (col_favorable c) (collection_of_light pc)
                      ("Collection of light by " ++ planet_value (collector c))
                      None None)
          | None =>
              let reception := _check_enhanced_mutual_reception chart querent quesited in
              if String.eqb reception "mutual_rulership" then
                Some (mkPerfection "reception" true (reception_only pc)
                        "Mutual reception by rulership - unconditional perfection"
                        (Some reception) None)
              else if String.eqb reception "mutual_exaltation" then
                let boosted_confidence := py_min 100 (reception_only pc + boost) in
                Some (mkPerfection "reception" true (inject_Z (py_int boosted_confidence))
                        ("Mutual reception by exaltation (+" ++ str_float boost
                         ++ "% confidence)")
                        (Some reception) None)
              else None
          end
      end
  end.

Definition _calculate_enhanced_timing (chart : HoraryChart) (p : Perfection)
  : result string :=
  match p_aspect p with
  | Some a =>
      let moon_speed := get_real_moon_speed (julian_day chart) in
      timing_days <- py_div (aa_degrees_to_exact a) moon_speed ;;
      Ok (_format_timing_description_enhanced (Fin timing_days))
  | None => Ok "Timing uncertain"
  end.

(** The test of the prohibition loop for one chart aspect. *)
Definition prohibits (chart : HoraryChart) (querent quesited : Planet)
    (a : AspectInfo) : bool :=
  (planet_eqb (planet1 a) SATURN || planet_eqb (planet2 a) SATURN) && applying a
  && (let other_planet := if planet_eqb (planet1 a) SATURN then planet2 a else planet1 a in
      planet_in other_planet [querent; quesited]
      && match _find_applying_aspect chart querent quesited with
         | Some sig_aspect => Qltb (degrees_to_exact a) (aa_degrees_to_exact sig_aspect)
         | None => false
         end).

Definition _check_enhanced_denial_conditions (chart : HoraryChart)
    (querent quesited : Planet) : option Denial :=
  match find (prohibits chart querent quesited) (aspects chart) with
  | Some a =>
      let other_planet := if planet_eqb (planet1 a) SATURN then planet2 a else planet1 a in
      Some (mkDenial (prohibition (denial (confidence config)))
              ("Prohibition by Saturn - aspects " ++ planet_value other_planet
               ++ " before perfection"))
  | None =>
      let querent_pos := planets chart querent in
      let quesited_pos := planets chart quesited in
      if negb (retrograde_automatic_denial config) then None
      else if retrograde querent_pos || retrograde quesited_pos then
        Some (mkDenial (frustration_retrograde (denial (confidence config)))
                ("Frustration - "
                 ++ (if retrograde querent_pos then "querent" else "quesited")
                 ++ " significator retrograde"))
      else None
  end.

(** *** Lunar accidental dignity *)

Definition moon_elongation (chart : HoraryChart) : Q :=
  angular_separation (longitude (planets chart MOON)) (longitude (planets chart SUN)).

Definition between (lo e hi : Q) : bool := Qleb lo e && Qltb e hi.

Definition phase_bonus_at (e : Q) : Z :=
  let pb := phase_bonus (moon config) in
  if between 0 e 30 then new_moon pb
  else if between 30 e 60 then waxing_crescent pb
  else if between 60 e 120 then first_quarter pb
  else if between 120 e 150 then waxing_gibbous pb
  else if between 150 e 210 then full_moon pb
  else if between 210 e 240 then waning_gibbous pb
  else if between 240 e 300 then last_quarter pb
  else waning_crescent pb.

Definition _moon_phase_bonus (chart : HoraryChart) : Z :=
  phase_bonus_at (moon_elongation chart).

Definition phase_name_at (e : Q) : string :=
  if between 0 e 30 then "New Moon"
  else if between 30 e 60 then "Waxing Crescent"
  else if between 60 e 120 then "First Quarter"
  else if between 120 e 150 then "Waxing Gibbous"
  else if between 150 e 210 then "Full Moon"
  else if between 210 e 240 then "Waning Gibbous"
  else if between 240 e 300 then "Last Quarter"
  else "Waning Crescent".

Definition _get_moon_phase_name (chart : HoraryChart) : string :=
  phase_name_at (moon_elongation chart).

Definition _moon_speed_bonus (chart : HoraryChart) : Z :=
  let moon_speed := Qabs (speed (planets chart MOON)) in
  let sb := speed_bonus (moon config) in
  if Qltb moon_speed 11 then very_slow sb
  else if Qltb moon_speed 12 then slow sb
  else if Qltb moon_speed 14 then average sb
  else if Qltb moon_speed 15 then fast sb
  else very_fast sb.

Definition _moon_angularity_bonus (chart : HoraryChart) : Z :=
  let moon_house := house (planets chart MOON) in
  let ab := angularity_bonus (moon config) in
  if house_in moon_house [1; 4; 7; 10]%Z then ab_angular ab
  else if house_in moon_house [2; 5; 8; 11]%Z then ab_succedent ab
  else ab_cadent ab.

(** *** Void of course *)

Definition _calculate_aspect_positions (planet_longitude : Q) (a : Aspect)
    (moon_sign : Sign) : list Q :=
  let aspect_positions :=
    [py_mod (planet_longitude + aspect_degrees a) 360;
     py_mod (planet_longitude - aspect_degrees a) 360] in
  let sign_start := start_degree moon_sign in
  let sign_end := py_mod (sign_start + 30) 360 in
  filter (fun pos =>
            let pos_normalized := py_mod pos 360 in
            if Qltb sign_start sign_end
            then Qleb sign_start pos_normalized && Qltb pos_normalized sign_end
            else Qleb sign_start pos_normalized || Qltb pos_normalized sign_end)
         aspect_positions.

Definition future_aspects_in_sign (chart : HoraryChart) : list FutureAspect :=
  let moon_pos := planets chart MOON in
  let moon_degree_in_sign := py_mod (longitude moon_pos) 30 in
  let degrees_left := 30 - moon_degree_in_sign in
  flat_map (fun p =>
    flat_map (fun aspect_type =>
      flat_map (fun target_position =>
        let target_degree_in_sign := py_mod target_position 30 in
        if Qltb moon_degree_in_sign target_degree_in_sign
           && Qltb (target_degree_in_sign - moon_degree_in_sign) degrees_left
        then [mkFutureAspect p aspect_type target_degree_in_sign
                (target_degree_in_sign - moon_degree_in_sign)]
        else [])
        (_calculate_aspect_positions (longitude (planets chart p)) aspect_type
           (sign moon_pos)))
      all_aspects)
    other_planets.

Definition _void_by_sign_method (chart : HoraryChart) : VoidCheck :=
  let moon_pos := planets chart MOON in
  let moon_degree_in_sign := py_mod (longitude moon_pos) 30 in
  let degrees_left := 30 - moon_degree_in_sign in
  if Qltb (Qabs (speed moon_pos)) (stationary_speed_threshold (timing config)) then
    mkVoidCheck false false "Moon stationary - cannot be void of course"
      (Some degrees_left)
  else
    let future_aspects := future_aspects_in_sign chart in
    let ve := void_exceptions (moon config) in
    let exceptions :=
      if sign_eqb (sign moon_pos) CANCER && ve_cancer ve then true
      else if sign_eqb (sign moon_pos) SAGITTARIUS && ve_sagittarius ve then true
      else if sign_eqb (sign moon_pos) TAURUS && ve_taurus ve then true
      else false in
    let reason :=
      match py_min_key (fun x => Fin (degrees_to_reach x)) future_aspects with
      | None =>
          "Moon makes no more aspects before leaving " ++ sign_name (sign moon_pos)
      | Some next_aspect =>
          "Moon will " ++ display_name_lower (fa_aspect next_aspect) ++ " "
          ++ planet_value (fa_planet next_aspect) ++ " at "
          ++ fmt_1f (target_degree next_aspect) ++ "° " ++ sign_name (sign moon_pos)
      end in
    let reason :=
      if exceptions then
        if sign_eqb (sign moon_pos) CANCER then reason ++ " (but in own sign - Cancer)"
        else if sign_eqb (sign moon_pos) SAGITTARIUS
        then reason ++ " (but in joy - Sagittarius)"
        else if sign_eqb (sign moon_pos) TAURUS
        then reason ++ " (but in exaltation - Taurus)"
        else reason
      else reason in
    mkVoidCheck (match future_aspects with [] => true | _ => false end)
      exceptions reason (Some degrees_left).

Definition _void_by_orb_method (chart : HoraryChart) : VoidCheck :=
  let moon_pos := planets chart MOON in
  let void_orb := void_orb_deg (orbs config) in
  let hit :=
    first_some (fun p =>
      let separation :=
        angular_separation (longitude moon_pos) (longitude (planets chart p)) in
      first_some (fun aspect_type =>
        if Qleb (Qabs (separation - aspect_degrees aspect_type)) void_orb
        then Some (p, aspect_type) else None) all_aspects) other_planets in
  match hit with
  | Some (p, aspect_type) =>
      mkVoidCheck false false
        ("Moon within " ++ str_float void_orb ++ "° orb of " ++ display_name aspect_type
         ++ " to " ++ planet_value p) None
  | None =>
      mkVoidCheck true false
        ("Moon not within " ++ str_float void_orb ++ "° of any aspect") None
  end.

Definition _void_lilly_method (chart : HoraryChart) : VoidCheck :=
  let moon_pos := planets chart MOON in
  let exception :=
    existsb (sign_eqb (sign moon_pos)) [CANCER; TAURUS; SAGITTARIUS; PISCES] in
  let void_result := _void_by_sign_method chart in
  mkVoidCheck (void void_result) exception
    (if exception
     then vc_reason void_result ++ " (Lilly exception: " ++ sign_name (sign moon_pos) ++ ")"
     else vc_reason void_result)
    (degrees_left_in_sign void_result).

Definition _is_moon_void_of_course_enhanced (chart : HoraryChart) : VoidCheck :=
  let void_rule := void_rule (moon config) in
  if String.eqb void_rule "by_sign" then _void_by_sign_method chart
  else if String.eqb void_rule "by_orb" then _void_by_orb_method chart
  else if String.eqb void_rule "lilly" then _void_lilly_method chart
  else _void_by_sign_method chart.

(** *** Lunar testimony *)

Definition _check_enhanced_moon_testimony (chart : HoraryChart)
    (querent quesited : Planet) (ignore_void_moon : bool) : MoonTestimony :=
  let moon_pos := planets chart MOON in
  let void_check := _is_moon_void_of_course_enhanced chart in
  if negb ignore_void_moon && void void_check && negb (exception void_check) then
    mkMoonTestimony false true
      ("Moon void of course - " ++ vc_reason void_check)
      (Some "Nothing comes of the matter") true
  else if ignore_void_moon then
    mkMoonTestimony false false "Moon void of course - ignored by override"
      (Some "Uncertain (void Moon overridden)") true
  else
    let total_moon_bonus :=
      (_moon_phase_bonus chart + _moon_speed_bonus chart + _moon_angularity_bonus chart)%Z in
    let adjusted_dignity := (dignity_score moon_pos + total_moon_bonus)%Z in
    let general :=
      if (0 <? adjusted_dignity)%Z then
        mkMoonTestimony true false
          ("Moon well-dignified in " ++ sign_name (sign moon_pos)
           ++ " (adjusted dignity: " ++ fmt_signed adjusted_dignity ++ ")")
          None false
      else if (adjusted_dignity <? -3)%Z then
        mkMoonTestimony false true
          ("Moon poorly dignified in " ++ sign_name (sign moon_pos)
           ++ " (adjusted dignity: " ++ fmt_signed adjusted_dignity ++ ")")
          None false
      else
        mkMoonTestimony false false
          ("Moon testimony neutral (adjusted dignity: "
           ++ fmt_signed adjusted_dignity ++ ")")
          None false in
    match moon_next_aspect chart with
    | Some next_aspect =>
        if planet_in (la_planet next_aspect) [querent; quesited] then
          let fav := match la_aspect next_aspect with
                     | CONJUNCTION | SEXTILE | TRINE => true
                     | _ => false
                     end in
          mkMoonTestimony fav (negb fav)
            ("Moon next " ++ display_name (la_aspect next_aspect) ++ "s "
             ++ planet_value (la_planet next_aspect) ++ " (total dignity: "
             ++ fmt_signed adjusted_dignity ++ ")")
            (Some (perfection_eta_description next_aspect)) false
        else general
    | None => general
    end.

(** *** The judgment procedure *)

(** Stage 3 of [_apply_enhanced_judgment]: the running confidence and
    the reasoning lines added for the solar conditions. *)
Definition solar_adjustment (solar_factors : SolarFactors) (ignore_combustion : bool)
  : Q * list string :=
  let cc := confidence config in
  let c0 := base_confidence cc in
  if significant solar_factors then
    let line := "Solar conditions: " ++ summary solar_factors in
    if (0 <? cazimi_count solar_factors)%nat then
      (c0 + inject_Z (cazimi_bonus (solar cc)),
       [line; "Cazimi planets significantly strengthen the judgment"])
    else if (0 <? combustion_count solar_factors)%nat && negb ignore_combustion then
      (c0 - inject_Z (combustion_penalty (solar cc)),
       [line; "Combusted planets significantly weaken the judgment"])
    else (c0, [line])
  else (c0, []).

Definition _apply_enhanced_judgment (chart : HoraryChart)
    (question_analysis : QuestionAnalysis)
    (ignore_radicality ignore_void_moon ignore_combustion ignore_saturn_7th : bool)
    (boost : Q) : result JudgmentResult :=
  let radicality := _check_enhanced_radicality chart ignore_saturn_7th in
  if negb ignore_radicality && negb (valid radicality) then
    Ok (mkJudgmentResult "NOT RADICAL" 0 [rad_reason radicality] None)
  else
    let reasoning :=
      if negb ignore_radicality then ["Radicality: " ++ rad_reason radicality]
      else ["Radicality: Bypassed by override"] in
    match _identify_significators chart question_analysis with
    | InvalidSignificators reason =>
        Ok (mkJudgmentResult "CANNOT JUDGE" 0 (append reasoning reason) None)
    | ValidSignificators querent_planet quesited_planet description =>
        let reasoning := append reasoning ("Significators: " ++ description) in
        let solar_factors :=
          _analyze_enhanced_solar_factors chart querent_planet quesited_planet
            ignore_combustion in
        let '(confidence, solar_lines) := solar_adjustment solar_factors ignore_combustion in
        let reasoning := extend reasoning solar_lines in
        match _check_enhanced_perfection chart querent_planet quesited_planet boost with
        | Some perfection =>
            let verdict := if p_favorable perfection then "YES" else "NO" in
            let confidence := py_min confidence (p_confidence perfection) in
            let reasoning :=
              append reasoning ("Perfection: " ++ p_reason perfection) in
            timing <- _calculate_enhanced_timing chart perfection ;;
            Ok (mkJudgmentResult verdict confidence reasoning (Some timing))
        | None =>
            match _check_enhanced_denial_conditions chart querent_planet quesited_planet with
            | Some denial =>
                Ok (mkJudgmentResult "NO" (py_min confidence (d_confidence denial))
                      (append reasoning ("Denial: " ++ d_reason denial)) None)
            | None =>
                let moon_testimony :=
                  _check_enhanced_moon_testimony chart querent_planet quesited_planet
                    ignore_void_moon in
                let reasoning :=
                  append reasoning ("Moon: " ++ mt_reason moon_testimony) in
                let caps := lunar_confidence_caps (confidence_cfg_of config) in
                let '(verdict, confidence) :=
                  if favorable moon_testimony
                  then ("YES", py_min confidence (cap_favorable caps))
                  else if unfavorable moon_testimony
                  then ("NO", py_min confidence (cap_unfavorable caps))
                  else ("UNCLEAR", py_min confidence (cap_neutral caps)) in
                Ok (mkJudgmentResult verdict confidence reasoning
                      (Some (match mt_timing moon_testimony with
                             | Some t => t
                             | None => "Uncertain"
                             end)))
            end
        end
    end.

(** *** The entry point ([judge_question]) *)

(** External collaborators of the entry point, each of which may raise:
    the geocoder (absent when its construction failed), time resolution
    reduced to the Julian day it yields, and the question classifier.  The
    ephemeris reports its failures per body and for the houses, and
    [calculate_chart] falls back on them.  The display payload added to a
    successful response is computed from the chart by conversions that do
    not fail and is left out. *)
Variable geolocator_available : bool.
Variable safe_geocode : string -> result (Q * Q * string).
Variable current_time_for_location : Q -> Q -> result Q.
Variable parse_datetime_with_timezone :
  string -> string -> option string -> Q -> Q -> result Q.
Variable swiss_ephemeris : Q -> Q -> Q -> Ephemeris.
Variable analyze_question : string -> result QuestionAnalysis.

(** [not s] for an optional string. *)
Definition falsy (s : option string) : bool :=
  match s with
  | None | Some EmptyString => true
  | Some _ => false
  end.

(** The body of the [try] block. *)
Definition judge_body (req : Request) : result JudgmentResult :=
  let boost :=
    match exaltation_confidence_boost req with
    | Some b => b
    | None => mutual_exaltation_bonus (confidence config)
    end in
  geo <- (if geolocator_available then safe_geocode (location_text req)
          else Raise (LocationError "Geocoding service not available")) ;;
  let '(lat, lon, full_location) := geo in
  jd_ut <- (if use_current_time req then current_time_for_location lat lon
            else
              match date_str req, time_str req with
              | Some d, Some t =>
                  if falsy (Some d) || falsy (Some t) then
                    Raise (ValueError
                      "Date and time must be provided when not using current time")
                  else parse_datetime_with_timezone d t (timezone_str req) lat lon
              | _, _ =>
                  Raise (ValueError
                    "Date and time must be provided when not using current time")
              end) ;;
  chart <- calculate_chart (swiss_ephemeris jd_ut lat lon) jd_ut lat lon ;;
  question_analysis <- analyze_question (question req) ;;
  let question_analysis :=
    match manual_houses req with
    | Some (h :: rest) =>
        mkQuestionAnalysis (question_type question_analysis) (h :: rest)
          (match rest with
           | h1 :: _ => h1
           | [] => 7%Z
           end)
    | _ => question_analysis
    end in
  _apply_enhanced_judgment chart question_analysis
    (ignore_radicality req) (ignore_void_moon req) (ignore_combustion req)
    (ignore_saturn_7th req) boost.

Definition judge_question (req : Request) : Response :=
  match judge_body req with
  | Ok judgment =>
      mkResponse (jr_result judgment) (jr_confidence judgment)
        (jr_reasoning judgment) (jr_timing judgment) None None
  | Raise e =>
      if is_location_error e then
        mkResponse "LOCATION_ERROR" 0 ["Location error: " ++ exn_message e] None
          (Some (exn_message e)) (Some "LocationError")
      else
        mkResponse "ERROR" 0 ["Calculation error: " ++ exn_message e] None
          (Some (exn_message e)) None
  end.

End Engine.

(* ================================================================== *)
(** ** The question analyzer ([TraditionalHoraryQuestionAnalyzer])

    The class body defines its methods twice; the later definitions are
    the ones in effect and are the ones modelled.  They work on the
    lower-cased question. *)

(** [sub in s] on strings, as a test. *)
Fixpoint str_in (sub s : string) : bool :=
  String.prefix sub s
  || match s with
     | EmptyString => false
     | String _ rest => str_in sub rest
     end.

(** [any(keyword in question for keyword in keywords)]. *)
Definition any_in (keywords : list string) (question : string) : bool :=
  existsb (fun keyword => str_in keyword question) keywords.

Definition house_meanings : list (Z * list string) :=
  [(1, ["querent"; "self"; "body"; "life"; "personality"; "appearance"]);
   (2, ["money"; "possessions"; "moveable goods"; "income"; "resources"; "values"]);
   (3, ["siblings"; "neighbors"; "short journeys"; "communication"; "letters"; "rumors"]);
   (4, ["father"; "home"; "land"; "property"; "endings"; "foundations"; "graves"]);
   (5, ["children"; "pregnancy"; "pleasure"; "gambling"; "creativity"; "entertainment"]);
   (6, ["illness"; "servants"; "small animals"; "work"; "daily routine"; "uncle/aunt"]);
   (7, ["spouse"; "partner"; "open enemies"; "thieves"; "others"; "contracts"]);
   (8, ["death"; "partner's money"; "wills"; "transformation"; "fear"; "surgery"]);
   (9, ["long journeys"; "foreign lands"; "religion"; "law"; "higher learning"; "dreams"]);
   (10, ["mother"; "career"; "honor"; "reputation"; "authority"; "government"]);
   (11, ["friends"; "hopes"; "wishes"; "advisors"; "king's money"; "groups"]);
   (12, ["hidden enemies"; "large animals"; "prisons"; "secrets"; "self-undoing";
         "witchcraft"])]%Z.

Definition question_patterns : list (string * list string) :=
  [("lost_object", ["where is"; "lost"; "missing"; "find"; "stolen"]);
   ("marriage", ["marry"; "wedding"; "spouse"; "husband"; "wife"]);
   ("pregnancy", ["pregnant"; "child"; "baby"; "conceive"]);
   ("travel", ["journey"; "travel"; "trip"; "go to"; "visit"]);
   ("money", ["money"; "wealth"; "rich"; "profit"; "gain"; "debt"]);
   ("career", ["job"; "career"; "work"; "employment"; "business"]);
   ("health", ["sick"; "illness"; "disease"; "health"; "recover"; "die"]);
   ("lawsuit", ["court"; "lawsuit"; "legal"; "judge"; "trial"]);
   ("relationship", ["love"; "relationship"; "friend"; "enemy"])].

Definition _determine_question_type (question : string) : string :=
  match find (fun entry => any_in (snd entry) question) question_patterns with
  | Some (q_type, _) => q_type
  | None => "general"
  end.

Definition _determine_houses (question question_type : string) : list Z :=
  let houses := [1%Z] in
  let houses :=
    if String.eqb question_type "lost_object" then append houses 2%Z
    else if String.eqb question_type "marriage" || str_in "spouse" question
    then append houses 7%Z
    else if String.eqb question_type "pregnancy" || str_in "child" question
    then append houses 5%Z
    else if String.eqb question_type "travel" then
      if any_in ["far"; "foreign"; "abroad"] question
      then append houses 9%Z else append houses 3%Z
    else if String.eqb question_type "money" then append houses 2%Z
    else if String.eqb question_type "career" then append houses 10%Z
    else if String.eqb question_type "health" then append houses 6%Z
    else if String.eqb question_type "lawsuit" then append houses 7%Z
    else append houses 7%Z in
  fold_left
    (fun houses entry =>
       if negb (house_in (fst entry) houses) && any_in (snd entry) question
       then append houses (fst entry) else houses)
    house_meanings houses.

(** The [quesited_house] entry of [_determine_significators]. *)
Definition _determine_significators (houses : list Z) : Z :=
  match houses with
  | _ :: h :: _ => h
  | _ => 7%Z
  end.

(** [analyze_question] after the question has been lower-cased. *)
Definition analyze_lowered (question_lower : string) : QuestionAnalysis :=
  let question_type := _determine_question_type question_lower in
  let houses := _determine_houses question_lower question_type in
  mkQuestionAnalysis question_type houses (_determine_significators houses).

Definition analyze_question (lower : string -> string) (question : string)
  : QuestionAnalysis :=
  analyze_lowered (lower question).

(** [_turn], defined with the first set of methods and not redefined by
    the second: the house [offset] steps from [base] (1-based). *)
Definition _turn (base offset : Z) : Z := ((base + offset - 1) mod 12 + 1)%Z.

(* ================================================================== *)
(** ** General chart information ([_calculate_general_info])

    The planetary day and hour are computed from the weekday (Monday is
    0) and the hour of the chart's local time.  The other entries of the
    dictionary are read off the chart with [_get_moon_phase_name] and
    [_is_moon_void_of_course_enhanced], or are for display only. *)

Definition PLANET_SEQUENCE : list Planet :=
  [SATURN; JUPITER; MARS; SUN; VENUS; MERCURY; MOON].

(** [PLANETARY_DAY_RULERS.get(weekday, Planet.SUN)]. *)
Definition PLANETARY_DAY_RULERS (weekday : Z) : Planet :=
  match weekday with
  | 0 => MOON | 1 => MARS | 2 => MERCURY | 3 => JUPITER | 4 => VENUS
  | 5 => SATURN | 6 => SUN | _ => SUN
  end%Z.

(** [list.index]: the first position of an element; [None] when the
    element is absent, where Python raises. *)
Fixpoint index (p : Planet) (l : list Planet) : option Z :=
  match l with
  | [] => None
  | x :: rest =>
      if planet_eqb x p then Some 0%Z
      else match index p rest with
           | Some i => Some (i + 1)%Z
           | None => None
           end
  end.

(** The entries [planetary_day] and [planetary_hour]; [None] stands for a
    failed lookup. *)
Definition _calculate_general_info (weekday hour_index : Z) : option (Planet * Planet) :=
  let day_ruler := PLANETARY_DAY_RULERS weekday in
  match index day_ruler PLANET_SEQUENCE with
  | Some start_idx =>
      match nth_error PLANET_SEQUENCE (Z.to_nat ((start_idx + hour_index) mod 7)) with
      | Some hour_ruler => Some (day_ruler, hour_ruler)
      | None => None
      end
  | None => None
  end.

(* ================================================================== *)
(** ** The specification's own wording, for comparison *)

(** Modelled from the spec: [days_to_sign_exit] of [_horary_math]
    (section 4.1): a closed-form function of the degree within the sign
    and the signed speed, undefined when the body does not move. *)
Definition days_to_sign_exit_model (lon spd : Q) : option Q :=
  let deg := py_mod lon 30 in
  if Qltb 0 spd then Some ((30 - deg) / spd)
  else if Qltb spd 0 then Some (deg / - spd)
  else None.

(** Modelled from the spec: [calculate_elongation] of [_horary_math]
    (section 4.2): the absolute angular distance to the Sun, at most 180. *)
Definition calculate_elongation_model (planet_lon sun_lon : Q) : Q :=
  angular_separation planet_lon sun_lon.

(** Section 4.2 in its own words: the hierarchy narrowest to widest, and
    the visibility exception that downgrades Combustion and Under the
    Beams only. *)
Definition spec_solar_hierarchy (cazimi combustion under_beams elongation : Q)
  : SolarCondition :=
  if Qleb elongation cazimi then CAZIMI
  else if Qleb elongation combustion then COMBUSTION
  else if Qleb elongation under_beams then UNDER_BEAMS
  else FREE.

Definition spec_visibility_downgrade (exception_applies : bool) (c : SolarCondition)
  : SolarCondition :=
  match c with
  | COMBUSTION | UNDER_BEAMS => if exception_applies then FREE else c
  | CAZIMI | FREE => c
  end.

(** Section 4.4 in its own words: eight bands of 30 degrees each, in the
    order new, waxing crescent, first quarter, waxing gibbous, full, waning
    gibbous, last quarter, waning crescent. *)
Definition spec_phase_bonus (pb : PhaseBonus) (elongation : Q) : Z :=
  nth (Z.to_nat (Qfloor (elongation / 30)))
      [new_moon pb; waxing_crescent pb; first_quarter pb; waxing_gibbous pb;
       full_moon pb; waning_gibbous pb; last_quarter pb; waning_crescent pb]
      (waning_crescent pb).

(** The bands the phase chain of the engine tests, with their bounds. *)
Inductive PhaseBand : Type :=
| NewMoon | WaxingCrescent | FirstQuarter | WaxingGibbous
| FullMoon | WaningGibbous | LastQuarter | WaningCrescent.

Definition band_bounds (b : PhaseBand) : Q * Q :=
  match b with
  | NewMoon => (0, 30) | WaxingCrescent => (30, 60) | FirstQuarter => (60, 120)
  | WaxingGibbous => (120, 150) | FullMoon => (150, 210)
  | WaningGibbous => (210, 240) | LastQuarter => (240, 300)
  | WaningCrescent => (300, 360)
  end.

Definition in_band (b : PhaseBand) (e : Q) : Prop :=
  fst (band_bounds b) <= e /\ e < snd (band_bounds b).

Definition band_bonus (pb : PhaseBonus) (b : PhaseBand) : Z :=
  match b with
  | NewMoon => new_moon pb | WaxingCrescent => waxing_crescent pb
  | FirstQuarter => first_quarter pb | WaxingGibbous => waxing_gibbous pb
  | FullMoon => full_moon pb | WaningGibbous => waning_gibbous pb
  | LastQuarter => last_quarter pb | WaningCrescent => waning_crescent pb
  end.

Definition band_name (b : PhaseBand) : string :=
  match b with
  | NewMoon => "New Moon" | WaxingCrescent => "Waxing Crescent"
  | FirstQuarter => "First Quarter" | WaxingGibbous => "Waxing Gibbous"
  | FullMoon => "Full Moon" | WaningGibbous => "Waning Gibbous"
  | LastQuarter => "Last Quarter" | WaningCrescent => "Waning Crescent"
  end.

(* ================================================================== *)
(** ** A configuration and collaborators for the worked examples *)

Definition example_config : Config :=
  mkConfig
    (mkOrbsConfig (Some 8) (Some 6) (Some 8) (Some 8) (Some 8) 2 2 17 (17 # 2) 15 5)
    (mkTimingConfig (1 # 100) (1 # 100))
    (mkMoonConfig
       (mkPhaseBonus 0 1 2 3 4 (-1) (-2) (-3))
       (mkSpeedBonus (-2) (-1) 0 1 2)
       (mkAngularityBonus 1 0 (-1))
       "by_sign"
       (mkVoidExceptions true true true)
       (mkTranslationConfig false true)
       (mkCollectionConfig true 0))
    (mkConfidenceConfig 100
       (mkSolarConfidence 15 20 10 5)
       (mkPerfectionConfidence 100 85 80 75 70 65)
       (mkDenialConfidence 85 85)
       (mkLunarCaps 65 65 50)
       15)
    (mkRadicalityConfig 3 27 true true (mkViaCombusta 15 true 15))
    (mkDignityConfig 5 4 (-5) (-4) 2 1 0 (-1))
    false.

Definition example_sun_altitude (lat lon jd_ut : Q) : Q := -(6).
Definition example_is_separating (l1 v1 l2 v2 deg jd_ut : Q) : bool := false.
Definition example_str_float (x : Q) : string := fmt_1f x.
Definition example_moon_speed (jd_ut : Q) : Q := 13.

(** Twelve equal houses starting at the ascendant. *)
Definition cusps_from (asc : Q) : list Q :=
  map (fun i => py_mod (asc + inject_Z (Z.of_nat i) * 30) 360) (seq 0 12).

Definition blank_position (p : Planet) : PlanetPosition :=
  mkPlanetPosition p 0 0 1 ARIES 0 false 0.

Definition blank_chart : HoraryChart :=
  mkHoraryChart (0, 0) blank_position [] default_cusps (fun _ => None) 0 90
    (fun p => mkSolarAnalysis p 0 FREE false false) 0 None None.

(** The chart [calculate_chart] builds from given ephemeris output, at
    latitude 51, longitude 0. *)
Definition example_chart (eph : Ephemeris) : HoraryChart :=
  match calculate_chart example_config days_to_sign_exit_model
          calculate_elongation_model example_sun_altitude example_moon_speed
          eph 2460000 51 0 with
  | Ok c => c
  | Raise _ => blank_chart
  end.

Definition example_judgment (chart : HoraryChart) (qa : QuestionAnalysis)
    (ignore_radicality ignore_void_moon : bool) (boost : Q) : result JudgmentResult :=
  _apply_enhanced_judgment example_config days_to_sign_exit_model
    example_is_separating example_str_float example_moon_speed chart qa
    ignore_radicality ignore_void_moon false false boost.

Definition seventh_house_question : QuestionAnalysis :=
  mkQuestionAnalysis "general" [1; 7]%Z 7.

(** Mercury at 12 Gemini with the Sun at 0 Gemini. *)
Definition mercury_in_gemini : PlanetPosition :=
  mkPlanetPosition MERCURY 72 0 1 GEMINI 0 false 1.

Definition sun_in_gemini : PlanetPosition :=
  mkPlanetPosition SUN 60 0 1 GEMINI 0 false 1.

(** A Moon at 28 Gemini that hardly moves; no other body stands later in
    its sign. *)
Definition stationary_moon_ephemeris : Ephemeris :=
  mkEphemeris
    (fun p => match p with
              | SUN => Some (200, 0, 1)
              | MOON => Some (88, 0, 1 # 1000)
              | MERCURY => Some (215, 0, 12 # 10)
              | VENUS => Some (168, 0, 12 # 10)
              | MARS => Some (13, 0, 1 # 2)
              | JUPITER => Some (130, 0, 1 # 10)
              | SATURN => Some (74, 0, 5 # 100)
              | _ => None
              end)
    (Some (cusps_from 15, 15, 285)).


(** A waxing Moon 100 degrees ahead of the Sun. *)
Definition waxing_moon_ephemeris : Ephemeris :=
  mkEphemeris
    (fun p => match p with
              | SUN => Some (0, 0, 1)
              | MOON => Some (100, 0, 13)
              | MERCURY => Some (20, 0, 12 # 10)
              | VENUS => Some (40, 0, 12 # 10)
              | MARS => Some (200, 0, 1 # 2)
              | JUPITER => Some (130, 0, 1 # 10)
              | SATURN => Some (300, 0, 5 # 100)
              | _ => None
              end)
    (Some (cusps_from 15, 15, 285)).

(** Venus at 10 Aries, moving 1.2 degrees a day, three degrees behind
    Mars at 13 Aries, moving 0.5 degrees a day. *)
Definition venus_behind_mars : PlanetPosition * PlanetPosition :=
  (mkPlanetPosition VENUS 10 0 12 ARIES 0 false (12 # 10),
   mkPlanetPosition MARS 13 0 12 ARIES 0 false (1 # 2)).

(** Venus retrograde on 0 Taurus, moving 1.2 degrees a day back towards
    Mars at 27 Aries, who moves 0.5 degrees a day: she leaves Taurus at
    once, and their conjunction is three degrees away. *)
Definition venus_leaving_taurus : PlanetPosition * PlanetPosition :=
  (mkPlanetPosition VENUS 30 0 1 TAURUS 0 true (-(12 # 10)),
   mkPlanetPosition MARS 27 0 12 ARIES 0 false (1 # 2)).


(** A Moon at 28 Gemini moving at full speed, with every other body at a
    lower degree of its sign; Mars and Venus (the rulers of houses 1 and 7)
    are out of aspect. *)
Definition void_moon_ephemeris : Ephemeris :=
  mkEphemeris
    (fun p => match eph_planet stationary_moon_ephemeris p, p with
              | Some (l, b, _), MOON => Some (l, b, 13)
              | o, _ => o
              end)
    (eph_houses stationary_moon_ephemeris).

(** Mars at 13 Aries and Venus, three degrees behind and faster, applying
    to their conjunction; Saturn at 14 Gemini, one degree from the sextile
    Mars is applying to. *)
Definition saturn_prohibits_ephemeris : Ephemeris :=
  mkEphemeris
    (fun p => match p with
              | SUN => Some (200, 0, 1)
              | MOON => Some (278, 0, 13)
              | MERCURY => Some (215, 0, 12 # 10)
              | VENUS => Some (10, 0, 12 # 10)
              | MARS => Some (13, 0, 1 # 2)
              | JUPITER => Some (130, 0, 1 # 10)
              | SATURN => Some (74, 0, 5 # 100)
              | _ => None
              end)
    (Some (cusps_from 15, 15, 285)).

(** The Moon at 15 Gemini, two degrees past its sextile to Mars at
    13 Aries and three degrees short of its square to Venus at 18 Virgo;
    Mars and Venus are out of aspect. *)
Definition moon_between_significators_ephemeris : Ephemeris :=
  mkEphemeris
    (fun p => match p with
              | SUN => Some (230, 0, 1)
              | MOON => Some (75, 0, 13)
              | MERCURY => Some (215, 0, 12 # 10)
              | VENUS => Some (168, 0, 12 # 10)
              | MARS => Some (13, 0, 1 # 2)
              | JUPITER => Some (130, 0, 1 # 10)
              | SATURN => Some (300, 0, 5 # 100)
              | _ => None
              end)
    (Some (cusps_from 15, 15, 285)).



Definition stationary_moon_chart : HoraryChart :=
  example_chart stationary_moon_ephemeris.

Definition waxing_moon_chart : HoraryChart := example_chart waxing_moon_ephemeris.


Definition void_moon_chart : HoraryChart := example_chart void_moon_ephemeris.

Definition saturn_prohibits_chart : HoraryChart :=
  example_chart saturn_prohibits_ephemeris.

Definition moon_between_significators_chart : HoraryChart :=
  example_chart moon_between_significators_ephemeris.

(** Collaborators of the entry point for the worked examples: a geocoder
    that knows every place but the empty one, a fixed instant, a fixed sky
    and a fixed question analysis. *)
Definition example_geocode (place : string) : result (Q * Q * string) :=
  if String.eqb place "" then Raise (LocationError "Location not found")
  else Ok (51, 0, "London, England").

Definition example_now (lat lon : Q) : result Q := Ok 2460000.

Definition example_parse (d t : string) (tz : option string) (lat lon : Q)
  : result Q := Ok 2460000.

Definition example_judge_question (eph : Ephemeris) (qa : QuestionAnalysis)
    (req : Request) : Response :=
  judge_question example_config days_to_sign_exit_model calculate_elongation_model
    example_sun_altitude example_is_separating example_str_float example_moon_speed
    true example_geocode example_now example_parse
    (fun _ _ _ => eph) (fun _ => Ok qa) req.

Definition request_with_boost (boost : option Q) : Request :=
  mkRequest "Will my brother write to me?" "London" None None None true
    None false false false false boost.




(* ================================================================== *)
(** ** The three shapes of a response *)

Definition ok_response (j : JudgmentResult) : Response :=
  mkResponse (jr_result j) (jr_confidence j) (jr_reasoning j) (jr_timing j) None None.

Definition location_error_response (m : string) : Response :=
  mkResponse "LOCATION_ERROR" 0 ["Location error: " ++ m] None (Some m)
    (Some "LocationError").

Definition calculation_error_response (m : string) : Response :=
  mkResponse "ERROR" 0 ["Calculation error: " ++ m] None (Some m) None.
(* ================================================================== *)
(* ================================================================== *)
(** ** Notions used to state further properties of the engine *)

(** The arc of a house: from its cusp forward to the next cusp, through
    0 degrees when the next cusp is the smaller one. *)
Definition in_arc (l cusp next : Q) : Prop :=
  (next < cusp /\ (cusp <= l \/ l < next)) \/ (cusp <= next /\ cusp <= l /\ l < next).

(** The cusp of house [i + 1] and of the house after it, reduced as
    [_calculate_house_position] reduces them. *)
Definition cusp_of (cusps : list Q) (i : nat) : Q := py_mod (nth i cusps 0) 360.
Definition next_cusp_of (cusps : list Q) (i : nat) : Q :=
  py_mod (nth (Nat.modulo (i + 1) 12) cusps 0) 360.

(** The two bodies of an aspect entry, in the order the list records them. *)
Definition pair_of (a : AspectInfo) : Planet * Planet := (planet1 a, planet2 a).

(** The widest orb [_calculate_enhanced_aspects] allows two bodies for an
    aspect kind: the configured orb plus the luminary bonuses. *)
Definition max_orb_for (config : Config) (p1 p2 : Planet) (k : Aspect) : Q :=
  let max_orb := aspect_orb config k in
  let max_orb := if planet_in SUN [p1; p2]
                 then max_orb + sun_orb_bonus (orbs config) else max_orb in
  if planet_in MOON [p1; p2] then max_orb + moon_orb_bonus (orbs config) else max_orb.

(** The deviation of the folded separation of two longitudes from the
    exact angle of an aspect kind. *)
Definition orb_diff (l1 l2 : Q) (k : Aspect) : Q :=
  Qabs (angular_separation l1 l2 - aspect_degrees k).

(** The time to exactness [_calculate_moon_next_aspect] gives a lunar
    aspect of the given orb to a body. *)
Definition moon_eta (moon_speed : Q) (planet_pos : PlanetPosition) (orb_diff : Q)
  : xfloat :=
  let relative_speed := Qabs (moon_speed - Qabs (speed planet_pos)) in
  if Qltb 0 relative_speed then Fin (orb_diff / relative_speed) else Inf.

(** The sign opposite a sign. *)
Definition opposite_sign (s : Sign) : Sign := _get_sign (start_degree s + 180).

(** The quesited house each question type stands for; a journey is a long
    one when the question mentions far, foreign or abroad. *)
Definition house_of_type (question question_type : string) : Z :=
  if String.eqb question_type "lost_object" then 2%Z
  else if String.eqb question_type "marriage" then 7%Z
  else if String.eqb question_type "pregnancy" then 5%Z
  else if String.eqb question_type "travel" then
    if any_in ["far"; "foreign"; "abroad"] question then 9%Z else 3%Z
  else if String.eqb question_type "money" then 2%Z
  else if String.eqb question_type "career" then 10%Z
  else if String.eqb question_type "health" then 6%Z
  else 7%Z.

(** The houses added after the quesited house: those of [house_meanings],
    in its order, that are not listed yet and have a keyword in the
    question. *)
Definition keyword_houses (question : string) (houses : list Z) : list Z :=
  map fst
    (filter (fun entry => negb (house_in (fst entry) houses) && any_in (snd entry) question)
       house_meanings).

(* ================================================================== *)
(** ** Further worked examples *)

(** The entry the aspect list of the prohibition example holds for Mars
    and Saturn. *)
Definition saturn_prohibits_entry : AspectInfo := mkAspectInfo MARS SATURN SEXTILE 1 true 1.

(** The entry the aspect list holds for Sun and Moon in a sky in which
    nothing moves (every body at 0 Aries, speed 0). *)
Definition motionless_entry : AspectInfo :=
  mkAspectInfo SUN MOON CONJUNCTION 0 false (1 # 10).

(** The judgment of the void-Moon example. *)
Definition void_moon_judgment : JudgmentResult :=
  mkJudgmentResult "NO" 65
    ["Radicality: Chart is radical - Ascendant at 15.0°";
     "Significators: Querent: Mars (ruler of 1), Quesited: Venus (ruler of 7)";
     "Solar conditions: Under Beams: Mercury";
     "Moon: Moon void of course - Moon makes no more aspects before leaving Gemini"]
    (Some "Nothing comes of the matter").


(** Venus at 10 Capricorn, three degrees short of her square to Mars at
    13 Aries, with no reception between them. *)
Definition venus_squares_mars_ephemeris : Ephemeris :=
  mkEphemeris
    (fun p => match p with
              | SUN => Some (200, 0, 1)
              | MOON => Some (88, 0, 13)
              | MERCURY => Some (215, 0, 12 # 10)
              | VENUS => Some (280, 0, 12 # 10)
              | MARS => Some (13, 0, 1 # 2)
              | JUPITER => Some (130, 0, 1 # 10)
              | SATURN => Some (74, 0, 5 # 100)
              | _ => None
              end)
    (Some (cusps_from 15, 15, 285)).

Definition venus_squares_mars_chart : HoraryChart :=
  example_chart venus_squares_mars_ephemeris.

Definition venus_squares_mars_perfection : Perfection :=
  mkPerfection "direct" false 80 "Square between significators" (Some "none")
    (Some (mkAppliedAspect SQUARE 3 3)).

(** The Moon's last and next aspect in the chart of the Moon standing
    between the significators. *)
Definition moon_left_mars : LunarAspect :=
  mkLunarAspect MARS SEXTILE 2 2 (Fin (2 # 13)) "0.2 days ago" false.

Definition moon_squares_venus : LunarAspect :=
  mkLunarAspect VENUS SQUARE 3 3 (Fin (30 # 118)) "Within hours" true.

(** Mars at 13 Aries applying to the trine of Jupiter at 16 Leo, Venus at
    10 Taurus applying to his square; Mars and Venus are out of aspect. *)
Definition jupiter_collects_ephemeris : Ephemeris :=
  mkEphemeris
    (fun p => match p with
              | SUN => Some (200, 0, 1)
              | MOON => Some (278, 0, 13)
              | MERCURY => Some (215, 0, 12 # 10)
              | VENUS => Some (40, 0, 12 # 10)
              | MARS => Some (13, 0, 1 # 2)
              | JUPITER => Some (136, 0, 1 # 10)
              | SATURN => Some (100, 0, 5 # 100)
              | _ => None
              end)
    (Some (cusps_from 15, 15, 285)).

Definition jupiter_collects_chart : HoraryChart :=
  example_chart jupiter_collects_ephemeris.

Definition jupiter_collects : Collection := mkCollection JUPITER true.

(** Mercury at 5 Gemini, five degrees from the Sun at 0 Gemini. *)
Definition mercury_near_sun : PlanetPosition :=
  mkPlanetPosition MERCURY 65 0 1 GEMINI 0 false 1.

(** ** Comparison lemmas *)

Lemma Qleb_true (x y : Q) : Qleb x y = true <-> x <= y.
Proof. unfold Qleb. apply Qle_bool_iff. Qed.

Lemma Qleb_false (x y : Q) : Qleb x y = false <-> y < x.
Proof.
  unfold Qleb. split; intro H.
  - apply Qnot_le_lt. intro L. apply Qle_bool_iff in L. congruence.
  - destruct (Qle_bool x y) eqn:E; [|reflexivity].
    apply Qle_bool_iff in E. apply Qlt_not_le in H. contradiction.
Qed.

Lemma Qltb_true (x y : Q) : Qltb x y = true <-> x < y.
Proof.
  unfold Qltb. rewrite negb_true_iff. apply (Qleb_false y x).
Qed.

Lemma Qltb_false (x y : Q) : Qltb x y = false <-> y <= x.
Proof.
  unfold Qltb. rewrite negb_false_iff. apply (Qleb_true y x).
Qed.

Lemma Qeqb_true (x y : Q) : Qeqb x y = true <-> x == y.
Proof. unfold Qeqb. apply Qeq_bool_iff. Qed.

Lemma Qeqb_false (x y : Q) : Qeqb x y = false <-> ~ x == y.
Proof.
  split; intro H.
  - intro E. apply Qeqb_true in E. congruence.
  - destruct (Qeqb x y) eqn:E; [|reflexivity]. apply Qeqb_true in E. contradiction.
Qed.

(** Turns the boolean tests in the context into order facts. *)
Ltac qbool :=
  repeat match goal with
  | H : Qleb _ _ = true |- _ => apply Qleb_true in H
  | H : Qleb _ _ = false |- _ => apply Qleb_false in H
  | H : Qltb _ _ = true |- _ => apply Qltb_true in H
  | H : Qltb _ _ = false |- _ => apply Qltb_false in H
  | H : Qeqb _ _ = true |- _ => apply Qeqb_true in H
  | H : Qeqb _ _ = false |- _ => apply Qeqb_false in H
  end.

Lemma py_min_le_r (a b : Q) : py_min a b <= b.
Proof.
  unfold py_min. destruct (Qltb b a) eqn:E; qbool; lra.
Qed.



(* ================================================================== *)
(** ** Solar condition *)

(** C6.  For every body other than the Sun the solar condition is the
    hierarchy Cazimi, Combustion, Under the Beams, Free taken narrowest to
    widest on the elongation, downgraded to Free by the visibility
    exception only from Combustion or Under the Beams; the exception is
    consulted for Mercury and Venus only and never changes a Cazimi. *)
Theorem solar_condition_follows_hierarchy :
  forall (config : Config) (calculate_elongation : Q -> Q -> Q)
         (sun_altitude : Q -> Q -> Q -> Q)
         (p : Planet) (planet_pos sun_pos : PlanetPosition) (lat lon jd_ut : Q),
    p <> SUN ->
    let analysis :=
      _analyze_enhanced_solar_condition config calculate_elongation sun_altitude
        p planet_pos sun_pos lat lon jd_ut in
    let elongation := calculate_elongation (longitude planet_pos) (longitude sun_pos) in
    let hierarchy :=
      spec_solar_hierarchy (cazimi_orb_arcmin (orbs config) / 60)
        (combustion_orb (orbs config)) (under_beams_orb (orbs config)) elongation in
    let exception_applies :=
      combustion_resistant p
      && _check_enhanced_combustion_exception calculate_elongation sun_altitude
           p planet_pos sun_pos lat lon jd_ut in
    condition analysis = spec_visibility_downgrade exception_applies hierarchy
    /\ (hierarchy = CAZIMI ->
        condition analysis = CAZIMI /\ traditional_exception analysis = false)
    /\ (condition analysis <> hierarchy ->
        (hierarchy = COMBUSTION \/ hierarchy = UNDER_BEAMS)
        /\ condition analysis = FREE
        /\ (p = MERCURY \/ p = VENUS)).
Proof.
  intros config ce sa p planet_pos sun_pos lat lon jd_ut Hsun.
  cbv zeta.
  unfold _analyze_enhanced_solar_condition, spec_solar_hierarchy.
  destruct p; try congruence; cbn [combustion_resistant andb];
    destruct (Qleb (ce (longitude planet_pos) (longitude sun_pos))
                (cazimi_orb_arcmin (orbs config) / 60));
    destruct (Qleb (ce (longitude planet_pos) (longitude sun_pos))
                (combustion_orb (orbs config)));
    destruct (Qleb (ce (longitude planet_pos) (longitude sun_pos))
                (under_beams_orb (orbs config)));
    try destruct (_check_enhanced_combustion_exception ce sa _ planet_pos sun_pos lat lon jd_ut);
    cbn; repeat split; try congruence; auto; try discriminate;
    intros; try congruence.
Qed.

Lemma solar_condition_follows_hierarchy_witness :
  MERCURY <> SUN
  /\ condition (_analyze_enhanced_solar_condition example_config
                  calculate_elongation_model example_sun_altitude
                  MERCURY mercury_in_gemini sun_in_gemini 51 0 2460000) = FREE
  /\ spec_solar_hierarchy (17 / 60) (17 # 2) 15
       (calculate_elongation_model 72 60) = UNDER_BEAMS.
Proof.
  split; [discriminate|]. split; [|reflexivity].
  rewrite (proj1 (solar_condition_follows_hierarchy example_config
                    calculate_elongation_model example_sun_altitude MERCURY
                    mercury_in_gemini sun_in_gemini
                    51 0 2460000 ltac:(discriminate))).
  reflexivity.
Defined.

(* ================================================================== *)
(** ** Void of course *)

(** C10.  When the Moon's absolute daily speed is below the stationary
    threshold, the by-sign computation reports "not void" whatever the
    other bodies do, and so does the Lilly method, which takes its verdict
    from the by-sign computation. *)
Theorem stationary_moon_is_not_void :
  forall (config : Config) (chart : HoraryChart),
    Qabs (speed (planets chart MOON)) < stationary_speed_threshold (timing config) ->
    void (_void_by_sign_method config chart) = false
    /\ void (_void_lilly_method config chart) = false.
Proof.
  intros config chart Hslow.
  assert (Hsign : void (_void_by_sign_method config chart) = false).
  { unfold _void_by_sign_method.
    apply Qltb_true in Hslow. rewrite Hslow. reflexivity. }
  split; [exact Hsign|].
  unfold _void_lilly_method. cbn [void]. exact Hsign.
Qed.

Lemma stationary_moon_is_not_void_witness :
  Qabs (speed (planets stationary_moon_chart MOON))
  < stationary_speed_threshold (timing example_config)
  /\ future_aspects_in_sign stationary_moon_chart = []
  /\ void (_void_by_sign_method example_config stationary_moon_chart) = false
  /\ void (_void_lilly_method example_config stationary_moon_chart) = false.
Proof.
  assert (H : Qabs (speed (planets stationary_moon_chart MOON))
              < stationary_speed_threshold (timing example_config))
    by (vm_compute; reflexivity).
  split; [exact H|]. split; [vm_compute; reflexivity|].
  exact (stationary_moon_is_not_void example_config stationary_moon_chart H).
Defined.

(* ================================================================== *)
(** ** The normalisation loops reach their exit tests *)

Lemma inject_Z_succ (n : nat) :
  inject_Z (Z.of_nat (S n)) == inject_Z (Z.of_nat n) + 1.
Proof.
  rewrite Nat2Z.inj_succ. unfold Z.succ. rewrite inject_Z_plus. reflexivity.
Qed.

Lemma while_above_fixed (n : nat) (s : Q) : s <= 180 -> while_above n s = s.
Proof.
  intro H. destruct n; cbn; [reflexivity|].
  apply Qltb_false in H. rewrite H. reflexivity.
Qed.

Lemma while_above_upper (n : nat) :
  forall s, s <= 180 + 360 * inject_Z (Z.of_nat n) -> while_above n s <= 180.
Proof.
  induction n as [|n IH]; intros s H.
  - change (inject_Z (Z.of_nat 0)) with 0 in H. cbn [while_above]. lra.
  - cbn [while_above]. destruct (Qltb 180 s) eqn:E; qbool; [|exact E].
    apply IH. rewrite inject_Z_succ in H. lra.
Qed.

Lemma while_above_lower (n : nat) :
  forall s, -(180) < s -> -(180) < while_above n s.
Proof.
  induction n as [|n IH]; intros s H; cbn [while_above]; [exact H|].
  destruct (Qltb 180 s) eqn:E; qbool; [|exact H].
  apply IH. lra.
Qed.

Lemma while_below_fixed (n : nat) (s : Q) : -(180) <= s -> while_below n s = s.
Proof.
  intro H. destruct n; cbn; [reflexivity|].
  apply Qltb_false in H. rewrite H. reflexivity.
Qed.

Lemma while_below_lower (n : nat) :
  forall s, -(180) - 360 * inject_Z (Z.of_nat n) <= s -> -(180) <= while_below n s.
Proof.
  induction n as [|n IH]; intros s H.
  - change (inject_Z (Z.of_nat 0)) with 0 in H. cbn [while_below]. lra.
  - cbn [while_below]. destruct (Qltb s (-(180))) eqn:E; qbool; [|exact E].
    apply IH. rewrite inject_Z_succ in H. lra.
Qed.

Lemma while_below_upper (n : nat) :
  forall s, s <= 180 -> while_below n s <= 180.
Proof.
  induction n as [|n IH]; intros s H; cbn [while_below]; [exact H|].
  destruct (Qltb s (-(180))) eqn:E; qbool; [|exact H].
  apply IH. lra.
Qed.

Lemma loop_bound_covers (s : Q) :
  Qabs s <= 360 * inject_Z (Z.of_nat (loop_bound s)).
Proof.
  unfold loop_bound. rewrite inject_Z_succ.
  pose proof (Qle_ceiling (Qabs s / 360)) as Hc.
  assert (Hz : inject_Z (Qceiling (Qabs s / 360))
               <= inject_Z (Z.of_nat (Z.to_nat (Qceiling (Qabs s / 360))))).
  { rewrite <- Zle_Qle. lia. }
  assert (Hs : Qabs s == 360 * (Qabs s / 360)) by (field).
  lra.
Qed.

(** Both loops of the normalisation leave through their tests: the result
    lies in [[-180, 180]]. *)
Lemma normalize_180_range (s : Q) :
  -(180) <= normalize_180 s /\ normalize_180 s <= 180.
Proof.
  unfold normalize_180.
  pose proof (loop_bound_covers s) as Hb.
  assert (Habs : s <= Qabs s /\ - Qabs s <= s).
  { split; [apply Qle_Qabs|]. rewrite <- (Qopp_opp s) at 2.
    apply Qopp_le_compat. rewrite <- Qabs_opp. apply Qle_Qabs. }
  destruct Habs as [Hu Hl].
  assert (Hup : while_above (loop_bound s) s <= 180) by (apply while_above_upper; lra).
  destruct (Qlt_le_dec 180 s) as [Hbig|Hsmall].
  - assert (Hlow : -(180) < while_above (loop_bound s) s)
      by (apply while_above_lower; lra).
    rewrite while_below_fixed by lra. lra.
  - rewrite (while_above_fixed _ s Hsmall).
    split; [apply while_below_lower; lra | apply while_below_upper; exact Hsmall].
Qed.

(* ================================================================== *)
(** ** Applying aspects and sign exits *)

Lemma truthy_some (d : Q) : ~ d == 0 -> truthy (Some d) = true.
Proof.
  intro H. unfold truthy. apply Qeqb_false in H. rewrite H. reflexivity.
Qed.

Lemma faster_slower_cases (pos1 pos2 : PlanetPosition) :
  faster_slower pos1 pos2 = (pos1, pos2) \/ faster_slower pos1 pos2 = (pos2, pos1).
Proof.
  unfold faster_slower. destruct (Qltb _ _); auto.
Qed.

Lemma is_applying_false_on_early_exit :
  forall (config : Config) (days_to_sign_exit : Q -> Q -> option Q)
         (pos1 pos2 body : PlanetPosition) (a : Aspect) (d : Q),
    body = pos1 \/ body = pos2 ->
    days_to_sign_exit (longitude body) (speed body) = Some d ->
    ~ d == 0 ->
    xgt (days_to_perfect pos1 pos2 a) d = true ->
    _is_applying_enhanced config days_to_sign_exit pos1 pos2 a = false.
Proof.
  intros config dse pos1 pos2 body a d Hbody Hexit Hnz Hlate.
  unfold _is_applying_enhanced.
  destruct (faster_slower pos1 pos2) as [faster slower] eqn:F.
  assert (Hb : body = faster \/ body = slower).
  { destruct (faster_slower_cases pos1 pos2) as [C|C]; rewrite C in F;
      inversion F; subst; tauto. }
  destruct Hb as [Hb|Hb]; subst body.
  - rewrite Hexit, (truthy_some d Hnz), Hlate. reflexivity.
  - destruct (truthy (dse (longitude faster) (speed faster)) && _); [reflexivity|].
    rewrite Hexit, (truthy_some d Hnz), Hlate. reflexivity.
Qed.

Lemma xgt_false (x : xfloat) (d : Q) :
  xgt x d = false -> exists t, x = Fin t /\ t <= d.
Proof.
  destruct x as [t|]; cbn; intro H; [|discriminate].
  exists t. split; [reflexivity|]. apply Qltb_false in H. exact H.
Qed.

(** The sign-exit cut-off for every exit time other than zero: a pair is
    classified as applying only if the projected days to exactness
    (current orb over the absolute speed difference) do not exceed the
    days either body needs to leave its sign; when the sign exit reported
    for either body comes earlier, the applying flag is false, and
    likewise the in-sign perfection test of the judgment fails. *)
Theorem applying_requires_perfection_before_sign_exit :
  forall (config : Config) (days_to_sign_exit : Q -> Q -> option Q)
         (pos1 pos2 body : PlanetPosition) (a : Aspect) (d : Q),
    body = pos1 \/ body = pos2 ->
    days_to_sign_exit (longitude body) (speed body) = Some d ->
    ~ d == 0 ->
    (_is_applying_enhanced config days_to_sign_exit pos1 pos2 a = true ->
     exists t, days_to_perfect pos1 pos2 a = Fin t /\ t <= d)
    /\ (xgt (days_to_perfect pos1 pos2 a) d = true ->
        _is_applying_enhanced config days_to_sign_exit pos1 pos2 a = false)
    /\ (forall info : AppliedAspect,
          _enhanced_perfects_in_sign days_to_sign_exit pos1 pos2 info = true ->
          ~ Qabs (speed pos1 - speed pos2) == 0
          /\ aa_degrees_to_exact info / Qabs (speed pos1 - speed pos2) <= d).
Proof.
  intros config dse pos1 pos2 body a d Hbody Hexit Hnz.
  split; [|split].
  - intro Happ. apply xgt_false.
    destruct (xgt (days_to_perfect pos1 pos2 a) d) eqn:E; [|reflexivity].
    rewrite (is_applying_false_on_early_exit config dse pos1 pos2 body a d
               Hbody Hexit Hnz E) in Happ.
    discriminate.
  - apply (is_applying_false_on_early_exit config dse pos1 pos2 body a d Hbody Hexit Hnz).
  - intros info. unfold _enhanced_perfects_in_sign.
    destruct (Qeqb (Qabs (speed pos1 - speed pos2)) 0) eqn:Erel; [discriminate|].
    apply Qeqb_false in Erel. intro Hp. split; [exact Erel|].
    destruct Hbody as [Hb|Hb]; subst body; rewrite Hexit, (truthy_some d Hnz) in Hp;
      cbn [andb] in Hp.
    + destruct (Qltb d _) eqn:E1; [discriminate|]. apply Qltb_false in E1. exact E1.
    + destruct (truthy (dse (longitude pos1) (speed pos1)) && _); [discriminate|].
      destruct (Qltb d _) eqn:E1; [discriminate|]. apply Qltb_false in E1. exact E1.
Qed.

Lemma applying_requires_perfection_before_sign_exit_witness :
  (fst venus_behind_mars = fst venus_behind_mars
   \/ fst venus_behind_mars = snd venus_behind_mars)
  /\ days_to_sign_exit_model (longitude (fst venus_behind_mars))
       (speed (fst venus_behind_mars)) = Some (200 # 12)
  /\ ~ (200 # 12) == 0
  /\ _is_applying_enhanced example_config days_to_sign_exit_model
       (fst venus_behind_mars) (snd venus_behind_mars) CONJUNCTION = true
  /\ exists t,
       days_to_perfect (fst venus_behind_mars) (snd venus_behind_mars) CONJUNCTION
       = Fin t
       /\ t <= 200 # 12.
Proof.
  assert (Hb : fst venus_behind_mars = fst venus_behind_mars
               \/ fst venus_behind_mars = snd venus_behind_mars) by (left; reflexivity).
  assert (He : days_to_sign_exit_model (longitude (fst venus_behind_mars))
                 (speed (fst venus_behind_mars)) = Some (200 # 12))
    by (vm_compute; reflexivity).
  assert (Hn : ~ (200 # 12) == 0) by (intro H; vm_compute in H; discriminate).
  assert (Ha : _is_applying_enhanced example_config days_to_sign_exit_model
                 (fst venus_behind_mars) (snd venus_behind_mars) CONJUNCTION = true)
    by (vm_compute; reflexivity).
  repeat split; try assumption.
  exact (proj1 (applying_requires_perfection_before_sign_exit example_config
                  days_to_sign_exit_model (fst venus_behind_mars)
                  (snd venus_behind_mars) (fst venus_behind_mars) CONJUNCTION
                  (200 # 12) Hb He Hn) Ha).
Defined.

(** C3.  The cut-off misses a body that leaves its sign at once.  The
    exit time is tested by its truth value, so an exit after zero days is
    treated like no exit at all: with Venus retrograde on 0 Taurus and
    Mars at 27 Aries the sign exit (0 days) comes before the conjunction
    (30/17 days), yet the pair is classified as applying and the in-sign
    perfection test of the judgment succeeds. *)
Theorem zero_exit_time_is_not_tested :
  (exists d,
     days_to_sign_exit_model (longitude (fst venus_leaving_taurus))
       (speed (fst venus_leaving_taurus)) = Some d
     /\ d == 0)
  /\ (exists t,
        days_to_perfect (fst venus_leaving_taurus) (snd venus_leaving_taurus) CONJUNCTION
        = Fin t
        /\ t == 30 # 17)
  /\ _is_applying_enhanced example_config days_to_sign_exit_model
       (fst venus_leaving_taurus) (snd venus_leaving_taurus) CONJUNCTION = true
  /\ _enhanced_perfects_in_sign days_to_sign_exit_model
       (fst venus_leaving_taurus) (snd venus_leaving_taurus)
       (mkAppliedAspect CONJUNCTION 3 3) = true.
Proof.
  split; [eexists; split; [vm_compute; reflexivity | reflexivity]|].
  split; [eexists; split; [vm_compute; reflexivity | reflexivity]|].
  split; vm_compute; reflexivity.
Qed.

(** For a difference of two longitudes of [[0, 360)] each loop runs at
    most once. *)
Lemma normalize_180_small (x : Q) :
  -(360) < x -> x < 360 ->
  normalize_180 x
  = if Qltb 180 x then x - 360 else if Qltb x (-(180)) then x + 360 else x.
Proof.
  intros Hlo Hhi. unfold normalize_180, loop_bound.
  cbn [while_above]. destruct (Qltb 180 x) eqn:E; qbool.
  - rewrite while_above_fixed by lra. cbn [while_below].
    assert (F : Qltb (x - 360) (-(180)) = false) by (apply Qltb_false; lra).
    rewrite F. reflexivity.
  - cbn [while_below]. destruct (Qltb x (-(180))) eqn:F; qbool; [|reflexivity].
    apply while_below_fixed. lra.
Qed.

Lemma Qabs_cases (x : Q) : (0 <= x /\ Qabs x == x) \/ (x <= 0 /\ Qabs x == - x).
Proof.
  destruct (Qlt_le_dec x 0) as [H|H].
  - right. split; [lra|]. apply Qabs_neg. lra.
  - left. split; [exact H|]. apply Qabs_pos. exact H.
Qed.

(** Replaces an absolute value whose argument holds none by a variable
    with its two defining cases. *)
Ltac qabs_step :=
  match goal with
  | |- context [Qabs ?x] =>
      lazymatch x with
      | context [Qabs _] => fail
      | _ => let v := fresh "v" in
             let Hv := fresh "Hv" in
             destruct (Qabs_cases x) as [[? Hv]|[? Hv]];
             rewrite !Hv in *; clear Hv
      end
  | H : context [Qabs ?x] |- _ =>
      lazymatch x with
      | context [Qabs _] => fail
      | _ => let Hv := fresh "Hv" in
             destruct (Qabs_cases x) as [[? Hv]|[? Hv]];
             rewrite !Hv in *; clear Hv
      end
  end.

Lemma closest_target_orb (s : Q) (a : Aspect) :
  -(180) <= s -> s <= 180 ->
  Qabs (s - closest_target s a) == Qabs (Qabs s - aspect_degrees a).
Proof.
  intros Hlo Hhi. unfold closest_target.
  destruct a; cbn [aspect_degrees];
    match goal with
    | |- context [negb (Qeqb ?t 0) && negb (Qeqb ?t 180)] =>
        let b := eval vm_compute in (negb (Qeqb t 0) && negb (Qeqb t 180)) in
        replace (negb (Qeqb t 0) && negb (Qeqb t 180)) with b by reflexivity
    end;
    cbn [app tl min_by xltb];
    repeat match goal with
           | |- context [Qltb ?x ?y] => destruct (Qltb x y) eqn:?
           end;
    qbool; repeat qabs_step; lra.
Qed.

Lemma abs_normalized_separation (l1 l2 : Q) :
  0 <= l1 -> l1 < 360 -> 0 <= l2 -> l2 < 360 ->
  Qabs (normalize_180 (l1 - l2)) == angular_separation l1 l2
  /\ Qabs (normalize_180 (l2 - l1)) == angular_separation l1 l2.
Proof.
  intros H1 H1' H2 H2'.
  rewrite !normalize_180_small by lra.
  unfold angular_separation.
  repeat match goal with
         | |- context [Qltb ?x ?y] => destruct (Qltb x y) eqn:?
         end;
    qbool; repeat qabs_step; split; lra.
Qed.

(** The orb the applying test works with is the orb-diff of the aspect
    list: the deviation of the folded angular separation from the exact
    angle of the aspect. *)
Lemma current_orb_is_orb_diff (pos1 pos2 : PlanetPosition) (a : Aspect) :
  0 <= longitude pos1 -> longitude pos1 < 360 ->
  0 <= longitude pos2 -> longitude pos2 < 360 ->
  current_orb pos1 pos2 a
  == Qabs (angular_separation (longitude pos1) (longitude pos2) - aspect_degrees a).
Proof.
  intros H1 H1' H2 H2'.
  destruct (abs_normalized_separation _ _ H1 H1' H2 H2') as [E12 E21].
  unfold current_orb, applying_separation.
  destruct (faster_slower_cases pos1 pos2) as [F|F]; rewrite F;
    rewrite closest_target_orb by apply normalize_180_range;
    [rewrite E12 | rewrite E21]; reflexivity.
Qed.

(* ================================================================== *)
(** ** Moon phase bands *)

Lemma between_true (lo e hi : Q) : between lo e hi = true <-> lo <= e /\ e < hi.
Proof.
  unfold between. rewrite andb_true_iff, Qleb_true, Qltb_true. reflexivity.
Qed.

Lemma between_false (lo e hi : Q) : between lo e hi = false <-> e < lo \/ hi <= e.
Proof.
  unfold between. rewrite andb_false_iff, Qleb_false, Qltb_false. reflexivity.
Qed.

(** Decides one test of the phase chain from the bounds in the context. *)
Ltac band_step :=
  match goal with
  | |- context [between ?lo ?e ?hi] =>
      let E := fresh "E" in
      destruct (between lo e hi) eqn:E;
      [apply between_true in E | apply between_false in E]
  end.

(** C7, as the code has it.  The phase bonus and the phase name are those
    of the band of the chain that holds the Sun-Moon elongation the engine
    computes; the bands are [0,30), [30,60), [60,120), [120,150),
    [150,210), [210,240), [240,300) and [300,360). *)
Theorem moon_phase_bonus_by_band :
  forall (config : Config) (chart : HoraryChart) (b : PhaseBand),
    in_band b (moon_elongation chart) ->
    _moon_phase_bonus config chart = band_bonus (phase_bonus (moon config)) b
    /\ _get_moon_phase_name chart = band_name b.
Proof.
  intros config chart b [Hlo Hhi].
  unfold _moon_phase_bonus, _get_moon_phase_name, phase_bonus_at, phase_name_at.
  generalize dependent (moon_elongation chart). intros e Hlo Hhi.
  destruct b; cbn [band_bounds fst snd] in Hlo, Hhi; cbn [band_bonus band_name];
    repeat (band_step; try (exfalso; lra); try (split; reflexivity)).
Qed.

Lemma moon_phase_bonus_by_band_witness :
  in_band FirstQuarter (moon_elongation waxing_moon_chart)
  /\ _moon_phase_bonus example_config waxing_moon_chart = 2%Z
  /\ _get_moon_phase_name waxing_moon_chart = "First Quarter".
Proof.
  assert (H : in_band FirstQuarter (moon_elongation waxing_moon_chart))
    by (split; vm_compute; congruence).
  split; [exact H|].
  exact (moon_phase_bonus_by_band example_config waxing_moon_chart FirstQuarter H).
Defined.

(** C7, as stated, fails: at an elongation of 100 degrees the fourth of
    eight equal 30-degree bands would be waxing gibbous, while the engine
    returns the first-quarter bonus. *)
Lemma moon_phase_bands_are_not_thirty_degrees_wide :
  moon_elongation waxing_moon_chart == 100
  /\ spec_phase_bonus (phase_bonus (moon example_config))
       (moon_elongation waxing_moon_chart)
     = waxing_gibbous (phase_bonus (moon example_config))
  /\ _moon_phase_bonus example_config waxing_moon_chart
     = first_quarter (phase_bonus (moon example_config))
  /\ _moon_phase_bonus example_config waxing_moon_chart
     <> spec_phase_bonus (phase_bonus (moon example_config))
          (moon_elongation waxing_moon_chart).
Proof.
  repeat split; try (vm_compute; congruence).
Qed.

(* ================================================================== *)
(** ** Radicality *)






(* ================================================================== *)
(** ** Lunar testimony: the void Moon *)

Lemma void_reason_mentions_void_of_course (why : string) :
  contains "void of course" ("Moon: " ++ "Moon void of course - " ++ why).
Proof.
  exists "Moon: Moon ", (" - " ++ why). reflexivity.
Qed.

Lemma In_append {A : Type} (l : list A) (x : A) : In x (append l x).
Proof.
  unfold append. apply in_or_app. right. left. reflexivity.
Qed.

(** C4.  When the judgment gets as far as the lunar testimony (the chart
    is radical or radicality is bypassed, the significators are distinct,
    no perfection and no denial fires), the void-of-course override is off,
    the method is by_sign and the Moon is void with no exception, the
    verdict is NO, the timing text is "Nothing comes of the matter" and the
    reasoning trail has a line containing "void of course". *)
Theorem void_moon_yields_no :
  forall (config : Config) (days_to_sign_exit : Q -> Q -> option Q)
         (is_separating : Q -> Q -> Q -> Q -> Q -> Q -> bool)
         (str_float : Q -> string) (get_real_moon_speed : Q -> Q)
         (chart : HoraryChart) (question_analysis : QuestionAnalysis)
         (ignore_radicality ignore_combustion ignore_saturn_7th : bool) (boost : Q)
         (querent quesited : Planet) (description : string),
    ignore_radicality = true
    \/ valid (_check_enhanced_radicality config chart ignore_saturn_7th) = true ->
    _identify_significators chart question_analysis
    = ValidSignificators querent quesited description ->
    _check_enhanced_perfection config days_to_sign_exit is_separating str_float
      chart querent quesited boost = None ->
    _check_enhanced_denial_conditions config chart querent quesited = None ->
    void_rule (moon config) = "by_sign" ->
    void (_void_by_sign_method config chart) = true ->
    exception (_void_by_sign_method config chart) = false ->
    exists r : JudgmentResult,
      _apply_enhanced_judgment config days_to_sign_exit is_separating str_float
        get_real_moon_speed chart question_analysis
        ignore_radicality false ignore_combustion ignore_saturn_7th boost = Ok r
      /\ jr_result r = "NO"
      /\ jr_timing r = Some "Nothing comes of the matter"
      /\ exists line, In line (jr_reasoning r) /\ contains "void of course" line.
Proof.
  intros config dse is_sep strf speed_of chart qa ir ic i7 boost querent quesited desc
         Hrad Hsig Hperf Hden Hrule Hvoid Hexc.
  assert (Hgate : negb ir
                  && negb (valid (_check_enhanced_radicality config chart i7)) = false).
  { destruct Hrad as [-> | ->]; [reflexivity | apply andb_false_r]. }
  assert (Hv : _is_moon_void_of_course_enhanced config strf chart
               = _void_by_sign_method config chart).
  { unfold _is_moon_void_of_course_enhanced. rewrite Hrule. reflexivity. }
  unfold _apply_enhanced_judgment.
  rewrite Hgate, Hsig.
  destruct (solar_adjustment config _ ic) as [c0 solar_lines].
  rewrite Hperf, Hden.
  unfold _check_enhanced_moon_testimony.
  rewrite Hv, Hvoid, Hexc. cbn [negb andb favorable unfavorable mt_reason mt_timing].
  eexists. split; [reflexivity|].
  cbn [jr_result jr_timing jr_reasoning].
  split; [reflexivity|]. split; [reflexivity|].
  eexists. split; [apply In_append|].
  apply void_reason_mentions_void_of_course.
Qed.

Lemma void_moon_yields_no_witness :
  valid (_check_enhanced_radicality example_config void_moon_chart false) = true
  /\ void (_void_by_sign_method example_config void_moon_chart) = true
  /\ exception (_void_by_sign_method example_config void_moon_chart) = false
  /\ exists r,
       example_judgment void_moon_chart seventh_house_question false false 15 = Ok r
       /\ jr_result r = "NO"
       /\ jr_timing r = Some "Nothing comes of the matter"
       /\ exists line, In line (jr_reasoning r) /\ contains "void of course" line.
Proof.
  assert (Hr : valid (_check_enhanced_radicality example_config void_moon_chart false)
               = true)
    by (vm_compute; reflexivity).
  assert (Hv : void (_void_by_sign_method example_config void_moon_chart) = true)
    by (vm_compute; reflexivity).
  assert (He : exception (_void_by_sign_method example_config void_moon_chart) = false)
    by (vm_compute; reflexivity).
  repeat (split; [assumption|]).
  apply (void_moon_yields_no example_config days_to_sign_exit_model
           example_is_separating example_str_float example_moon_speed
           void_moon_chart seventh_house_question
           false false false 15 MARS VENUS
           "Querent: Mars (ruler of 1), Quesited: Venus (ruler of 7)");
    try assumption; try (vm_compute; reflexivity).
  right. exact Hr.
Defined.

(* ================================================================== *)
(** ** Confidence bounds *)




Lemma bind_ok {A B : Type} (m : result A) (k : A -> result B) (b : B) :
  bind m k = Ok b -> exists a, m = Ok a /\ k a = Ok b.
Proof.
  destruct m as [a|e]; cbn; intro H; [|discriminate]. exists a. auto.
Qed.

(** Case analysis on a test of [H] whose scrutinee holds no further test. *)
Ltac break_match_in H :=
  match type of H with
  | context [match ?x with _ => _ end] =>
      lazymatch x with
      | context [match _ with _ => _ end] => fail
      | _ => destruct x eqn:?
      end
  end.








(* ================================================================== *)
(** ** Prohibition *)

(** Whenever a perfection is found the verdict is taken from it; the
    denial conditions are not consulted. *)
Lemma perfection_decides_before_denial :
  forall config dse is_sep strf speed_of chart qa ir ivm ic i7 boost
         querent quesited description p r,
    _identify_significators chart qa = ValidSignificators querent quesited description ->
    _check_enhanced_perfection config dse is_sep strf chart querent quesited boost
    = Some p ->
    _apply_enhanced_judgment config dse is_sep strf speed_of chart qa ir ivm ic i7 boost
    = Ok r ->
    jr_result r = "NOT RADICAL"
    \/ jr_result r = (if p_favorable p then "YES" else "NO").
Proof.
  intros config dse is_sep strf speed_of chart qa ir ivm ic i7 boost
         querent quesited description p r Hsig Hperf H.
  unfold _apply_enhanced_judgment in H.
  destruct (negb ir && negb (valid (_check_enhanced_radicality config chart i7))).
  { inversion H; subst. left. reflexivity. }
  rewrite Hsig in H.
  destruct (solar_adjustment config _ ic) as [c0 lines].
  rewrite Hperf in H.
  apply bind_ok in H. destruct H as (t & _ & H). inversion H; subst.
  right. reflexivity.
Qed.

Lemma planet_eqb_eq (a b : Planet) : planet_eqb a b = true -> a = b.
Proof. destruct a, b; cbn; intro H; try discriminate; reflexivity. Qed.

Lemma normalize_180_fixed (y : Q) : -(180) <= y -> y <= 180 -> normalize_180 y = y.
Proof.
  intros Hlo Hhi. unfold normalize_180.
  rewrite while_above_fixed by exact Hhi. apply while_below_fixed. exact Hlo.
Qed.

(** Bodies that keep their distance are not applying. *)
Lemma equal_speeds_do_not_apply :
  forall config dse pos1 pos2 k,
    Qabs (speed pos1 - speed pos2) == 0 ->
    _is_applying_enhanced config dse pos1 pos2 k = false.
Proof.
  intros config dse pos1 pos2 k Hrel.
  assert (Hv : speed pos1 - speed pos2 == 0).
  { destruct (Qabs_cases (speed pos1 - speed pos2)) as [[_ E]|[_ E]]; lra. }
  unfold _is_applying_enhanced, current_orb, applying_separation.
  destruct (faster_slower pos1 pos2) as [faster slower] eqn:F.
  assert (Hfs : speed faster - speed slower == 0).
  { destruct (faster_slower_cases pos1 pos2) as [C|C]; rewrite C in F;
      inversion F; subst; lra. }
  repeat match goal with
         | |- (if ?b then false else _) = false => destruct b; [reflexivity|]
         end.
  set (sep := normalize_180 (longitude faster - longitude slower)).
  pose proof (normalize_180_range (longitude faster - longitude slower)) as [Hlo Hhi].
  fold sep in Hlo, Hhi.
  set (y := sep + (speed faster - speed slower) * timing_precision_days (timing config)).
  assert (Hy : y == sep) by (unfold y; rewrite Hfs; ring).
  rewrite (normalize_180_fixed y) by lra.
  apply Qltb_false. rewrite Hy. apply Qle_refl.
Qed.

Lemma degrees_to_exact_at_least_tenth (pos1 pos2 : PlanetPosition) (k : Aspect) :
  1 # 10 <= _calculate_enhanced_degrees_to_exact pos1 pos2 k.
Proof.
  unfold _calculate_enhanced_degrees_to_exact.
  destruct (Qltb _ (1 # 10)) eqn:E; qbool; lra.
Qed.

Lemma degrees_to_exact_above_tenth (pos1 pos2 : PlanetPosition) (k : Aspect) :
  1 # 10 < _calculate_enhanced_degrees_to_exact pos1 pos2 k ->
  _calculate_enhanced_degrees_to_exact pos1 pos2 k
  = Qabs (angular_separation (longitude pos1) (longitude pos2) - aspect_degrees k).
Proof.
  unfold _calculate_enhanced_degrees_to_exact.
  destruct (Qltb _ (1 # 10)) eqn:E; qbool; intro H; [lra | reflexivity].
Qed.

(** Every entry of the aspect list carries the applying flag and the
    degrees to exactness computed from the positions of its two bodies. *)
Lemma first_aspect_entry :
  forall config dse p1 p2 pos1 pos2 kinds a,
    In a (first_aspect config dse p1 p2 pos1 pos2 kinds) ->
    planet1 a = p1 /\ planet2 a = p2
    /\ applying a = _is_applying_enhanced config dse pos1 pos2 (aspect a)
    /\ degrees_to_exact a = _calculate_enhanced_degrees_to_exact pos1 pos2 (aspect a).
Proof.
  intros config dse p1 p2 pos1 pos2 kinds a.
  induction kinds as [|k ks IH]; cbn [first_aspect]; [intros []|].
  destruct (Qleb _ _); [|exact IH].
  intros [H|[]]. subst a. cbn. auto.
Qed.

Lemma aspects_from_entry :
  forall config dse positions planet_list a,
    In a (aspects_from config dse positions planet_list) ->
    applying a
    = _is_applying_enhanced config dse (positions (planet1 a)) (positions (planet2 a))
        (aspect a)
    /\ degrees_to_exact a
       = _calculate_enhanced_degrees_to_exact (positions (planet1 a))
           (positions (planet2 a)) (aspect a).
Proof.
  intros config dse positions planet_list a.
  induction planet_list as [|p1 rest IH]; cbn [aspects_from]; [intros []|].
  intro H. apply in_app_or in H. destruct H as [H|H]; [|exact (IH H)].
  apply in_flat_map in H. destruct H as (p2 & _ & H).
  apply first_aspect_entry in H. destruct H as (E1 & E2 & Ha & Hd).
  subst p1 p2. auto.
Qed.

Lemma find_applying_aspect_entry :
  forall chart p1 p2 sig,
    _find_applying_aspect chart p1 p2 = Some sig ->
    exists e,
      In e (aspects chart) /\ applying e = true
      /\ ((planet1 e = p1 /\ planet2 e = p2) \/ (planet1 e = p2 /\ planet2 e = p1))
      /\ aa_degrees_to_exact sig = degrees_to_exact e.
Proof.
  intros chart p1 p2 sig H. unfold _find_applying_aspect in H.
  destruct (find _ (aspects chart)) as [e|] eqn:F; [|discriminate].
  apply find_some in F. destruct F as [Hin Hb].
  apply andb_true_iff in Hb. destruct Hb as [Hp Ha].
  inversion H; subst sig. cbn [aa_degrees_to_exact].
  exists e. repeat split; try assumption.
  apply orb_true_iff in Hp. destruct Hp as [Hp|Hp];
    apply andb_true_iff in Hp; destruct Hp as [Hx Hy];
    apply planet_eqb_eq in Hx; apply planet_eqb_eq in Hy; auto.
Qed.

(** While an aspect is applying, the days to exactness the applying test
    works with fit before every sign exit the helper reports. *)
Lemma applying_fits_before_exit :
  forall config dse pos1 pos2 body k d,
    _is_applying_enhanced config dse pos1 pos2 k = true ->
    body = pos1 \/ body = pos2 ->
    dse (longitude body) (speed body) = Some d -> ~ d == 0 ->
    ~ Qabs (speed pos1 - speed pos2) == 0
    /\ current_orb pos1 pos2 k / Qabs (speed pos1 - speed pos2) <= d.
Proof.
  intros config dse pos1 pos2 body k d Happ Hbody Hexit Hnz.
  assert (Hrel : ~ Qabs (speed pos1 - speed pos2) == 0).
  { intro E. rewrite (equal_speeds_do_not_apply config dse pos1 pos2 k E) in Happ.
    discriminate. }
  split; [exact Hrel|].
  destruct (xgt (days_to_perfect pos1 pos2 k) d) eqn:E.
  { rewrite (is_applying_false_on_early_exit config dse pos1 pos2 body k d
               Hbody Hexit Hnz E) in Happ. discriminate. }
  apply xgt_false in E. destruct E as (t & Ht & Hle).
  unfold days_to_perfect in Ht.
  destruct (faster_slower pos1 pos2) as [faster slower] eqn:F.
  assert (Hfs : Qabs (speed faster - speed slower) == Qabs (speed pos1 - speed pos2)).
  { destruct (faster_slower_cases pos1 pos2) as [C|C]; rewrite C in F;
      injection F as Hf Hs; rewrite <- Hf, <- Hs; [reflexivity|].
    rewrite <- (Qabs_opp (speed pos1 - speed pos2)).
    apply Qabs_wd. ring. }
  destruct (Qltb 0 (Qabs (speed faster - speed slower))); [|discriminate].
  inversion Ht; subst t. rewrite <- Hfs. exact Hle.
Qed.

Lemma angular_separation_sym (a b : Q) :
  angular_separation a b == angular_separation b a.
Proof.
  unfold angular_separation.
  assert (E : Qabs (a - b) == Qabs (b - a)).
  { rewrite <- (Qabs_opp (a - b)). apply Qabs_wd. ring. }
  destruct (Qltb 180 (Qabs (a - b))) eqn:E1, (Qltb 180 (Qabs (b - a))) eqn:E2;
    qbool; lra.
Qed.

Lemma truthy_inv (o : option Q) : truthy o = true -> exists d, o = Some d /\ ~ d == 0.
Proof.
  destruct o as [d|]; cbn; intro H; [|discriminate].
  exists d. split; [reflexivity|]. apply negb_true_iff in H. apply Qeqb_false in H. exact H.
Qed.

(** On a chart whose aspect list is the one the calculator computes from
    its positions, with longitudes in [[0, 360)], the prohibition test
    cannot hold once the significators' applying aspect fails the in-sign
    test: the latter happens only when their degrees to exactness sit at
    the floor of 0.1, which no other aspect's degrees can undercut. *)
Lemma prohibition_needs_perfection :
  forall config dse chart querent quesited sig,
    aspects chart = _calculate_enhanced_aspects config dse (planets chart) ->
    (forall p, 0 <= longitude (planets chart p) /\ longitude (planets chart p) < 360) ->
    _find_applying_aspect chart querent quesited = Some sig ->
    _enhanced_perfects_in_sign dse (planets chart querent) (planets chart quesited) sig
    = false ->
    find (prohibits chart querent quesited) (aspects chart) = None.
Proof.
  intros config dse chart querent quesited sig Hasp Hlon Hsig Hnot.
  destruct (find (prohibits chart querent quesited) (aspects chart)) as [a|] eqn:F;
    [exfalso|reflexivity].
  apply find_some in F. destruct F as [Hin Hp].
  unfold prohibits in Hp. rewrite Hsig in Hp.
  apply andb_true_iff in Hp. destruct Hp as [_ Hp].
  apply andb_true_iff in Hp. destruct Hp as [_ Hlt]. apply Qltb_true in Hlt.
  (* the prohibiting aspect is at least a tenth of a degree from exact *)
  rewrite Hasp in Hin. unfold _calculate_enhanced_aspects in Hin.
  apply (aspects_from_entry config dse (planets chart) traditional_planets a) in Hin.
  destruct Hin as [_ Hda].
  pose proof (degrees_to_exact_at_least_tenth (planets chart (planet1 a))
                (planets chart (planet2 a)) (aspect a)) as Hfloor.
  rewrite <- Hda in Hfloor.
  (* the significators' aspect comes from the list, applying *)
  destruct (find_applying_aspect_entry chart querent quesited sig Hsig)
    as (e & Hine & Happ & Hpl & Hde).
  rewrite Hasp in Hine. unfold _calculate_enhanced_aspects in Hine.
  apply (aspects_from_entry config dse (planets chart) traditional_planets e) in Hine.
  destruct Hine as [Hae Hdd].
  set (P1 := planets chart (planet1 e)) in *.
  set (P2 := planets chart (planet2 e)) in *.
  rewrite Hae in Happ.
  assert (Habove : 1 # 10 < _calculate_enhanced_degrees_to_exact P1 P2 (aspect e))
    by (rewrite <- Hdd, <- Hde; lra).
  assert (Horb : aa_degrees_to_exact sig == current_orb P1 P2 (aspect e)).
  { rewrite Hde, Hdd, (degrees_to_exact_above_tenth P1 P2 (aspect e) Habove).
    symmetry. apply current_orb_is_orb_diff; apply Hlon. }
  set (rel := Qabs (speed (planets chart querent) - speed (planets chart quesited))) in *.
  assert (Hrel : rel == Qabs (speed P1 - speed P2)).
  { unfold rel, P1, P2. destruct Hpl as [[-> ->]|[-> ->]]; [reflexivity|].
    rewrite <- (Qabs_opp (speed (planets chart querent) - speed (planets chart quesited))).
    apply Qabs_wd. ring. }
  assert (Hbody : forall p, p = querent \/ p = quesited ->
                            planets chart p = P1 \/ planets chart p = P2).
  { intros p Hp. unfold P1, P2.
    destruct Hpl as [[-> ->]|[-> ->]]; destruct Hp as [->| ->]; auto. }
  assert (Hfit : forall p d, p = querent \/ p = quesited ->
                   dse (longitude (planets chart p)) (speed (planets chart p)) = Some d ->
                   ~ d == 0 -> ~ rel == 0 /\ aa_degrees_to_exact sig / rel <= d).
  { intros p d Hp Hexit Hnz.
    destruct (applying_fits_before_exit config dse P1 P2 (planets chart p) (aspect e) d
                Happ (Hbody p Hp) Hexit Hnz) as [Hr Hle].
    rewrite Hrel, Horb. auto. }
  unfold _enhanced_perfects_in_sign in Hnot. fold rel in Hnot.
  destruct (Qeqb rel 0) eqn:Ez.
  { apply Qeqb_true in Ez.
    assert (Ez' : Qabs (speed P1 - speed P2) == 0) by (rewrite <- Hrel; exact Ez).
    rewrite (equal_speeds_do_not_apply config dse P1 P2 (aspect e) Ez') in Happ.
    discriminate. }
  destruct (truthy (dse (longitude (planets chart querent))
                        (speed (planets chart querent)))) eqn:T1.
  - apply truthy_inv in T1. destruct T1 as (d & Hd & Hnz). rewrite Hd in Hnot.
    destruct (Hfit querent d (or_introl eq_refl) Hd Hnz) as [_ Hle].
    cbn [andb] in Hnot. destruct (Qltb d _) eqn:E1; [apply Qltb_true in E1; lra|].
    destruct (truthy (dse (longitude (planets chart quesited))
                          (speed (planets chart quesited)))) eqn:T2;
      [|discriminate].
    apply truthy_inv in T2. destruct T2 as (d2 & Hd2 & Hnz2). rewrite Hd2 in Hnot.
    destruct (Hfit quesited d2 (or_intror eq_refl) Hd2 Hnz2) as [_ Hle2].
    cbn [andb] in Hnot. destruct (Qltb d2 _) eqn:E2; [apply Qltb_true in E2; lra|].
    discriminate.
  - cbn [andb] in Hnot.
    destruct (truthy (dse (longitude (planets chart quesited))
                          (speed (planets chart quesited)))) eqn:T2;
      [|discriminate].
    apply truthy_inv in T2. destruct T2 as (d2 & Hd2 & Hnz2). rewrite Hd2 in Hnot.
    destruct (Hfit quesited d2 (or_intror eq_refl) Hd2 Hnz2) as [_ Hle2].
    cbn [andb] in Hnot. destruct (Qltb d2 _) eqn:E2; [apply Qltb_true in E2; lra|].
    discriminate.
Qed.

Lemma find_none_if_all_false {A : Type} (f : A -> bool) (l : list A) :
  (forall a, f a = false) -> find f l = None.
Proof.
  intro H. induction l as [|x xs IH]; cbn; [reflexivity|]. rewrite H. exact IH.
Qed.

Lemma calculate_chart_aspects :
  forall config dse ce sa speed_of eph jd_ut lat lon chart,
    calculate_chart config dse ce sa speed_of eph jd_ut lat lon = Ok chart ->
    aspects chart = _calculate_enhanced_aspects config dse (planets chart).
Proof.
  intros config dse ce sa speed_of eph jd_ut lat lon chart H.
  unfold calculate_chart in H.
  destruct (match eph_houses eph with Some hs => hs | None => _ end) as [[cusps asc] mc].
  apply bind_ok in H. destruct H as (last & _ & H).
  inversion H. reflexivity.
Qed.

Lemma calculate_chart_longitudes :
  forall config dse ce sa speed_of eph jd_ut lat lon chart,
    (forall p l b v, eph_planet eph p = Some (l, b, v) -> 0 <= l /\ l < 360) ->
    calculate_chart config dse ce sa speed_of eph jd_ut lat lon = Ok chart ->
    forall p, 0 <= longitude (planets chart p) /\ longitude (planets chart p) < 360.
Proof.
  intros config dse ce sa speed_of eph jd_ut lat lon chart Heph H p.
  unfold calculate_chart in H.
  destruct (match eph_houses eph with Some hs => hs | None => _ end) as [[cusps asc] mc].
  apply bind_ok in H. destruct H as (last & _ & H).
  inversion H. cbn [planets longitude].
  destruct (eph_planet eph p) as [[[l b] v]|] eqn:E; cbn [longitude].
  - exact (Heph p l b v E).
  - split; lra.
Qed.

(** On every chart the calculator builds from longitudes of [[0, 360)],
    whenever the perfection search finds nothing, the prohibition test
    holds for no aspect: the judgment never denies by prohibition. *)
Lemma prohibition_never_fires_on_built_charts :
  forall config dse ce sa is_sep strf speed_of eph jd_ut lat lon chart
         querent quesited boost,
    (forall p l b v, eph_planet eph p = Some (l, b, v) -> 0 <= l /\ l < 360) ->
    calculate_chart config dse ce sa speed_of eph jd_ut lat lon = Ok chart ->
    _check_enhanced_perfection config dse is_sep strf chart querent quesited boost = None ->
    find (prohibits chart querent quesited) (aspects chart) = None.
Proof.
  intros config dse ce sa is_sep strf speed_of eph jd_ut lat lon chart
         querent quesited boost Heph Hchart Hperf.
  destruct (_find_applying_aspect chart querent quesited) as [sig|] eqn:Hsig.
  - apply (prohibition_needs_perfection config dse chart querent quesited sig
             (calculate_chart_aspects _ _ _ _ _ _ _ _ _ _ Hchart)
             (calculate_chart_longitudes _ _ _ _ _ _ _ _ _ _ Heph Hchart) Hsig).
    unfold _check_enhanced_perfection in Hperf. rewrite Hsig in Hperf.
    destruct (_enhanced_perfects_in_sign dse _ _ sig); [|reflexivity].
    repeat break_match_in Hperf; discriminate.
  - apply find_none_if_all_false. intro a. unfold prohibits. rewrite Hsig.
    rewrite !andb_false_r. reflexivity.
Qed.

(** C2 on the failing chart.  Mars and Venus apply to a conjunction three
    degrees away that perfects in sign; Saturn's sextile with Mars is
    applying and one degree from exact, so the prohibition test of the
    denial stage holds and that stage, if asked, denies.  The judgment
    nevertheless answers YES by the direct perfection. *)
Theorem direct_perfection_preempts_prohibition :
  _find_applying_aspect saturn_prohibits_chart MARS VENUS
  = Some (mkAppliedAspect CONJUNCTION 3 3)
  /\ find (prohibits saturn_prohibits_chart MARS VENUS) (aspects saturn_prohibits_chart)
     = Some (mkAspectInfo MARS SATURN SEXTILE 1 true 1)
  /\ _check_enhanced_denial_conditions example_config saturn_prohibits_chart MARS VENUS
     = Some (mkDenial 85 "Prohibition by Saturn - aspects Mars before perfection")
  /\ example_judgment saturn_prohibits_chart seventh_house_question false false 15
     = Ok (mkJudgmentResult "YES" 80
             ["Radicality: Chart is radical - Ascendant at 15.0°";
              "Significators: Querent: Mars (ruler of 1), Quesited: Venus (ruler of 7)";
              "Solar conditions: Under Beams: Mercury";
              "Perfection: Conjunction between significators"]
             (Some "Within hours")).
Proof.
  repeat split; vm_compute; reflexivity.
Qed.

(* ================================================================== *)
(** ** Translation of light *)

(** A translator is only ever a body that has an applying aspect, in the
    chart's aspect list, to both significators. *)
Lemma translation_needs_two_applying_aspects :
  forall config is_sep chart querent quesited t,
    _check_enhanced_translation_of_light config is_sep chart querent quesited = Some t ->
    _find_applying_aspect chart (translator t) querent <> None
    /\ _find_applying_aspect chart (translator t) quesited <> None.
Proof.
  intros config is_sep chart querent quesited t H.
  unfold _check_enhanced_translation_of_light in H.
  destruct (negb (require_speed_advantage (translation (moon config))));
    [|discriminate].
  induction (third_bodies querent quesited) as [|p ps IH]; cbn in H; [discriminate|].
  destruct (translation_by config is_sep chart querent quesited p) as [t'|] eqn:Hp;
    [|exact (IH H)].
  inversion H; subst t'. clear H IH.
  unfold translation_by in Hp.
  destruct (_find_applying_aspect chart p querent) eqn:H1; [|discriminate].
  destruct (_find_applying_aspect chart p quesited) eqn:H2; [|discriminate].
  assert (Ht : translator t = p).
  { repeat break_match_in Hp; inversion Hp; reflexivity. }
  rewrite Ht, H1, H2. split; discriminate.
Qed.

(** C5 on the failing chart.  The Moon is two degrees past its sextile to
    Mars (separating) and three degrees short of its square to Venus
    (applying); Mars and Venus have no applying aspect.  Whatever the
    separation-order helper answers, no translation of light is found, and
    the verdict comes from the lunar testimony. *)
Theorem translation_misses_separating_body :
  find (fun a => planet_eqb (planet1 a) MOON && planet_eqb (planet2 a) MARS)
       (aspects moon_between_significators_chart)
  = Some (mkAspectInfo MOON MARS SEXTILE 2 false 2)
  /\ find (fun a => planet_eqb (planet1 a) MOON && planet_eqb (planet2 a) VENUS)
          (aspects moon_between_significators_chart)
     = Some (mkAspectInfo MOON VENUS SQUARE 3 true 3)
  /\ _find_applying_aspect moon_between_significators_chart MARS VENUS = None
  /\ (forall is_separating,
        _check_enhanced_translation_of_light example_config is_separating
          moon_between_significators_chart MARS VENUS = None)
  /\ (forall is_separating,
        _apply_enhanced_judgment example_config days_to_sign_exit_model
          is_separating example_str_float example_moon_speed
          moon_between_significators_chart
          seventh_house_question false false false false 15
        = Ok (mkJudgmentResult "NO" 65
                ["Radicality: Chart is radical - Ascendant at 15.0°";
                 "Significators: Querent: Mars (ruler of 1), Quesited: Venus (ruler of 7)";
                 "Solar conditions: Under Beams: Mercury";
                 "Moon: Moon next Squares Venus (total dignity: +4)"]
                (Some "Within hours"))).
Proof.
  repeat split; intros; vm_compute; reflexivity.
Qed.

(* ================================================================== *)
(** ** The entry point never raises *)

(** C9.  [judge_question] answers every request with a response.  When
    the body of its [try] block ends normally the response carries the
    judgment; when it raises a location error the response is the
    LOCATION_ERROR one, with confidence 0 and its own error type; any
    other exception gives the ERROR response, with confidence 0 and the
    exception message in the reasoning.  A geocoder that is missing or
    that fails is such a location error, whatever the rest of the request
    says, and the two error responses never coincide. *)
Theorem judge_question_never_raises :
  forall (config : Config) (days_to_sign_exit : Q -> Q -> option Q)
         (calculate_elongation : Q -> Q -> Q)
         (sun_altitude_at_civil_twilight : Q -> Q -> Q -> Q)
         (is_separating : Q -> Q -> Q -> Q -> Q -> Q -> bool)
         (str_float : Q -> string) (get_real_moon_speed : Q -> Q)
         (geolocator_available : bool)
         (safe_geocode : string -> result (Q * Q * string))
         (current_time_for_location : Q -> Q -> result Q)
         (parse_datetime_with_timezone :
            string -> string -> option string -> Q -> Q -> result Q)
         (swiss_ephemeris : Q -> Q -> Q -> Ephemeris)
         (analyze_question : string -> result QuestionAnalysis)
         (req : Request),
    let body :=
      judge_body config days_to_sign_exit calculate_elongation
        sun_altitude_at_civil_twilight is_separating str_float
        get_real_moon_speed geolocator_available safe_geocode
        current_time_for_location parse_datetime_with_timezone
        swiss_ephemeris analyze_question req in
    let resp :=
      judge_question config days_to_sign_exit calculate_elongation
        sun_altitude_at_civil_twilight is_separating str_float
        get_real_moon_speed geolocator_available safe_geocode
        current_time_for_location parse_datetime_with_timezone
        swiss_ephemeris analyze_question req in
    match body with
    | Ok j => resp = ok_response j
    | Raise (LocationError m) => resp = location_error_response m
    | Raise e => resp = calculation_error_response (exn_message e)
    end
    /\ match (if geolocator_available then safe_geocode (location_text req)
              else Raise (LocationError "Geocoding service not available")) with
       | Ok _ => True
       | Raise (LocationError m) => resp = location_error_response m
       | Raise e => resp = calculation_error_response (exn_message e)
       end
    /\ (forall m m', location_error_response m <> calculation_error_response m')
    /\ (forall m, r_confidence (location_error_response m) = 0
                  /\ r_confidence (calculation_error_response m) = 0
                  /\ In ("Calculation error: " ++ m)
                        (r_reasoning (calculation_error_response m))).
Proof.
  intros config dse ce sa is_sep strf speed_of geo_ok geocode now parse eph analyze req.
  cbv zeta.
  assert (Hbody :
    match judge_body config dse ce sa is_sep strf speed_of geo_ok geocode now parse
            eph analyze req with
    | Ok j =>
        judge_question config dse ce sa is_sep strf speed_of geo_ok geocode now parse
          eph analyze req = ok_response j
    | Raise (LocationError m) =>
        judge_question config dse ce sa is_sep strf speed_of geo_ok geocode now parse
          eph analyze req = location_error_response m
    | Raise e =>
        judge_question config dse ce sa is_sep strf speed_of geo_ok geocode now parse
          eph analyze req = calculation_error_response (exn_message e)
    end).
  { unfold judge_question.
    destruct (judge_body config dse ce sa is_sep strf speed_of geo_ok geocode now parse
                eph analyze req) as [j|[m|m|m|m]]; reflexivity. }
  split; [exact Hbody|].
  split.
  - unfold judge_body in Hbody.
    destruct (if geo_ok then geocode (location_text req)
              else Raise (LocationError "Geocoding service not available"))
      as [g|[m|m|m|m]]; [exact I | exact Hbody ..].
  - split.
    + intros m m' H. discriminate H.
    + intro m. repeat split. left. reflexivity.
Qed.

(** A place the geocoder does not know, and a sky whose Moon is reported
    motionless while a perfection asks for its timing. *)
Example unknown_place_is_a_location_error :
  example_judge_question saturn_prohibits_ephemeris seventh_house_question
    (mkRequest "Will we marry?" "" None None None true None
       false false false false None)
  = location_error_response "Location not found".
Proof. vm_compute. reflexivity. Qed.

Example missing_date_is_a_calculation_error :
  example_judge_question saturn_prohibits_ephemeris seventh_house_question
    (mkRequest "Will we marry?" "London" None (Some "12:00") None false None
       false false false false None)
  = calculation_error_response
      "Date and time must be provided when not using current time".
Proof. vm_compute. reflexivity. Qed.

Example motionless_moon_is_a_calculation_error :
  judge_question example_config days_to_sign_exit_model calculate_elongation_model
    example_sun_altitude example_is_separating example_str_float (fun _ => 0)
    true example_geocode example_now example_parse
    (fun _ _ _ => saturn_prohibits_ephemeris) (fun _ => Ok seventh_house_question)
    (request_with_boost None)
  = calculation_error_response "float division by zero".
Proof. vm_compute. reflexivity. Qed.

(* ================================================================== *)
(** * Further properties of the engine *)

(** ** Signs and houses *)

Lemma py_mod_range (x m : Q) : 0 < m -> 0 <= py_mod x m /\ py_mod x m < m.
Proof.
  intro Hm. unfold py_mod.
  pose proof (Qfloor_le (x / m)) as Hlo.
  pose proof (Qlt_floor (x / m)) as Hhi.
  rewrite inject_Z_plus in Hhi. change (inject_Z 1) with 1 in Hhi.
  assert (Hx : x == m * (x / m)) by (field; lra).
  set (f := inject_Z (Qfloor (x / m))) in *.
  set (q := x / m) in *.
  assert (H1 : 0 <= m * (q - f)) by (apply Qmult_le_0_compat; lra).
  assert (H2 : 0 < m * (f + 1 - q)) by (apply Qmult_lt_0_compat; lra).
  assert (E1 : m * (q - f) == x - m * f) by (clearbody q f; rewrite Hx; ring).
  assert (E2 : m * (f + 1 - q) == m - (x - m * f)) by (clearbody q f; rewrite Hx; ring).
  split; lra.
Qed.

Lemma py_mod_fixed (x m : Q) : 0 <= x -> x < m -> py_mod x m == x.
Proof.
  intros H0 Hm. unfold py_mod.
  assert (Hf : Qfloor (x / m) = 0%Z).
  { assert (Hq0 : 0 <= x / m) by (apply Qle_shift_div_l; lra).
    assert (Hq1 : x / m < 1) by (apply Qlt_shift_div_r; lra).
    pose proof (Qfloor_le (x / m)) as Hlo.
    pose proof (Qlt_floor (x / m)) as Hhi.
    rewrite inject_Z_plus in Hhi. change (inject_Z 1) with 1 in Hhi.
    assert (A : (Qfloor (x / m) < 1)%Z)
      by (rewrite Zlt_Qlt; change (inject_Z 1) with 1; lra).
    assert (B : (-1 < Qfloor (x / m))%Z)
      by (rewrite Zlt_Qlt; change (inject_Z (-1)) with (-(1)); lra).
    lia. }
  rewrite Hf. ring.
Qed.

(** X1.  Every longitude falls in exactly one sign: the sign returned
    holds the longitude reduced modulo 360 between its start degree and
    30 degrees further, and no other sign does; the fallback of the
    search is never needed. *)
Theorem get_sign_holds_longitude :
  forall lon : Q,
    start_degree (_get_sign lon) <= py_mod lon 360
    /\ py_mod lon 360 < start_degree (_get_sign lon) + 30
    /\ forall s : Sign,
         start_degree s <= py_mod lon 360 -> py_mod lon 360 < start_degree s + 30 ->
         s = _get_sign lon.
Proof.
  intro lon.
  destruct (py_mod_range lon 360 ltac:(lra)) as [H0 H360].
  unfold _get_sign.
  set (l := py_mod lon 360) in *.
  destruct (find (fun s => Qleb (start_degree s) l && Qltb l (start_degree s + 30))
                 all_signs) as [s|] eqn:F.
  - apply find_some in F. destruct F as [_ Hs].
    apply andb_true_iff in Hs. destruct Hs as [Ha Hb]. qbool.
    split; [exact Ha|]. split; [exact Hb|].
    intros s' Ha' Hb'.
    destruct s, s'; cbn [start_degree] in *; try reflexivity; exfalso; lra.
  - exfalso.
    assert (Hall : forall s, In s all_signs ->
                     Qleb (start_degree s) l && Qltb l (start_degree s + 30) = false)
      by (intros s Hin; exact (find_none _ _ F s Hin)).
    assert (Hno : forall s, ~ (start_degree s <= l /\ l < start_degree s + 30)).
    { intros s [Ha Hb].
      assert (Hin : In s all_signs) by (destruct s; cbn; tauto).
      specialize (Hall s Hin). apply andb_false_iff in Hall.
      destruct Hall as [E|E]; qbool; lra. }
    destruct (Qlt_le_dec l 30); [apply (Hno ARIES); cbn; lra|].
    destruct (Qlt_le_dec l 60); [apply (Hno TAURUS); cbn; lra|].
    destruct (Qlt_le_dec l 90); [apply (Hno GEMINI); cbn; lra|].
    destruct (Qlt_le_dec l 120); [apply (Hno CANCER); cbn; lra|].
    destruct (Qlt_le_dec l 150); [apply (Hno LEO); cbn; lra|].
    destruct (Qlt_le_dec l 180); [apply (Hno VIRGO); cbn; lra|].
    destruct (Qlt_le_dec l 210); [apply (Hno LIBRA); cbn; lra|].
    destruct (Qlt_le_dec l 240); [apply (Hno SCORPIO); cbn; lra|].
    destruct (Qlt_le_dec l 270); [apply (Hno SAGITTARIUS); cbn; lra|].
    destruct (Qlt_le_dec l 300); [apply (Hno CAPRICORN); cbn; lra|].
    destruct (Qlt_le_dec l 330); [apply (Hno AQUARIUS); cbn; lra|].
    apply (Hno PISCES); cbn; lra.
Qed.

Lemma house_scan_result (lon : Q) (cusps : list Q) (idx : list nat) :
  (exists i, In i idx /\ house_scan lon cusps idx = (Z.of_nat i + 1)%Z
             /\ in_arc lon (cusp_of cusps i) (next_cusp_of cusps i))
  \/ (house_scan lon cusps idx = 1%Z
      /\ forall i, In i idx -> ~ in_arc lon (cusp_of cusps i) (next_cusp_of cusps i)).
Proof.
  induction idx as [|i rest IH]; cbn [house_scan].
  - right. split; [reflexivity|]. intros i [].
  - fold (cusp_of cusps i). fold (next_cusp_of cusps i).
    assert (Hrest :
      (exists j, In j (i :: rest) /\ house_scan lon cusps rest = (Z.of_nat j + 1)%Z
                 /\ in_arc lon (cusp_of cusps j) (next_cusp_of cusps j))
      \/ (house_scan lon cusps rest = 1%Z
          /\ forall j, In j rest ->
               ~ in_arc lon (cusp_of cusps j) (next_cusp_of cusps j))).
    { destruct IH as [(j & Hj & E & A)|[E N]]; [left|right; auto].
      exists j. split; [right; exact Hj|]. auto. }
    destruct (Qltb (next_cusp_of cusps i) (cusp_of cusps i)) eqn:W.
    + destruct (Qleb (cusp_of cusps i) lon || Qltb lon (next_cusp_of cusps i)) eqn:T.
      * left. exists i. split; [left; reflexivity|]. split; [reflexivity|].
        left. apply orb_true_iff in T. qbool. split; [exact W|].
        destruct T as [T|T]; qbool; auto.
      * destruct Hrest as [H|[E N]]; [left; exact H|right].
        split; [exact E|]. intros j [<-|Hj]; [|exact (N j Hj)].
        apply orb_false_iff in T. destruct T as [T1 T2]. qbool.
        unfold in_arc. intros [[_ [A|A]]|[A _]]; lra.
    + destruct (Qleb (cusp_of cusps i) lon && Qltb lon (next_cusp_of cusps i)) eqn:T.
      * left. exists i. split; [left; reflexivity|]. split; [reflexivity|].
        right. apply andb_true_iff in T. destruct T as [T1 T2]. qbool. auto.
      * destruct Hrest as [H|[E N]]; [left; exact H|right].
        split; [exact E|]. intros j [<-|Hj]; [|exact (N j Hj)].
        qbool. unfold in_arc. intros [[A _]|[_ [A B]]]; [lra|].
        apply andb_false_iff in T. destruct T as [T|T]; qbool; lra.
Qed.

Lemma house_position_bounds (lon : Q) (cusps : list Q) :
  (1 <= _calculate_house_position lon cusps <= 12)%Z.
Proof.
  unfold _calculate_house_position.
  destruct (house_scan_result (py_mod lon 360) cusps (seq 0 12))
    as [(i & Hi & E & A)|[E N]].
  - apply in_seq in Hi. lia.
  - lia.
Qed.

(** The scan over consecutive indices stops at the first arc that holds
    the longitude. *)
Lemma house_scan_first (lon : Q) (cusps : list Q) (n : nat) :
  forall s : nat,
    (exists i, (s <= i < s + n)%nat
               /\ house_scan lon cusps (seq s n) = (Z.of_nat i + 1)%Z
               /\ in_arc lon (cusp_of cusps i) (next_cusp_of cusps i)
               /\ forall j, (s <= j < i)%nat ->
                    ~ in_arc lon (cusp_of cusps j) (next_cusp_of cusps j))
    \/ (house_scan lon cusps (seq s n) = 1%Z
        /\ forall j, (s <= j < s + n)%nat ->
             ~ in_arc lon (cusp_of cusps j) (next_cusp_of cusps j)).
Proof.
  induction n as [|n IH]; intro s; cbn [seq house_scan].
  - right. split; [reflexivity|]. intros j Hj. lia.
  - fold (cusp_of cusps s). fold (next_cusp_of cusps s).
    assert (Here : forall held : bool,
              (held = true -> in_arc lon (cusp_of cusps s) (next_cusp_of cusps s)) ->
              (held = false -> ~ in_arc lon (cusp_of cusps s) (next_cusp_of cusps s)) ->
              (exists i, (s <= i < s + S n)%nat
                 /\ (if held then (Z.of_nat s + 1)%Z
                     else house_scan lon cusps (seq (S s) n)) = (Z.of_nat i + 1)%Z
                 /\ in_arc lon (cusp_of cusps i) (next_cusp_of cusps i)
                 /\ forall j, (s <= j < i)%nat ->
                      ~ in_arc lon (cusp_of cusps j) (next_cusp_of cusps j))
              \/ ((if held then (Z.of_nat s + 1)%Z
                   else house_scan lon cusps (seq (S s) n)) = 1%Z
                  /\ forall j, (s <= j < s + S n)%nat ->
                       ~ in_arc lon (cusp_of cusps j) (next_cusp_of cusps j))).
    { intros held Hyes Hno. destruct held.
      - left. exists s. split; [lia|]. split; [reflexivity|].
        split; [apply Hyes; reflexivity|]. intros j Hj. lia.
      - specialize (Hno eq_refl).
        destruct (IH (S s)) as [(i & Hi & E & A & F)|[E N]].
        + left. exists i. split; [lia|]. split; [exact E|]. split; [exact A|].
          intros j Hj. destruct (Nat.eq_dec j s) as [->|Hne]; [exact Hno|].
          apply F. lia.
        + right. split; [exact E|]. intros j Hj.
          destruct (Nat.eq_dec j s) as [->|Hne]; [exact Hno|]. apply N. lia. }
    destruct (Qltb (next_cusp_of cusps s) (cusp_of cusps s)) eqn:W.
    + apply Here.
      * intro T. left. apply orb_true_iff in T. qbool. split; [exact W|].
        destruct T as [T|T]; qbool; auto.
      * intro T. apply orb_false_iff in T. destruct T as [T1 T2]. qbool.
        unfold in_arc. intros [[_ [A|A]]|[A _]]; lra.
    + apply Here.
      * intro T. right. apply andb_true_iff in T. destruct T as [T1 T2]. qbool. auto.
      * intro T. qbool. unfold in_arc. intros [[A _]|[_ [A B]]]; [lra|].
        apply andb_false_iff in T. destruct T as [T|T]; qbool; lra.
Qed.

(** X2.  For a list of twelve cusps (or more: only the first twelve are
    read) the house of a longitude is always between 1 and 12.  It is the
    first house whose arc (cusp to next cusp, through 0 degrees when the
    cusps wrap) holds the reduced longitude: no earlier house's arc holds
    it; house 1 is also the answer when no arc holds it. *)
Theorem house_position_in_range :
  forall (lon : Q) (cusps : list Q),
    (12 <= List.length cusps)%nat ->
    (1 <= _calculate_house_position lon cusps <= 12)%Z
    /\ ((exists i, (i < 12)%nat
                   /\ _calculate_house_position lon cusps = (Z.of_nat i + 1)%Z
                   /\ in_arc (py_mod lon 360) (cusp_of cusps i) (next_cusp_of cusps i)
                   /\ forall j, (j < i)%nat ->
                        ~ in_arc (py_mod lon 360) (cusp_of cusps j)
                            (next_cusp_of cusps j))
        \/ (_calculate_house_position lon cusps = 1%Z
            /\ forall i, (i < 12)%nat ->
                 ~ in_arc (py_mod lon 360) (cusp_of cusps i) (next_cusp_of cusps i))).
Proof.
  intros lon cusps _. unfold _calculate_house_position.
  destruct (house_scan_first (py_mod lon 360) cusps 12 0)
    as [(i & Hi & E & A & F)|[E N]].
  - split; [lia|]. left. exists i. split; [lia|]. split; [exact E|]. split; [exact A|].
    intros j Hj. apply F. lia.
  - split; [lia|]. right. split; [exact E|].
    intros i Hi. apply N. lia.
Qed.

Lemma house_position_in_range_witness :
  (12 <= List.length default_cusps)%nat
  /\ (1 <= _calculate_house_position 45 default_cusps <= 12)%Z.
Proof.
  assert (H : (12 <= List.length default_cusps)%nat) by (vm_compute; lia).
  split; [exact H|].
  exact (proj1 (house_position_in_range 45 default_cusps H)).
Defined.

(** ** The aspect engine *)




(** The bound within which [first_aspect] records an aspect of two
    bodies. *)
Lemma first_aspect_details :
  forall config dse p1 p2 pos1 pos2 kinds a,
    In a (first_aspect config dse p1 p2 pos1 pos2 kinds) ->
    first_aspect config dse p1 p2 pos1 pos2 kinds = [a]
    /\ In (aspect a) kinds
    /\ orb a = Qabs (angular_separation (longitude pos1) (longitude pos2)
                     - aspect_degrees (aspect a))
    /\ orb a <= (if planet_in MOON [p1; p2]
                 then (if planet_in SUN [p1; p2]
                       then aspect_orb config (aspect a) + sun_orb_bonus (orbs config)
                       else aspect_orb config (aspect a))
                      + moon_orb_bonus (orbs config)
                 else (if planet_in SUN [p1; p2]
                       then aspect_orb config (aspect a) + sun_orb_bonus (orbs config)
                       else aspect_orb config (aspect a))).
Proof.
  intros config dse p1 p2 pos1 pos2 kinds a.
  induction kinds as [|k ks IH]; cbn [first_aspect]; [intros []|].
  destruct (Qleb _ _) eqn:E.
  - intros [H|[]]. subst a. cbn [aspect orb].
    split; [reflexivity|]. split; [left; reflexivity|]. split; [reflexivity|].
    apply Qleb_true in E. exact E.
  - intro H. destruct (IH H) as (A & B & C & D).
    split; [exact A|]. split; [right; exact B|]. auto.
Qed.

Lemma first_aspect_at_most_one :
  forall config dse p1 p2 pos1 pos2 kinds,
    first_aspect config dse p1 p2 pos1 pos2 kinds = []
    \/ exists a, first_aspect config dse p1 p2 pos1 pos2 kinds = [a].
Proof.
  intros. induction kinds as [|k ks IH]; cbn [first_aspect]; [left; reflexivity|].
  destruct (Qleb _ _); [right; eexists; reflexivity | exact IH].
Qed.

Lemma row_entry :
  forall config dse positions p1 rest a,
    In a (flat_map (fun p2 => first_aspect config dse p1 p2 (positions p1) (positions p2)
                                all_aspects) rest) ->
    planet1 a = p1 /\ In (planet2 a) rest
    /\ In a (first_aspect config dse (planet1 a) (planet2 a) (positions (planet1 a))
               (positions (planet2 a)) all_aspects).
Proof.
  intros config dse positions p1 rest a H.
  apply in_flat_map in H. destruct H as (p2 & Hin & H).
  destruct (first_aspect_entry _ _ _ _ _ _ _ _ H) as (E1 & E2 & _).
  subst p1 p2. auto.
Qed.

Lemma row_pairs_nodup :
  forall config dse positions p1 rest,
    NoDup rest ->
    NoDup (map pair_of
             (flat_map (fun p2 => first_aspect config dse p1 p2 (positions p1)
                                    (positions p2) all_aspects) rest)).
Proof.
  intros config dse positions p1 rest Hnd.
  induction rest as [|p2 r IH]; cbn [flat_map map]; [constructor|].
  apply NoDup_cons_iff in Hnd. destruct Hnd as [Hnot Hnd].
  rewrite map_app. apply NoDup_app.
  - destruct (first_aspect_at_most_one config dse p1 p2 (positions p1) (positions p2)
                all_aspects) as [E|[a E]]; rewrite E; cbn.
    + constructor.
    + constructor; [intros []|constructor].
  - exact (IH Hnd).
  - intros pr H1 H2.
    apply in_map_iff in H1. destruct H1 as (a & Ea & Ha).
    apply in_map_iff in H2. destruct H2 as (b & Eb & Hb).
    apply first_aspect_entry in Ha. destruct Ha as (_ & Ea2 & _).
    apply row_entry in Hb. destruct Hb as (_ & Hb & _).
    unfold pair_of in Ea, Eb. rewrite <- Eb in Ea. inversion Ea as [[E1 E2]].
    apply Hnot. rewrite <- Ea2, E2. exact Hb.
Qed.

Lemma aspects_from_members :
  forall config dse positions l a,
    In a (aspects_from config dse positions l) ->
    exists l1 l2, l = (l1 ++ planet1 a :: l2)%list /\ In (planet2 a) l2
    /\ In a (first_aspect config dse (planet1 a) (planet2 a) (positions (planet1 a))
               (positions (planet2 a)) all_aspects).
Proof.
  intros config dse positions l a.
  induction l as [|p1 rest IH]; cbn [aspects_from]; [intros []|].
  intro H. apply in_app_or in H. destruct H as [H|H].
  - apply row_entry in H. destruct H as (E & Hin & Hf).
    exists [], rest. subst p1. auto.
  - destruct (IH H) as (l1 & l2 & E & Hin & Hf).
    exists (p1 :: l1), l2. rewrite E. auto.
Qed.

Lemma aspects_from_pairs_nodup :
  forall config dse positions l,
    NoDup l -> NoDup (map pair_of (aspects_from config dse positions l)).
Proof.
  intros config dse positions l Hnd.
  induction l as [|p1 rest IH]; cbn [aspects_from map]; [constructor|].
  apply NoDup_cons_iff in Hnd. destruct Hnd as [Hnot Hnd].
  rewrite map_app. apply NoDup_app.
  - apply row_pairs_nodup. exact Hnd.
  - exact (IH Hnd).
  - intros pr H1 H2.
    apply in_map_iff in H1. destruct H1 as (a & Ea & Ha).
    apply in_map_iff in H2. destruct H2 as (b & Eb & Hb).
    apply row_entry in Ha. destruct Ha as (Ea1 & _).
    apply aspects_from_members in Hb. destruct Hb as (l1 & l2 & E & _).
    unfold pair_of in Ea, Eb. rewrite <- Eb in Ea. inversion Ea as [[E1 E2]].
    apply Hnot. rewrite <- Ea1, E1, E. apply in_or_app. right. left. reflexivity.
Qed.

Lemma traditional_planets_nodup : NoDup traditional_planets.
Proof.
  unfold traditional_planets.
  repeat (constructor; [cbn; intuition discriminate|]). constructor.
Qed.

Lemma split_nodup_order {A : Type} (l l1 l2 : list A) (x y : A) :
  NoDup l -> l = (l1 ++ x :: l2)%list -> In y l2 -> x <> y /\ ~ In y l1.
Proof.
  intros Hnd -> Hy.
  apply NoDup_remove in Hnd. destruct Hnd as [Hnd Hx].
  split.
  - intros ->. apply Hx. apply in_or_app. right. exact Hy.
  - intro Hy1. clear Hx. induction l1 as [|z l1 IH]; [contradiction|].
    cbn in Hnd. apply NoDup_cons_iff in Hnd. destruct Hnd as [Hz Hnd].
    destruct Hy1 as [->|Hy1]; [|exact (IH Hnd Hy1)].
    apply Hz. apply in_or_app. right. exact Hy.
Qed.

Lemma crossed_order_impossible {A : Type} (l1 l2 m1 m2 : list A) (x y : A) :
  NoDup (l1 ++ x :: l2) -> (l1 ++ x :: l2)%list = (m1 ++ y :: m2)%list ->
  In y l2 -> In x m2 -> False.
Proof.
  revert m1. induction l1 as [|z l1 IH]; intros m1 Hnd E Hy Hx.
  - cbn in *. apply NoDup_cons_iff in Hnd. destruct Hnd as [Hn _].
    destruct m1 as [|w m1]; cbn in E; injection E as Exy El.
    + subst y. exact (Hn Hy).
    + subst l2. apply Hn. apply in_or_app. right. right. exact Hx.
  - cbn in Hnd. apply NoDup_cons_iff in Hnd. destruct Hnd as [Hn Hnd].
    destruct m1 as [|w m1]; cbn in E; injection E as Ez El.
    + subst z. apply Hn. apply in_or_app. right. right. exact Hy.
    + exact (IH m1 Hnd El Hy Hx).
Qed.

(** X4.  The aspect list holds at most one aspect for any two bodies:
    no two entries name the same pair, in either order, and no entry
    pairs a body with itself. *)
Theorem one_aspect_per_pair :
  forall (config : Config) (days_to_sign_exit : Q -> Q -> option Q)
         (positions : Planet -> PlanetPosition),
    let found := _calculate_enhanced_aspects config days_to_sign_exit positions in
    NoDup (map pair_of found)
    /\ (forall a, In a found ->
          planet1 a <> planet2 a
          /\ In (planet1 a) traditional_planets /\ In (planet2 a) traditional_planets)
    /\ (forall a b, In a found -> In b found ->
          ~ (planet1 a = planet2 b /\ planet2 a = planet1 b)).
Proof.
  intros config dse positions. cbv zeta. unfold _calculate_enhanced_aspects.
  split; [apply aspects_from_pairs_nodup, traditional_planets_nodup|].
  split.
  - intros a Ha. apply aspects_from_members in Ha.
    destruct Ha as (l1 & l2 & E & Hin & _).
    destruct (split_nodup_order _ _ _ _ _ traditional_planets_nodup E Hin) as [Hne _].
    split; [exact Hne|]. rewrite E.
    split; apply in_or_app; right; [left; reflexivity | right; exact Hin].
  - intros a b Ha Hb [E1 E2].
    apply aspects_from_members in Ha. destruct Ha as (l1 & l2 & Ea & Hina & _).
    apply aspects_from_members in Hb. destruct Hb as (m1 & m2 & Eb & Hinb & _).
    (* planet1 b stands after planet1 a and planet1 a after planet1 b *)
    rewrite E2 in Hina. rewrite <- E1 in Hinb.
    rewrite Ea in Eb.
    exact (crossed_order_impossible _ _ _ _ _ _
             (eq_ind _ (fun l => NoDup l) traditional_planets_nodup _ Ea) Eb Hina Hinb).
Qed.

Lemma first_aspect_first_match :
  forall config dse p1 p2 pos1 pos2 kinds a,
    In a (first_aspect config dse p1 p2 pos1 pos2 kinds) ->
    orb a = orb_diff (longitude pos1) (longitude pos2) (aspect a)
    /\ orb a <= max_orb_for config p1 p2 (aspect a)
    /\ exists earlier later,
         kinds = (earlier ++ aspect a :: later)%list
         /\ forall k, In k earlier ->
              max_orb_for config p1 p2 k < orb_diff (longitude pos1) (longitude pos2) k.
Proof.
  intros config dse p1 p2 pos1 pos2 kinds a.
  induction kinds as [|k ks IH]; cbn [first_aspect]; [intros []|].
  fold (max_orb_for config p1 p2 k).
  fold (orb_diff (longitude pos1) (longitude pos2) k).
  destruct (Qleb (orb_diff (longitude pos1) (longitude pos2) k)
              (max_orb_for config p1 p2 k)) eqn:E.
  - intros [H|[]]. subst a. cbn [aspect orb]. apply Qleb_true in E.
    split; [reflexivity|]. split; [exact E|].
    exists [], ks. split; [reflexivity|]. intros k' [].
  - intro H. destruct (IH H) as (A & B & earlier & later & Ek & Hearlier).
    split; [exact A|]. split; [exact B|].
    exists (k :: earlier), later. split; [rewrite Ek; reflexivity|].
    intros k' [<-|Hk']; [apply Qleb_false in E; exact E | exact (Hearlier k' Hk')].
Qed.

(** X5.  Every entry of the aspect list is within orb and is the first
    kind that is: its orb is the deviation of the folded separation from
    the exact angle, at most the configured orb plus the luminary bonuses,
    every kind earlier in the enumeration is out of orb for the pair, and
    its degrees to exactness are the orb raised to the floor of 0.1: the
    orb itself from 0.1 on, and exactly 0.1 below. *)
Theorem aspect_entries_are_first_match_within_orb :
  forall (config : Config) (days_to_sign_exit : Q -> Q -> option Q)
         (positions : Planet -> PlanetPosition) (a : AspectInfo),
    In a (_calculate_enhanced_aspects config days_to_sign_exit positions) ->
    orb a = orb_diff (longitude (positions (planet1 a)))
              (longitude (positions (planet2 a))) (aspect a)
    /\ orb a <= max_orb_for config (planet1 a) (planet2 a) (aspect a)
    /\ (exists earlier later,
          all_aspects = (earlier ++ aspect a :: later)%list
          /\ forall k, In k earlier ->
               max_orb_for config (planet1 a) (planet2 a) k
               < orb_diff (longitude (positions (planet1 a)))
                   (longitude (positions (planet2 a))) k)
    /\ 1 # 10 <= degrees_to_exact a
    /\ orb a <= degrees_to_exact a
    /\ (1 # 10 <= orb a -> degrees_to_exact a = orb a)
    /\ (orb a < 1 # 10 -> degrees_to_exact a = 1 # 10).
Proof.
  intros config dse positions a Ha.
  unfold _calculate_enhanced_aspects in Ha.
  destruct (aspects_from_members config dse positions traditional_planets a Ha)
    as (l1 & l2 & _ & _ & Hf).
  destruct (first_aspect_first_match _ _ _ _ _ _ _ _ Hf) as (Ho & Hb & Hfirst).
  destruct (first_aspect_entry _ _ _ _ _ _ _ _ Hf) as (_ & _ & _ & Hd).
  split; [exact Ho|]. split; [exact Hb|]. split; [exact Hfirst|].
  rewrite Hd, Ho. unfold _calculate_enhanced_degrees_to_exact, orb_diff.
  destruct (Qltb _ (1 # 10)) eqn:E; qbool.
  - split; [lra|]. split; [lra|]. split; [intro H; exfalso; lra | reflexivity].
  - split; [exact E|]. split; [lra|]. split; [reflexivity|]. intro H. exfalso. lra.
Qed.

Lemma aspect_entries_are_first_match_within_orb_witness :
  In saturn_prohibits_entry
     (_calculate_enhanced_aspects example_config days_to_sign_exit_model
        (planets saturn_prohibits_chart))
  /\ orb saturn_prohibits_entry <= max_orb_for example_config MARS SATURN SEXTILE
  /\ orb saturn_prohibits_entry <= degrees_to_exact saturn_prohibits_entry.
Proof.
  assert (H : In saturn_prohibits_entry
                (_calculate_enhanced_aspects example_config days_to_sign_exit_model
                   (planets saturn_prohibits_chart))).
  { vm_compute. do 12 right. left. reflexivity. }
  split; [exact H|].
  destruct (aspect_entries_are_first_match_within_orb example_config
              days_to_sign_exit_model (planets saturn_prohibits_chart)
              saturn_prohibits_entry H) as (_ & Hb & _ & _ & Hd & _).
  split; [exact Hb | exact Hd].
Defined.

(** ** Applying aspects *)

Lemma faster_slower_swap (pos1 pos2 : PlanetPosition) :
  ~ Qabs (speed pos1) == Qabs (speed pos2) ->
  faster_slower pos2 pos1 = faster_slower pos1 pos2.
Proof.
  intro H. unfold faster_slower.
  destruct (Qltb (Qabs (speed pos1)) (Qabs (speed pos2))) eqn:A;
    destruct (Qltb (Qabs (speed pos2)) (Qabs (speed pos1))) eqn:B;
    qbool; try reflexivity; exfalso.
  - lra.
  - apply H. lra.
Qed.

(** X6.  The applying test does not depend on the order in which two
    bodies are given, provided their absolute speeds differ (the faster
    body is then the same either way); the orb measured for an aspect kind
    never depends on the order. *)
Theorem applying_ignores_order :
  forall (config : Config) (days_to_sign_exit : Q -> Q -> option Q)
         (pos1 pos2 : PlanetPosition) (k : Aspect),
    ~ Qabs (speed pos1) == Qabs (speed pos2) ->
    _is_applying_enhanced config days_to_sign_exit pos1 pos2 k
    = _is_applying_enhanced config days_to_sign_exit pos2 pos1 k
    /\ orb_diff (longitude pos1) (longitude pos2) k
       == orb_diff (longitude pos2) (longitude pos1) k.
Proof.
  intros config dse pos1 pos2 k H. split.
  - unfold _is_applying_enhanced, current_orb, days_to_perfect, current_orb,
      applying_separation.
    rewrite (faster_slower_swap pos1 pos2 H). reflexivity.
  - unfold orb_diff. rewrite (angular_separation_sym (longitude pos1) (longitude pos2)).
    reflexivity.
Qed.

Lemma applying_ignores_order_witness :
  ~ Qabs (speed (fst venus_behind_mars)) == Qabs (speed (snd venus_behind_mars))
  /\ _is_applying_enhanced example_config days_to_sign_exit_model
       (fst venus_behind_mars) (snd venus_behind_mars) CONJUNCTION
     = _is_applying_enhanced example_config days_to_sign_exit_model
         (snd venus_behind_mars) (fst venus_behind_mars) CONJUNCTION.
Proof.
  assert (H : ~ Qabs (speed (fst venus_behind_mars))
                == Qabs (speed (snd venus_behind_mars))).
  { vm_compute. discriminate. }
  split; [exact H|].
  exact (proj1 (applying_ignores_order example_config days_to_sign_exit_model
                  (fst venus_behind_mars) (snd venus_behind_mars) CONJUNCTION H)).
Defined.

(** X7.  Two bodies moving at the same speed are never recorded as
    applying, whatever their longitudes and whatever the sign-exit
    helper answers. *)
Theorem bodies_at_equal_speed_never_apply :
  forall (config : Config) (days_to_sign_exit : Q -> Q -> option Q)
         (positions : Planet -> PlanetPosition) (a : AspectInfo),
    In a (_calculate_enhanced_aspects config days_to_sign_exit positions) ->
    speed (positions (planet1 a)) == speed (positions (planet2 a)) ->
    applying a = false.
Proof.
  intros config dse positions a Ha Hs.
  unfold _calculate_enhanced_aspects in Ha.
  destruct (aspects_from_entry config dse positions traditional_planets a Ha) as [E _].
  rewrite E. apply equal_speeds_do_not_apply.
  rewrite Hs. setoid_replace (speed (positions (planet2 a)) - speed (positions (planet2 a)))
    with 0 by ring. reflexivity.
Qed.

Lemma bodies_at_equal_speed_never_apply_witness :
  In motionless_entry
     (_calculate_enhanced_aspects example_config days_to_sign_exit_model blank_position)
  /\ speed (blank_position SUN) == speed (blank_position MOON)
  /\ applying motionless_entry = false.
Proof.
  assert (H : In motionless_entry
                (_calculate_enhanced_aspects example_config days_to_sign_exit_model
                   blank_position)).
  { vm_compute. left. reflexivity. }
  assert (S : speed (blank_position (planet1 motionless_entry))
              == speed (blank_position (planet2 motionless_entry))) by reflexivity.
  split; [exact H|]. split; [exact S|].
  exact (bodies_at_equal_speed_never_apply example_config days_to_sign_exit_model
           blank_position motionless_entry H S).
Defined.

(** ** Chart assembly *)

Lemma collect_ok {A B : Type} (f : A -> result (list B)) (l : list A) :
  (forall x, In x l -> exists ys, f x = Ok ys) -> exists zs, collect f l = Ok zs.
Proof.
  induction l as [|x xs IH]; intro H; cbn [collect].
  - eexists. reflexivity.
  - destruct (H x (or_introl eq_refl)) as [ys Ey]. rewrite Ey. cbn [bind].
    destruct (IH (fun y Hy => H y (or_intror Hy))) as [zs Ez]. rewrite Ez. cbn [bind].
    eexists. reflexivity.
Qed.

Lemma angular_separation_compat (a a' b : Q) :
  a == a' -> angular_separation a b == angular_separation a' b.
Proof.
  intro H. unfold angular_separation.
  assert (E : Qabs (a - b) == Qabs (a' - b)) by (rewrite H; reflexivity).
  destruct (Qltb 180 (Qabs (a - b))) eqn:A; destruct (Qltb 180 (Qabs (a' - b))) eqn:B;
    qbool; lra.
Qed.

(** A Moon that does not move at a longitude in [[0, 360)] is neither
    separating from nor applying to anything. *)
Lemma motionless_moon_neither_separates_nor_applies
    (moon_pos planet_pos : PlanetPosition) (a : Aspect) (moon_speed : Q) :
  moon_speed == 0 -> 0 <= longitude moon_pos -> longitude moon_pos < 360 ->
  _is_moon_separating_from_aspect moon_pos planet_pos a moon_speed = false
  /\ _is_moon_applying_to_aspect moon_pos planet_pos a moon_speed = false.
Proof.
  intros Hs Hlo Hhi.
  unfold _is_moon_separating_from_aspect, _is_moon_applying_to_aspect, moon_orbs.
  assert (E : py_mod (longitude moon_pos + moon_speed * (1 # 10)) 360
              == longitude moon_pos).
  { rewrite (py_mod_fixed (longitude moon_pos + moon_speed * (1 # 10)) 360).
    - rewrite Hs. ring.
    - rewrite Hs. lra.
    - rewrite Hs. lra. }
  pose proof (angular_separation_compat _ _ (longitude planet_pos) E) as F.
  assert (G : Qabs (angular_separation
                      (py_mod (longitude moon_pos + moon_speed * (1 # 10)) 360)
                      (longitude planet_pos) - aspect_degrees a)
              == Qabs (angular_separation (longitude moon_pos) (longitude planet_pos)
                       - aspect_degrees a)) by (rewrite F; reflexivity).
  split.
  - destruct (Qltb _ _) eqn:T; [|reflexivity]. qbool. exfalso. lra.
  - destruct (Qltb _ _) eqn:T; [|reflexivity]. qbool. exfalso. lra.
Qed.

Lemma moon_last_aspect_ok :
  forall config speed_of positions jd_ut,
    ~ speed_of jd_ut == 0
    \/ (0 <= longitude (positions MOON) /\ longitude (positions MOON) < 360) ->
    exists last, _calculate_moon_last_aspect config speed_of positions jd_ut = Ok last.
Proof.
  intros config speed_of positions jd_ut H. unfold _calculate_moon_last_aspect.
  match goal with
  | |- context [bind (collect ?f ?l) _] =>
      destruct (collect_ok f l) as [zs Ez]
  end.
  - intros p _. apply collect_ok. intros k _.
    destruct (Qleb _ _ && _is_moon_separating_from_aspect _ _ _ _) eqn:T;
      [|eexists; reflexivity].
    apply andb_true_iff in T. destruct T as [_ T].
    unfold py_div. destruct (Qeqb (speed_of jd_ut) 0) eqn:Z.
    + exfalso. qbool. destruct H as [H|[Hlo Hhi]]; [exact (H Z)|].
      rewrite (proj1 (motionless_moon_neither_separates_nor_applies
                        (positions MOON) (positions p) k (speed_of jd_ut) Z Hlo Hhi)) in T.
      discriminate T.
    + cbn [bind]. eexists. reflexivity.
  - rewrite Ez. cbn [bind]. eexists. reflexivity.
Qed.

Lemma example_chart_built (eph : Ephemeris) :
  calculate_chart example_config days_to_sign_exit_model calculate_elongation_model
    example_sun_altitude example_moon_speed eph 2460000 51 0 = Ok (example_chart eph).
Proof.
  unfold example_chart, calculate_chart.
  destruct (match eph_houses eph with Some hs => hs | None => (default_cusps, 0, 90) end)
    as [[cusps asc] mc].
  match goal with
  | |- context [bind (_calculate_moon_last_aspect ?c ?s ?pos ?j) _] =>
      destruct (moon_last_aspect_ok c s pos j) as [last El]
  end.
  - left. unfold example_moon_speed. intro H. discriminate H.
  - rewrite El. reflexivity.
Qed.

(** X8.  For an ephemeris that gives twelve cusps (or fails for the
    houses), chart assembly raises only through the division by the Moon's
    speed in the search for the last lunar aspect: it succeeds whenever the
    reported Moon speed is not zero, and also for a zero speed when the
    ephemeris gives the Moon a longitude in [[0, 360)] (or fails for the
    Moon, whose fallback longitude is 0), because a motionless Moon is
    separating from nothing. *)
Theorem calculate_chart_succeeds :
  forall (config : Config) (days_to_sign_exit : Q -> Q -> option Q)
         (calculate_elongation : Q -> Q -> Q)
         (sun_altitude_at_civil_twilight : Q -> Q -> Q -> Q)
         (get_real_moon_speed : Q -> Q) (eph : Ephemeris) (jd_ut lat lon : Q),
    (forall cusps asc mc, eph_houses eph = Some (cusps, asc, mc) ->
                          (12 <= List.length cusps)%nat) ->
    ~ get_real_moon_speed jd_ut == 0
    \/ (forall l b v, eph_planet eph MOON = Some (l, b, v) -> 0 <= l /\ l < 360) ->
    exists chart,
      calculate_chart config days_to_sign_exit calculate_elongation
        sun_altitude_at_civil_twilight get_real_moon_speed eph jd_ut lat lon = Ok chart.
Proof.
  intros config dse ce sa speed_of eph jd_ut lat lon _ H.
  unfold calculate_chart.
  destruct (match eph_houses eph with Some hs => hs | None => (default_cusps, 0, 90) end)
    as [[cusps asc] mc].
  match goal with
  | |- context [bind (_calculate_moon_last_aspect ?c ?s ?pos ?j) _] =>
      destruct (moon_last_aspect_ok c s pos j) as [last El]
  end.
  - destruct H as [H|H]; [left; exact H|right].
    cbn [longitude]. destruct (eph_planet eph MOON) as [[[l b] v]|] eqn:E.
    + cbn [longitude]. exact (H l b v eq_refl).
    + cbn [longitude]. lra.
  - rewrite El. cbn [bind]. eexists. reflexivity.
Qed.


Lemma calculate_chart_succeeds_witness :
  (forall cusps asc mc,
     eph_houses stationary_moon_ephemeris = Some (cusps, asc, mc) ->
     (12 <= List.length cusps)%nat)
  /\ (forall l b v, eph_planet stationary_moon_ephemeris MOON = Some (l, b, v) ->
                    0 <= l /\ l < 360)
  /\ exists chart,
       calculate_chart example_config days_to_sign_exit_model calculate_elongation_model
         example_sun_altitude (fun _ => 0) stationary_moon_ephemeris 2460000 51 0
       = Ok chart.
Proof.
  assert (L : forall cusps asc mc,
                eph_houses stationary_moon_ephemeris = Some (cusps, asc, mc) ->
                (12 <= List.length cusps)%nat).
  { intros cusps asc mc E. vm_compute in E. injection E as <- _ _. cbn. lia. }
  assert (H : forall l b v, eph_planet stationary_moon_ephemeris MOON = Some (l, b, v) ->
                            0 <= l /\ l < 360).
  { intros l b v E. vm_compute in E. injection E as <- _ _.
    split; [discriminate | reflexivity]. }
  split; [exact L|]. split; [exact H|].
  exact (calculate_chart_succeeds example_config days_to_sign_exit_model
           calculate_elongation_model example_sun_altitude (fun _ => 0)
           stationary_moon_ephemeris 2460000 51 0 L (or_intror H)).
Defined.

Lemma ruler_is_traditional (s : Sign) : In (ruler s) traditional_planets.
Proof. destruct s; vm_compute; tauto. Qed.

Lemma get_sign_zero : _get_sign 0 = ARIES.
Proof. vm_compute. reflexivity. Qed.

Lemma built_chart_retrograde :
  forall config dse ce sa speed_of eph jd_ut lat lon chart,
    calculate_chart config dse ce sa speed_of eph jd_ut lat lon = Ok chart ->
    forall p, retrograde (planets chart p) = Qltb (speed (planets chart p)) 0.
Proof.
  intros config dse ce sa speed_of eph jd_ut lat lon chart Hc p.
  unfold calculate_chart in Hc.
  destruct (match eph_houses eph with Some hs => hs | None => (default_cusps, 0, 90) end)
    as [[cusps asc] mc].
  apply bind_ok in Hc. destruct Hc as (last & _ & Hc).
  injection Hc as <-. cbn [planets retrograde speed].
  destruct (eph_planet eph p) as [[[l b] v]|]; cbn [retrograde speed]; reflexivity.
Qed.

(** X9.  What every chart built by [calculate_chart] from an ephemeris
    with twelve cusps satisfies: each of its positions carries its own
    planet, the sign of its longitude (the fallback position included),
    the house computed from the chart's cusps, which lies between 1 and 12,
    and the retrograde flag of a negative speed; the house rulers are
    defined exactly on the houses 1 to 12 and are traditional planets. *)
Theorem built_chart_is_consistent :
  forall (config : Config) (days_to_sign_exit : Q -> Q -> option Q)
         (calculate_elongation : Q -> Q -> Q)
         (sun_altitude_at_civil_twilight : Q -> Q -> Q -> Q)
         (get_real_moon_speed : Q -> Q) (eph : Ephemeris) (jd_ut lat lon : Q)
         (chart : HoraryChart),
    calculate_chart config days_to_sign_exit calculate_elongation
      sun_altitude_at_civil_twilight get_real_moon_speed eph jd_ut lat lon = Ok chart ->
    (forall cusps asc mc, eph_houses eph = Some (cusps, asc, mc) ->
                          List.length cusps = 12%nat) ->
    List.length (houses chart) = 12%nat
    /\ (forall p,
          planet (planets chart p) = p
          /\ sign (planets chart p) = _get_sign (longitude (planets chart p))
          /\ house (planets chart p)
             = _calculate_house_position (longitude (planets chart p)) (houses chart)
          /\ (1 <= house (planets chart p) <= 12)%Z
          /\ retrograde (planets chart p) = Qltb (speed (planets chart p)) 0
          /\ dignity_score (planets chart p)
             = _calculate_enhanced_dignity config p (sign (planets chart p))
                 (house (planets chart p)) (solar_analyses chart p))
    /\ (forall h,
          match house_rulers chart h with
          | Some r =>
              (1 <= h <= 12)%Z /\ In r traditional_planets
              /\ r = ruler (_get_sign (nth (Z.to_nat (h - 1)) (houses chart) 0))
          | None => ~ (1 <= h <= 12)%Z
          end).
Proof.
  intros config dse ce sa speed_of eph jd_ut lat lon chart Hc Hlen.
  unfold calculate_chart in Hc.
  assert (L : List.length
                (fst (fst (match eph_houses eph with
                           | Some hs => hs
                           | None => (default_cusps, 0, 90)
                           end))) = 12%nat).
  { destruct (eph_houses eph) as [[[cusps asc] mc]|] eqn:E.
    - exact (Hlen cusps asc mc eq_refl).
    - reflexivity. }
  destruct (match eph_houses eph with Some hs => hs | None => (default_cusps, 0, 90) end)
    as [[cusps asc] mc].
  cbn [fst] in L.
  apply bind_ok in Hc. destruct Hc as (last & _ & Hc).
  injection Hc as <-. cbn [houses planets house_rulers solar_analyses].
  split; [exact L|]. split.
  - intro p. cbn [planet sign longitude house retrograde speed dignity_score].
    split; [reflexivity|]. split.
    { destruct (eph_planet eph p) as [[[l b] v]|]; cbn [sign longitude];
        [reflexivity | symmetry; exact get_sign_zero]. }
    split; [reflexivity|]. split.
    { apply house_position_bounds. }
    split; [|reflexivity].
    destruct (eph_planet eph p) as [[[l b] v]|]; cbn [retrograde speed]; reflexivity.
  - intro h. rewrite L.
    destruct ((1 <=? h)%Z && (h <=? Z.of_nat 12)%Z) eqn:T.
    + apply andb_true_iff in T. destruct T as [A B].
      apply Z.leb_le in A. apply Z.leb_le in B.
      split; [lia|]. split; [apply ruler_is_traditional | reflexivity].
    + apply andb_false_iff in T. intros [A B].
      destruct T as [T|T]; apply Z.leb_gt in T; lia.
Qed.

Lemma built_chart_is_consistent_witness :
  calculate_chart example_config days_to_sign_exit_model calculate_elongation_model
    example_sun_altitude example_moon_speed stationary_moon_ephemeris 2460000 51 0
  = Ok stationary_moon_chart
  /\ (forall cusps asc mc,
        eph_houses stationary_moon_ephemeris = Some (cusps, asc, mc) ->
        List.length cusps = 12%nat)
  /\ List.length (houses stationary_moon_chart) = 12%nat.
Proof.
  assert (H : calculate_chart example_config days_to_sign_exit_model
                calculate_elongation_model example_sun_altitude example_moon_speed
                stationary_moon_ephemeris 2460000 51 0 = Ok stationary_moon_chart).
  { exact (example_chart_built stationary_moon_ephemeris). }
  assert (L : forall cusps asc mc,
                eph_houses stationary_moon_ephemeris = Some (cusps, asc, mc) ->
                List.length cusps = 12%nat).
  { intros cusps asc mc E. vm_compute in E. injection E as <- _ _. reflexivity. }
  split; [exact H|]. split; [exact L|].
  exact (proj1 (built_chart_is_consistent _ _ _ _ _ _ _ _ _ _ H L)).
Defined.

(** ** The judgment procedure *)

(** X10.  The judgment procedure fails in one way only: with a division
    by zero, when the Moon's speed is reported as zero and a direct
    perfection (the only kind that carries an aspect) asks for its timing.
    Every other run returns a judgment. *)
Theorem judgment_raises_only_for_motionless_moon :
  forall (config : Config) (days_to_sign_exit : Q -> Q -> option Q)
         (is_separating : Q -> Q -> Q -> Q -> Q -> Q -> bool) (str_float : Q -> string)
         (get_real_moon_speed : Q -> Q) (chart : HoraryChart) (qa : QuestionAnalysis)
         (ignore_radicality ignore_void_moon ignore_combustion ignore_saturn_7th : bool)
         (boost : Q),
    (exists j,
       _apply_enhanced_judgment config days_to_sign_exit is_separating str_float
         get_real_moon_speed chart qa ignore_radicality ignore_void_moon
         ignore_combustion ignore_saturn_7th boost = Ok j)
    \/ (_apply_enhanced_judgment config days_to_sign_exit is_separating str_float
          get_real_moon_speed chart qa ignore_radicality ignore_void_moon
          ignore_combustion ignore_saturn_7th boost
        = Raise (ZeroDivisionError "float division by zero")
        /\ get_real_moon_speed (julian_day chart) == 0
        /\ exists querent quesited description p a,
             _identify_significators chart qa
             = ValidSignificators querent quesited description
             /\ _check_enhanced_perfection config days_to_sign_exit is_separating
                  str_float chart querent quesited boost = Some p
             /\ p_type p = "direct" /\ p_aspect p = Some a).
Proof.
  intros config dse is_sep strf speed_of chart qa ir ivm ic i7 boost.
  unfold _apply_enhanced_judgment.
  destruct (negb ir && negb (valid (_check_enhanced_radicality config chart i7)));
    [left; eexists; reflexivity|].
  destruct (_identify_significators chart qa) as [reason|querent quesited description];
    [left; eexists; reflexivity|].
  destruct (solar_adjustment config _ ic) as [c0 lines].
  destruct (_check_enhanced_perfection config dse is_sep strf chart querent quesited boost)
    as [p|] eqn:Hp.
  - unfold _calculate_enhanced_timing.
    destruct (p_aspect p) as [a|] eqn:Ha; [|left; eexists; reflexivity].
    unfold py_div. destruct (Qeqb (speed_of (julian_day chart)) 0) eqn:Z.
    + right. split; [reflexivity|]. qbool. split; [exact Z|].
      exists querent, quesited, description, p, a.
      split; [reflexivity|]. split; [exact Hp|]. split; [|exact Ha].
      unfold _check_enhanced_perfection in Hp.
      repeat break_match_in Hp; inversion Hp; subst; cbn [p_type p_aspect] in *;
        try reflexivity; discriminate Ha.
    + left. eexists. reflexivity.
  - destruct (_check_enhanced_denial_conditions config chart querent quesited);
      [left; eexists; reflexivity|].
    destruct (favorable _); [left; eexists; reflexivity|].
    destruct (unfavorable _); left; eexists; reflexivity.
Qed.

(** X11.  Every judgment returned carries one of five verdicts and at
    least one reasoning line.  With the radicality override on, the verdict
    is never NOT RADICAL.  NOT RADICAL and CANNOT JUDGE come with
    confidence 0 and no timing; YES and UNCLEAR always come with a
    timing. *)
Theorem judgment_verdicts :
  forall (config : Config) (days_to_sign_exit : Q -> Q -> option Q)
         (is_separating : Q -> Q -> Q -> Q -> Q -> Q -> bool) (str_float : Q -> string)
         (get_real_moon_speed : Q -> Q) (chart : HoraryChart) (qa : QuestionAnalysis)
         (ignore_radicality ignore_void_moon ignore_combustion ignore_saturn_7th : bool)
         (boost : Q) (j : JudgmentResult),
    _apply_enhanced_judgment config days_to_sign_exit is_separating str_float
      get_real_moon_speed chart qa ignore_radicality ignore_void_moon
      ignore_combustion ignore_saturn_7th boost = Ok j ->
    In (jr_result j) ["NOT RADICAL"; "CANNOT JUDGE"; "YES"; "NO"; "UNCLEAR"]
    /\ jr_reasoning j <> []
    /\ (ignore_radicality = true -> jr_result j <> "NOT RADICAL")
    /\ (jr_result j = "NOT RADICAL" \/ jr_result j = "CANNOT JUDGE" ->
        jr_confidence j = 0 /\ jr_timing j = None)
    /\ (jr_result j = "YES" \/ jr_result j = "UNCLEAR" -> jr_timing j <> None).
Proof.
  intros config dse is_sep strf speed_of chart qa ir ivm ic i7 boost j H.
  unfold _apply_enhanced_judgment in H.
  destruct (negb ir && negb (valid (_check_enhanced_radicality config chart i7))) eqn:R.
  { inversion H; subst. cbn [jr_result jr_reasoning jr_confidence jr_timing].
    split; [left; reflexivity|]. split; [discriminate|]. split.
    - intros ->. discriminate R.
    - split; [intros _; split; reflexivity|]. intros [E|E]; discriminate E. }
  destruct (_identify_significators chart qa) as [reason|querent quesited description].
  { inversion H; subst. cbn [jr_result jr_reasoning jr_confidence jr_timing].
      split; [right; left; reflexivity|]. split.
      - unfold append. destruct (negb ir); discriminate.
      - split; [intros _; discriminate|].
        split; [intros _; split; reflexivity|]. intros [E|E]; discriminate E. }
  destruct (solar_adjustment config _ ic) as [c0 lines].
  assert (NE : forall (l : list string) (x : string), append l x <> []).
  { intros l x. unfold append. destruct l; discriminate. }
  destruct (_check_enhanced_perfection config dse is_sep strf chart querent quesited boost)
    as [p|].
  - apply bind_ok in H. destruct H as (t & _ & H). inversion H; subst.
    cbn [jr_result jr_reasoning jr_confidence jr_timing].
    split; [destruct (p_favorable p); cbn; tauto|]. split; [apply NE|].
    split; [intros _; destruct (p_favorable p); discriminate|].
    split; [intros [E|E]; destruct (p_favorable p); discriminate E|].
    intros _. discriminate.
  - destruct (_check_enhanced_denial_conditions config chart querent quesited).
    + inversion H; subst. cbn [jr_result jr_reasoning jr_confidence jr_timing].
      split; [cbn; tauto|]. split; [apply NE|].
      split; [intros _; discriminate|].
      split; intros [E|E]; discriminate E.
    + destruct (favorable _); [|destruct (unfavorable _)];
        inversion H; subst; cbn [jr_result jr_reasoning jr_confidence jr_timing];
        (split; [cbn; tauto|]); (split; [apply NE|]);
        (split; [intros _; discriminate|]);
        (split; [intros [E|E]; discriminate E|]); intros _; discriminate.
Qed.

Lemma judgment_verdicts_witness :
  _apply_enhanced_judgment example_config days_to_sign_exit_model example_is_separating
    example_str_float example_moon_speed void_moon_chart seventh_house_question
    false false false false 15 = Ok void_moon_judgment
  /\ In (jr_result void_moon_judgment)
        ["NOT RADICAL"; "CANNOT JUDGE"; "YES"; "NO"; "UNCLEAR"].
Proof.
  assert (H : _apply_enhanced_judgment example_config days_to_sign_exit_model
                example_is_separating example_str_float example_moon_speed
                void_moon_chart seventh_house_question false false false false 15
              = Ok void_moon_judgment).
  { vm_compute. reflexivity. }
  split; [exact H|].
  exact (proj1 (judgment_verdicts example_config days_to_sign_exit_model
                  example_is_separating example_str_float example_moon_speed
                  void_moon_chart seventh_house_question false false false false 15
                  void_moon_judgment H)).
Defined.

Lemma planet_eqb_refl (p : Planet) : planet_eqb p p = true.
Proof. destruct p; reflexivity. Qed.



(** ** Reception and perfection *)

Lemma sign_eqb_eq (a b : Sign) : sign_eqb a b = true -> a = b.
Proof. destruct a, b; cbn; intro H; try discriminate; reflexivity. Qed.

Lemma entry_is_some (o : option Sign) (s : Sign) : entry_is o s = true -> o = Some s.
Proof.
  destruct o as [s'|]; cbn; [|discriminate].
  intro H. apply sign_eqb_eq in H. congruence.
Qed.

(** Only Mercury both rules and is exalted in one sign, Virgo. *)
Lemma ruled_and_exalted (p : Planet) (s : Sign) :
  planet_eqb (ruler s) p = true -> entry_is (exaltations p) s = true ->
  p = MERCURY /\ s = VIRGO.
Proof.
  intros R E. apply planet_eqb_eq in R. apply entry_is_some in E. subst p.
  destruct s; cbn in E; try discriminate; split; reflexivity.
Qed.

Lemma mutual_reception_vocabulary (chart : HoraryChart) (p1 p2 : Planet) :
  In (_check_enhanced_mutual_reception chart p1 p2)
     ["mutual_rulership"; "mutual_exaltation"; "mixed_reception"; "none"].
Proof.
  unfold _check_enhanced_mutual_reception.
  repeat match goal with
         | |- context [if ?b then _ else _] => destruct b
         end; cbn; tauto.
Qed.

(** X13.  Mutual reception does not depend on the order of the two
    planets and is one of four values.  The mixed value is returned only
    when one of the two is Mercury and the other stands in Virgo (the only
    sign whose ruler is also exalted in it): the test asks for rulership
    and exaltation of the same planet in the same sign. *)
Theorem mutual_reception_is_symmetric :
  forall (chart : HoraryChart) (p1 p2 : Planet),
    _check_enhanced_mutual_reception chart p1 p2
    = _check_enhanced_mutual_reception chart p2 p1
    /\ In (_check_enhanced_mutual_reception chart p1 p2)
          ["mutual_rulership"; "mutual_exaltation"; "mixed_reception"; "none"]
    /\ (_check_enhanced_mutual_reception chart p1 p2 = "mixed_reception" ->
        (p2 = MERCURY /\ sign (planets chart p1) = VIRGO)
        \/ (p1 = MERCURY /\ sign (planets chart p2) = VIRGO)).
Proof.
  intros chart p1 p2. unfold _check_enhanced_mutual_reception.
  set (r12 := planet_eqb (ruler (sign (planets chart p1))) p2).
  set (r21 := planet_eqb (ruler (sign (planets chart p2))) p1).
  set (e12 := entry_is (exaltations p1) (sign (planets chart p2))).
  set (e21 := entry_is (exaltations p2) (sign (planets chart p1))).
  split; [|split].
  - rewrite (andb_comm r21 r12), (andb_comm e21 e12), (orb_comm (r21 && e12) (r12 && e21)).
    reflexivity.
  - destruct (r12 && r21); [cbn; tauto|].
    destruct (e12 && e21); [cbn; tauto|].
    destruct (r12 && e21 || r21 && e12); cbn; tauto.
  - destruct (r12 && r21); [discriminate|].
    destruct (e12 && e21); [discriminate|].
    destruct (r12 && e21 || r21 && e12) eqn:M; [|discriminate].
    intros _. apply orb_true_iff in M. destruct M as [M|M];
      apply andb_true_iff in M; destruct M as [R E].
    + left. exact (ruled_and_exalted _ _ R E).
    + right. exact (ruled_and_exalted _ _ R E).
Qed.

Lemma first_some_found {A B : Type} (f : A -> option B) (l : list A) (b : B) :
  first_some f l = Some b -> exists x, In x l /\ f x = Some b.
Proof.
  induction l as [|x xs IH]; cbn [first_some]; [discriminate|].
  destruct (f x) as [b'|] eqn:E.
  - intro H. exists x. split; [left; reflexivity | congruence].
  - intro H. destruct (IH H) as (y & Hy & Ey). exists y. split; [right; exact Hy | exact Ey].
Qed.

Lemma translation_is_favorable :
  forall config is_sep chart querent quesited t,
    _check_enhanced_translation_of_light config is_sep chart querent quesited = Some t ->
    tr_favorable t = true.
Proof.
  intros config is_sep chart querent quesited t H.
  unfold _check_enhanced_translation_of_light in H.
  destruct (negb (require_speed_advantage (translation (moon config)))); [|discriminate].
  apply first_some_found in H. destruct H as (p & _ & H).
  unfold translation_by in H.
  repeat break_match_in H; inversion H; subst; reflexivity.
Qed.

Lemma collection_is_favorable :
  forall config dse chart querent quesited c,
    _check_enhanced_collection_of_light config dse chart querent quesited = Some c ->
    col_favorable c = true.
Proof.
  intros config dse chart querent quesited c H.
  unfold _check_enhanced_collection_of_light in H.
  apply first_some_found in H. destruct H as (p & _ & H).
  unfold collection_by in H.
  repeat break_match_in H; inversion H; subst; reflexivity.
Qed.

(** X14.  A perfection is unfavourable in one case only: a direct
    applying square or opposition between the significators that perfects
    in sign and has no reception at all.  Translation, collection and
    perfection by reception alone are always favourable, and any reception
    makes a direct aspect favourable. *)
Theorem unfavourable_perfection_is_hard_aspect_without_reception :
  forall (config : Config) (days_to_sign_exit : Q -> Q -> option Q)
         (is_separating : Q -> Q -> Q -> Q -> Q -> Q -> bool) (str_float : Q -> string)
         (chart : HoraryChart) (querent quesited : Planet) (boost : Q) (p : Perfection),
    _check_enhanced_perfection config days_to_sign_exit is_separating str_float
      chart querent quesited boost = Some p ->
    p_favorable p = false ->
    p_type p = "direct"
    /\ p_reception p = Some "none"
    /\ _check_enhanced_mutual_reception chart querent quesited = "none"
    /\ exists a,
         p_aspect p = Some a
         /\ _find_applying_aspect chart querent quesited = Some a
         /\ (aa_aspect a = SQUARE \/ aa_aspect a = OPPOSITION)
         /\ _enhanced_perfects_in_sign days_to_sign_exit (planets chart querent)
              (planets chart quesited) a = true.
Proof.
  intros config dse is_sep strf chart querent quesited boost p H F.
  unfold _check_enhanced_perfection in H.
  destruct (_find_applying_aspect chart querent quesited) as [a|] eqn:Ea.
  - destruct (_enhanced_perfects_in_sign dse _ _ a) eqn:Ps.
    + pose proof (mutual_reception_vocabulary chart querent quesited) as V.
      destruct (String.eqb (_check_enhanced_mutual_reception chart querent quesited)
                  "mutual_rulership") eqn:R1.
      { inversion H; subst; discriminate F. }
      destruct (String.eqb (_check_enhanced_mutual_reception chart querent quesited)
                  "mutual_exaltation") eqn:R2.
      { inversion H; subst; discriminate F. }
      inversion H; subst; clear H. cbn [p_favorable p_type p_reception p_aspect] in *.
      assert (N : _check_enhanced_mutual_reception chart querent quesited = "none").
      { cbn [In] in V. destruct V as [V|[V|[V|[V|[]]]]]; rewrite <- V in *;
          try reflexivity; cbn in R1, R2, F; try discriminate. }
      split; [reflexivity|]. split; [rewrite N; reflexivity|]. split; [exact N|].
      exists a. split; [reflexivity|]. split; [reflexivity|]. split; [|exact Ps].
      rewrite N in F. destruct (aa_aspect a); cbn in F; try discriminate; tauto.
    + exfalso.
      destruct (_check_enhanced_translation_of_light config is_sep chart querent quesited)
        as [t|] eqn:T.
      { inversion H; subst. cbn in F.
        rewrite (translation_is_favorable _ _ _ _ _ _ T) in F. discriminate F. }
      destruct (_check_enhanced_collection_of_light config dse chart querent quesited)
        as [c|] eqn:C.
      { inversion H; subst. cbn in F.
        rewrite (collection_is_favorable _ _ _ _ _ _ C) in F. discriminate F. }
      repeat break_match_in H; inversion H; subst; discriminate F.
  - exfalso.
    destruct (_check_enhanced_translation_of_light config is_sep chart querent quesited)
      as [t|] eqn:T.
    { inversion H; subst. cbn in F.
      rewrite (translation_is_favorable _ _ _ _ _ _ T) in F. discriminate F. }
    destruct (_check_enhanced_collection_of_light config dse chart querent quesited)
      as [c|] eqn:C.
    { inversion H; subst. cbn in F.
      rewrite (collection_is_favorable _ _ _ _ _ _ C) in F. discriminate F. }
    repeat break_match_in H; inversion H; subst; discriminate F.
Qed.

Lemma unfavourable_perfection_is_hard_aspect_without_reception_witness :
  _check_enhanced_perfection example_config days_to_sign_exit_model example_is_separating
    example_str_float venus_squares_mars_chart MARS VENUS 15
  = Some venus_squares_mars_perfection
  /\ p_favorable venus_squares_mars_perfection = false
  /\ p_type venus_squares_mars_perfection = "direct".
Proof.
  assert (H : _check_enhanced_perfection example_config days_to_sign_exit_model
                example_is_separating example_str_float venus_squares_mars_chart
                MARS VENUS 15 = Some venus_squares_mars_perfection).
  { vm_compute. reflexivity. }
  assert (F : p_favorable venus_squares_mars_perfection = false) by reflexivity.
  split; [exact H|]. split; [exact F|].
  exact (proj1 (unfavourable_perfection_is_hard_aspect_without_reception
                  example_config days_to_sign_exit_model example_is_separating
                  example_str_float venus_squares_mars_chart MARS VENUS 15
                  venus_squares_mars_perfection H F)).
Defined.

(** ** Denial and lunar testimony *)

(** X15.  On a chart built by [calculate_chart] from longitudes in
    [[0, 360)], once no perfection is found the denial stage can deny in one
    way only, frustration by a retrograde significator, and only when
    automatic denial by retrogradation is configured: the prohibition test
    never holds there.  With that option off the denial stage never
    denies. *)
Theorem built_chart_denial_is_retrograde_frustration :
  forall (config : Config) (days_to_sign_exit : Q -> Q -> option Q)
         (calculate_elongation : Q -> Q -> Q)
         (sun_altitude_at_civil_twilight : Q -> Q -> Q -> Q)
         (is_separating : Q -> Q -> Q -> Q -> Q -> Q -> bool) (str_float : Q -> string)
         (get_real_moon_speed : Q -> Q) (eph : Ephemeris) (jd_ut lat lon : Q)
         (chart : HoraryChart) (querent quesited : Planet) (boost : Q),
    (forall p l b v, eph_planet eph p = Some (l, b, v) -> 0 <= l /\ l < 360) ->
    calculate_chart config days_to_sign_exit calculate_elongation
      sun_altitude_at_civil_twilight get_real_moon_speed eph jd_ut lat lon = Ok chart ->
    _check_enhanced_perfection config days_to_sign_exit is_separating str_float
      chart querent quesited boost = None ->
    match _check_enhanced_denial_conditions config chart querent quesited with
    | Some d =>
        retrograde_automatic_denial config = true
        /\ (speed (planets chart querent) < 0 \/ speed (planets chart quesited) < 0)
        /\ d_confidence d = frustration_retrograde (denial (confidence config))
    | None =>
        retrograde_automatic_denial config = false
        \/ (0 <= speed (planets chart querent) /\ 0 <= speed (planets chart quesited))
    end.
Proof.
  intros config dse ce sa is_sep strf speed_of eph jd_ut lat lon chart querent quesited
         boost Hlon Hc Hp.
  pose proof (prohibition_never_fires_on_built_charts config dse ce sa is_sep strf
                speed_of eph jd_ut lat lon chart querent quesited boost Hlon Hc Hp) as N.
  pose proof (built_chart_retrograde config dse ce sa speed_of eph jd_ut lat lon chart Hc)
    as R.
  unfold _check_enhanced_denial_conditions. rewrite N.
  destruct (retrograde_automatic_denial config); cbn [negb].
  - rewrite (R querent), (R quesited).
    destruct (Qltb (speed (planets chart querent)) 0) eqn:A;
      destruct (Qltb (speed (planets chart quesited)) 0) eqn:B; cbn [orb]; qbool.
    + split; [reflexivity|]. split; [left; exact A | reflexivity].
    + split; [reflexivity|]. split; [left; exact A | reflexivity].
    + split; [reflexivity|]. split; [right; exact B | reflexivity].
    + right. split; assumption.
  - left. reflexivity.
Qed.

Lemma built_chart_denial_is_retrograde_frustration_witness :
  (forall p l b v, eph_planet void_moon_ephemeris p = Some (l, b, v) -> 0 <= l /\ l < 360)
  /\ calculate_chart example_config days_to_sign_exit_model calculate_elongation_model
       example_sun_altitude example_moon_speed void_moon_ephemeris 2460000 51 0
     = Ok void_moon_chart
  /\ _check_enhanced_perfection example_config days_to_sign_exit_model
       example_is_separating example_str_float void_moon_chart MARS VENUS 15 = None
  /\ match _check_enhanced_denial_conditions example_config void_moon_chart MARS VENUS with
     | Some d =>
         retrograde_automatic_denial example_config = true
         /\ (speed (planets void_moon_chart MARS) < 0
             \/ speed (planets void_moon_chart VENUS) < 0)
         /\ d_confidence d = frustration_retrograde (denial (confidence example_config))
     | None =>
         retrograde_automatic_denial example_config = false
         \/ (0 <= speed (planets void_moon_chart MARS)
             /\ 0 <= speed (planets void_moon_chart VENUS))
     end.
Proof.
  assert (L : forall p l b v, eph_planet void_moon_ephemeris p = Some (l, b, v) ->
                              0 <= l /\ l < 360).
  { intros p l b v E. destruct p; vm_compute in E; try discriminate E;
      injection E as <- _ _; (split; [discriminate | reflexivity]). }
  assert (C : calculate_chart example_config days_to_sign_exit_model
                calculate_elongation_model example_sun_altitude example_moon_speed
                void_moon_ephemeris 2460000 51 0 = Ok void_moon_chart).
  { exact (example_chart_built void_moon_ephemeris). }
  assert (P : _check_enhanced_perfection example_config days_to_sign_exit_model
                example_is_separating example_str_float void_moon_chart MARS VENUS 15
              = None).
  { vm_compute. reflexivity. }
  split; [exact L|]. split; [exact C|]. split; [exact P|].
  exact (built_chart_denial_is_retrograde_frustration example_config
           days_to_sign_exit_model calculate_elongation_model example_sun_altitude
           example_is_separating example_str_float example_moon_speed
           void_moon_ephemeris 2460000 51 0 void_moon_chart MARS VENUS 15 L C P).
Defined.

(** X16.  With the void-Moon override on, the lunar stage never gives
    testimony: whenever the judgment reaches it (radical or radicality
    bypassed, valid significators, no perfection, no denial) the verdict is
    UNCLEAR with the timing text of the override, whatever the Moon's
    dignity, next aspect or void state, and the confidence is at most the
    neutral cap. *)
Theorem void_override_makes_lunar_stage_unclear :
  forall (config : Config) (days_to_sign_exit : Q -> Q -> option Q)
         (is_separating : Q -> Q -> Q -> Q -> Q -> Q -> bool) (str_float : Q -> string)
         (get_real_moon_speed : Q -> Q) (chart : HoraryChart) (qa : QuestionAnalysis)
         (ignore_radicality ignore_combustion ignore_saturn_7th : bool) (boost : Q)
         (querent quesited : Planet) (description : string),
    ignore_radicality = true
    \/ valid (_check_enhanced_radicality config chart ignore_saturn_7th) = true ->
    _identify_significators chart qa = ValidSignificators querent quesited description ->
    _check_enhanced_perfection config days_to_sign_exit is_separating str_float
      chart querent quesited boost = None ->
    _check_enhanced_denial_conditions config chart querent quesited = None ->
    exists j,
      _apply_enhanced_judgment config days_to_sign_exit is_separating str_float
        get_real_moon_speed chart qa ignore_radicality true ignore_combustion
        ignore_saturn_7th boost = Ok j
      /\ jr_result j = "UNCLEAR"
      /\ jr_timing j = Some "Uncertain (void Moon overridden)"
      /\ jr_confidence j <= cap_neutral (lunar_confidence_caps (confidence config))
      /\ In "Moon: Moon void of course - ignored by override" (jr_reasoning j).
Proof.
  intros config dse is_sep strf speed_of chart qa ir ic i7 boost querent quesited desc
         Hrad Hsig Hperf Hden.
  assert (Hgate : negb ir
                  && negb (valid (_check_enhanced_radicality config chart i7)) = false).
  { destruct Hrad as [-> | ->]; [reflexivity | apply andb_false_r]. }
  unfold _apply_enhanced_judgment. rewrite Hgate, Hsig.
  destruct (solar_adjustment config _ ic) as [c0 lines].
  rewrite Hperf, Hden.
  unfold _check_enhanced_moon_testimony. cbn [negb andb favorable unfavorable mt_timing
    mt_reason].
  eexists. split; [reflexivity|]. cbn [jr_result jr_timing jr_confidence jr_reasoning].
  split; [reflexivity|]. split; [reflexivity|]. split.
  - unfold confidence_cfg_of. apply py_min_le_r.
  - unfold append. apply in_or_app. right. left. reflexivity.
Qed.

Lemma void_override_makes_lunar_stage_unclear_witness :
  valid (_check_enhanced_radicality example_config void_moon_chart false) = true
  /\ _identify_significators void_moon_chart seventh_house_question
     = ValidSignificators MARS VENUS
         "Querent: Mars (ruler of 1), Quesited: Venus (ruler of 7)"
  /\ _check_enhanced_perfection example_config days_to_sign_exit_model
       example_is_separating example_str_float void_moon_chart MARS VENUS 15 = None
  /\ _check_enhanced_denial_conditions example_config void_moon_chart MARS VENUS = None
  /\ exists j,
       example_judgment void_moon_chart seventh_house_question false true 15 = Ok j
       /\ jr_result j = "UNCLEAR".
Proof.
  assert (R : valid (_check_enhanced_radicality example_config void_moon_chart false)
              = true) by (vm_compute; reflexivity).
  assert (S : _identify_significators void_moon_chart seventh_house_question
              = ValidSignificators MARS VENUS
                  "Querent: Mars (ruler of 1), Quesited: Venus (ruler of 7)")
    by (vm_compute; reflexivity).
  assert (P : _check_enhanced_perfection example_config days_to_sign_exit_model
                example_is_separating example_str_float void_moon_chart MARS VENUS 15
              = None) by (vm_compute; reflexivity).
  assert (D : _check_enhanced_denial_conditions example_config void_moon_chart MARS VENUS
              = None) by (vm_compute; reflexivity).
  split; [exact R|]. split; [exact S|]. split; [exact P|]. split; [exact D|].
  destruct (void_override_makes_lunar_stage_unclear example_config
              days_to_sign_exit_model example_is_separating example_str_float
              example_moon_speed void_moon_chart seventh_house_question
              false false false 15 MARS VENUS
              "Querent: Mars (ruler of 1), Quesited: Venus (ruler of 7)"
              (or_intror R) S P D) as (j & E & V & _).
  exists j. split; [exact E | exact V].
Defined.

(** ** The Moon's next aspect *)

Lemma xltb_irrefl (a : xfloat) : xltb a a = false.
Proof.
  destruct a as [q|]; cbn; [|reflexivity].
  destruct (Qltb q q) eqn:E; [|reflexivity]. qbool. exfalso. lra.
Qed.

Lemma xltb_trans (a b c : xfloat) :
  xltb a b = true -> xltb b c = true -> xltb a c = true.
Proof.
  destruct a as [x|], b as [y|], c as [z|]; cbn; intros H1 H2;
    try discriminate; try reflexivity.
  destruct (Qltb x z) eqn:E; [reflexivity|]. qbool. exfalso. lra.
Qed.

Lemma xltb_le_trans (a b c : xfloat) :
  xltb a b = true -> xltb c b = false -> xltb a c = true.
Proof.
  destruct a as [x|], b as [y|], c as [z|]; cbn; intros H1 H2;
    try discriminate; try reflexivity.
  destruct (Qltb x z) eqn:E; [reflexivity|]. qbool. exfalso. lra.
Qed.

Lemma xltb_asym (a b : xfloat) : xltb a b = true -> xltb b a = false.
Proof.
  destruct a as [x|], b as [y|]; cbn; intro H; try discriminate; try reflexivity.
  destruct (Qltb y x) eqn:E; [|reflexivity]. qbool. exfalso. lra.
Qed.

Lemma min_by_in {A : Type} (key : A -> xfloat) (x : A) (xs : list A) :
  min_by key x xs = x \/ In (min_by key x xs) xs.
Proof.
  revert x. induction xs as [|y ys IH]; intro x; cbn [min_by]; [left; reflexivity|].
  destruct (xltb (key y) (key x)).
  - destruct (IH y) as [E|E]; right; [left; symmetry; exact E | right; exact E].
  - destruct (IH x) as [E|E]; [left; exact E | right; right; exact E].
Qed.

Lemma min_by_least {A : Type} (key : A -> xfloat) (xs : list A) :
  forall x y, y = x \/ In y xs -> xltb (key y) (key (min_by key x xs)) = false.
Proof.
  induction xs as [|z zs IH]; intros x y Hy; cbn [min_by].
  - destruct Hy as [->|[]]. apply xltb_irrefl.
  - destruct (xltb (key z) (key x)) eqn:E.
    + destruct Hy as [->|[->|Hy]].
      * destruct (xltb (key x) (key (min_by key z zs))) eqn:F; [|reflexivity].
        pose proof (IH z z (or_introl eq_refl)) as G.
        pose proof (xltb_le_trans _ _ _ F G) as K.
        rewrite (xltb_asym _ _ E) in K. discriminate K.
      * apply IH. left. reflexivity.
      * apply IH. right. exact Hy.
    + destruct Hy as [->|[->|Hy]].
      * apply IH. left. reflexivity.
      * destruct (xltb (key y) (key (min_by key x zs))) eqn:F; [|reflexivity].
        pose proof (IH x x (or_introl eq_refl)) as G.
        pose proof (xltb_le_trans _ _ _ F G) as K.
        rewrite K in E. discriminate E.
      * apply IH. right. exact Hy.
Qed.

Lemma py_min_key_found {A : Type} (key : A -> xfloat) (xs : list A) (r : A) :
  py_min_key key xs = Some r ->
  In r xs /\ forall y, In y xs -> xltb (key y) (key r) = false.
Proof.
  destruct xs as [|x rest]; cbn [py_min_key]; [discriminate|].
  intro H. injection H as <-. split.
  - destruct (min_by_in key x rest) as [E|E]; [left; symmetry; exact E | right; exact E].
  - intros y [<-|Hy]; apply min_by_least; [left; reflexivity | right; exact Hy].
Qed.

Lemma all_aspects_complete (k : Aspect) : In k all_aspects.
Proof. destruct k; cbn; tauto. Qed.

(** X17.  The Moon's next aspect, when there is one, is an applying
    aspect of the Moon to another traditional planet within the configured
    orb of its kind (no luminary bonus), timed by the orb over the
    difference between the Moon's speed and the body's absolute speed, and
    no other applying aspect within orb is timed sooner. *)
Theorem moon_next_aspect_is_soonest_applying :
  forall (config : Config) (get_real_moon_speed : Q -> Q)
         (positions : Planet -> PlanetPosition) (jd_ut : Q) (la : LunarAspect),
    _calculate_moon_next_aspect config get_real_moon_speed positions jd_ut = Some la ->
    In (la_planet la) other_planets
    /\ la_planet la <> MOON
    /\ la_applying la = true
    /\ la_orb la = orb_diff (longitude (positions MOON))
                     (longitude (positions (la_planet la))) (la_aspect la)
    /\ degrees_difference la = la_orb la
    /\ la_orb la <= aspect_orb config (la_aspect la)
    /\ _is_moon_applying_to_aspect (positions MOON) (positions (la_planet la))
         (la_aspect la) (get_real_moon_speed jd_ut) = true
    /\ perfection_eta_days la
       = moon_eta (get_real_moon_speed jd_ut) (positions (la_planet la)) (la_orb la)
    /\ perfection_eta_description la
       = _format_timing_description (perfection_eta_days la)
    /\ forall p k,
         In p other_planets ->
         orb_diff (longitude (positions MOON)) (longitude (positions p)) k
         <= aspect_orb config k ->
         _is_moon_applying_to_aspect (positions MOON) (positions p) k
           (get_real_moon_speed jd_ut) = true ->
         xltb (moon_eta (get_real_moon_speed jd_ut) (positions p)
                 (orb_diff (longitude (positions MOON)) (longitude (positions p)) k))
              (perfection_eta_days la) = false.
Proof.
  intros config speed_of positions jd_ut la H.
  unfold _calculate_moon_next_aspect in H.
  apply py_min_key_found in H. destruct H as [Hin Hmin].
  apply in_flat_map in Hin. destruct Hin as (p & Hp & Hin).
  apply in_flat_map in Hin. destruct Hin as (k & Hk & Hin).
  destruct (Qleb _ _ && _is_moon_applying_to_aspect _ _ _ _) eqn:C; [|destruct Hin].
  destruct Hin as [<-|[]].
  cbn [la_planet la_aspect la_orb degrees_difference perfection_eta_days
       perfection_eta_description la_applying] in *.
  apply andb_true_iff in C. destruct C as [C1 C2]. apply Qleb_true in C1.
  split; [exact Hp|]. split.
  { intros ->. vm_compute in Hp.
    repeat (destruct Hp as [Hp|Hp]; [discriminate Hp|]). exact Hp. }
  split; [reflexivity|]. split; [reflexivity|]. split; [reflexivity|].
  split; [exact C1|]. split; [exact C2|]. split; [reflexivity|]. split; [reflexivity|].
  intros p' k' Hp' Horb Happ.
  apply (Hmin (mkLunarAspect p' k'
                 (orb_diff (longitude (positions MOON)) (longitude (positions p')) k')
                 (orb_diff (longitude (positions MOON)) (longitude (positions p')) k')
                 (moon_eta (speed_of jd_ut) (positions p')
                    (orb_diff (longitude (positions MOON)) (longitude (positions p')) k'))
                 (_format_timing_description
                    (moon_eta (speed_of jd_ut) (positions p')
                       (orb_diff (longitude (positions MOON))
                          (longitude (positions p')) k')))
                 true)).
  apply in_flat_map. exists p'. split; [exact Hp'|].
  apply in_flat_map. exists k'. split; [apply all_aspects_complete|].
  unfold orb_diff in *. apply Qleb_true in Horb. rewrite Horb, Happ.
  left. reflexivity.
Qed.

Lemma moon_next_aspect_is_soonest_applying_witness :
  _calculate_moon_next_aspect example_config example_moon_speed
    (planets moon_between_significators_chart) 2460000 = Some moon_squares_venus
  /\ la_planet moon_squares_venus <> MOON
  /\ la_applying moon_squares_venus = true.
Proof.
  assert (H : _calculate_moon_next_aspect example_config example_moon_speed
                (planets moon_between_significators_chart) 2460000
              = Some moon_squares_venus).
  { vm_compute. reflexivity. }
  split; [exact H|].
  destruct (moon_next_aspect_is_soonest_applying example_config example_moon_speed
              (planets moon_between_significators_chart) 2460000 moon_squares_venus H)
    as (_ & N & A & _).
  split; [exact N | exact A].
Defined.

(** ** Void of course *)

Lemma flat_map_nil {A B : Type} (f : A -> list B) (l : list A) :
  flat_map f l = [] <-> forall x, In x l -> f x = [].
Proof.
  induction l as [|x xs IH]; cbn [flat_map].
  - split; [intros _ x [] | reflexivity].
  - split.
    + intro H. apply app_eq_nil in H. destruct H as [H1 H2].
      intros y [<-|Hy]; [exact H1 | exact (proj1 IH H2 y Hy)].
    + intro H. rewrite (H x (or_introl eq_refl)).
      rewrite (proj2 IH (fun y Hy => H y (or_intror Hy))). reflexivity.
Qed.

Lemma first_some_none {A B : Type} (f : A -> option B) (l : list A) :
  first_some f l = None <-> forall x, In x l -> f x = None.
Proof.
  induction l as [|x xs IH]; cbn [first_some].
  - split; [intros _ x [] | reflexivity].
  - destruct (f x) as [b|] eqn:E.
    + split; [discriminate|]. intro H. rewrite <- E. apply H. left. reflexivity.
    + split.
      * intros H y [<-|Hy]; [exact E | exact (proj1 IH H y Hy)].
      * intro H. apply IH. intros y Hy. apply H. right. exact Hy.
Qed.

Lemma nil_test {A : Type} (l : list A) :
  match l with [] => true | _ => false end = true <-> l = [].
Proof. destruct l; split; intro H; try reflexivity; discriminate H. Qed.

(** X18.  Under the sign method the Moon is void exactly when it is not
    stationary and no aspect point of another body that falls in the Moon's
    sign lies at a higher degree-in-sign than the Moon; the further test
    against the degrees left in the sign never excludes anything. *)
Theorem void_by_sign_characterised :
  forall (config : Config) (chart : HoraryChart),
    void (_void_by_sign_method config chart) = true
    <-> (stationary_speed_threshold (timing config) <= Qabs (speed (planets chart MOON))
         /\ forall p k pos,
              In p other_planets ->
              In pos (_calculate_aspect_positions (longitude (planets chart p)) k
                        (sign (planets chart MOON))) ->
              py_mod pos 30 <= py_mod (longitude (planets chart MOON)) 30).
Proof.
  intros config chart. unfold _void_by_sign_method.
  destruct (Qltb (Qabs (speed (planets chart MOON)))
              (stationary_speed_threshold (timing config))) eqn:S; cbn [void]; qbool.
  - split; [discriminate|]. intros [H _]. exfalso. lra.
  - rewrite nil_test. unfold future_aspects_in_sign. rewrite flat_map_nil.
    split.
    + intro H. split; [exact S|]. intros p k pos Hp Hpos.
      specialize (H p Hp). rewrite flat_map_nil in H.
      specialize (H k (all_aspects_complete k)). rewrite flat_map_nil in H.
      specialize (H pos Hpos).
      destruct (Qltb (py_mod (longitude (planets chart MOON)) 30) (py_mod pos 30)) eqn:A;
        cbn [andb] in H; qbool; [|exact A].
      destruct (Qltb (py_mod pos 30 - py_mod (longitude (planets chart MOON)) 30)
                  (30 - py_mod (longitude (planets chart MOON)) 30)) eqn:B;
        [discriminate H|].
      qbool. exfalso.
      pose proof (py_mod_range pos 30 ltac:(reflexivity)) as [_ R]. lra.
    + intros [_ H] p Hp. apply flat_map_nil. intros k _. apply flat_map_nil.
      intros pos Hpos. specialize (H p k pos Hp Hpos).
      destruct (Qltb (py_mod (longitude (planets chart MOON)) 30) (py_mod pos 30)) eqn:A;
        [|reflexivity].
      qbool. exfalso. lra.
Qed.

(** X19.  Under the orb method the Moon is void exactly when its folded
    separation from every other body misses every aspect angle by more
    than the configured void orb; that method never reports an exception
    and never looks at the sign boundary. *)
Theorem void_by_orb_characterised :
  forall (config : Config) (str_float : Q -> string) (chart : HoraryChart),
    (void (_void_by_orb_method config str_float chart) = true
     <-> forall p k,
           In p other_planets ->
           void_orb_deg (orbs config)
           < orb_diff (longitude (planets chart MOON)) (longitude (planets chart p)) k)
    /\ exception (_void_by_orb_method config str_float chart) = false
    /\ degrees_left_in_sign (_void_by_orb_method config str_float chart) = None.
Proof.
  intros config strf chart. unfold _void_by_orb_method.
  match goal with
  | |- context [match ?h with Some _ => _ | None => _ end] => destruct h as [[p k]|] eqn:E
  end; cbn [void exception degrees_left_in_sign].
  - split; [|split; reflexivity]. split; [discriminate|]. intro H. exfalso.
    apply first_some_found in E. destruct E as (p' & Hp' & E).
    apply first_some_found in E. destruct E as (k' & _ & E).
    destruct (Qleb _ _) eqn:T in E; [|discriminate E].
    apply Qleb_true in T. specialize (H p' k' Hp'). unfold orb_diff in H. lra.
  - split; [|split; reflexivity]. split; [|reflexivity]. intros _ p k Hp.
    rewrite first_some_none in E. specialize (E p Hp). cbv beta in E.
    rewrite first_some_none in E. specialize (E k (all_aspects_complete k)).
    cbv beta in E.
    destruct (Qleb _ _) eqn:T in E; [discriminate E|].
    apply Qleb_false in T. unfold orb_diff. exact T.
Qed.

(** ** Collection of light *)

Lemma find_applying_aspect_sym (chart : HoraryChart) (p1 p2 : Planet) :
  _find_applying_aspect chart p1 p2 = _find_applying_aspect chart p2 p1.
Proof.
  unfold _find_applying_aspect.
  assert (E : forall l,
            find (fun a =>
                    ((planet_eqb (planet1 a) p1 && planet_eqb (planet2 a) p2)
                     || (planet_eqb (planet1 a) p2 && planet_eqb (planet2 a) p1))
                    && applying a) l
            = find (fun a =>
                      ((planet_eqb (planet1 a) p2 && planet_eqb (planet2 a) p1)
                       || (planet_eqb (planet1 a) p1 && planet_eqb (planet2 a) p2))
                      && applying a) l).
  { induction l as [|a l IH]; [reflexivity|]. cbn [find].
    rewrite (orb_comm (planet_eqb (planet1 a) p1 && planet_eqb (planet2 a) p2)).
    rewrite IH. reflexivity. }
  rewrite E. reflexivity.
Qed.

Lemma third_bodies_members (querent quesited p : Planet) :
  In p (third_bodies querent quesited) ->
  In p traditional_planets /\ p <> querent /\ p <> quesited.
Proof.
  unfold third_bodies. intro H. apply filter_In in H. destruct H as [H N].
  split; [exact H|].
  apply negb_true_iff in N. unfold planet_in in N. cbn [existsb] in N.
  apply orb_false_iff in N. destruct N as [N1 N2].
  apply orb_false_iff in N2. destruct N2 as [N2 _].
  split; intros ->; rewrite planet_eqb_refl in *; discriminate.
Qed.

(** X20.  A collector of light is a traditional planet other than the
    two significators to which both significators have an applying aspect
    in the chart, and it has the configured minimum dignity when dignity
    is required.  Translation of light asks for the same two applying
    aspects, so when translation needs neither a speed advantage nor a
    proper sequence every collector is already found as a translator and
    the perfection is reported as a translation. *)
Theorem collector_receives_both_significators :
  forall (config : Config) (days_to_sign_exit : Q -> Q -> option Q)
         (is_separating : Q -> Q -> Q -> Q -> Q -> Q -> bool)
         (chart : HoraryChart) (querent quesited : Planet) (c : Collection),
    _check_enhanced_collection_of_light config days_to_sign_exit chart querent quesited
    = Some c ->
    In (collector c) traditional_planets
    /\ collector c <> querent /\ collector c <> quesited
    /\ _find_applying_aspect chart querent (collector c) <> None
    /\ _find_applying_aspect chart quesited (collector c) <> None
    /\ (require_collector_dignity (collection (moon config)) = true ->
        (minimum_dignity_score (collection (moon config))
         <= dignity_score (planets chart (collector c)))%Z)
    /\ (require_speed_advantage (translation (moon config)) = false ->
        require_proper_sequence (translation (moon config)) = false ->
        _check_enhanced_translation_of_light config is_separating chart querent quesited
        <> None).
Proof.
  intros config dse is_sep chart querent quesited c H.
  unfold _check_enhanced_collection_of_light in H.
  apply first_some_found in H. destruct H as (p & Hp & H).
  destruct (third_bodies_members _ _ _ Hp) as (T & N1 & N2).
  unfold collection_by in H.
  destruct (_find_applying_aspect chart querent p) as [a1|] eqn:A1; [|discriminate H].
  destruct (_find_applying_aspect chart quesited p) as [a2|] eqn:A2; [|discriminate H].
  destruct (require_collector_dignity (collection (moon config))
            && (dignity_score (planets chart p)
                <? minimum_dignity_score (collection (moon config)))%Z) eqn:D;
    [discriminate H|].
  match type of H with
  | (if ?b then _ else _) = _ => destruct b; [discriminate H|]
  end.
  injection H as <-. cbn [collector].
  split; [exact T|]. split; [exact N1|]. split; [exact N2|].
  split; [rewrite A1; discriminate|]. split; [rewrite A2; discriminate|]. split.
  - intro R. rewrite R in D. cbn [andb] in D. apply Z.ltb_ge in D. exact D.
  - intros Hs Hq F. unfold _check_enhanced_translation_of_light in F.
    rewrite Hs in F. cbn [negb] in F.
    rewrite first_some_none in F. specialize (F p Hp).
    unfold translation_by in F.
    rewrite (find_applying_aspect_sym chart p querent), A1 in F.
    rewrite (find_applying_aspect_sym chart p quesited), A2 in F.
    rewrite Hq in F. discriminate F.
Qed.

Lemma collector_receives_both_significators_witness :
  _check_enhanced_collection_of_light example_config days_to_sign_exit_model
    jupiter_collects_chart MARS VENUS = Some jupiter_collects
  /\ collector jupiter_collects <> MARS /\ collector jupiter_collects <> VENUS
  /\ _find_applying_aspect jupiter_collects_chart MARS (collector jupiter_collects) <> None
  /\ _find_applying_aspect jupiter_collects_chart VENUS (collector jupiter_collects)
     <> None.
Proof.
  assert (H : _check_enhanced_collection_of_light example_config days_to_sign_exit_model
                jupiter_collects_chart MARS VENUS = Some jupiter_collects).
  { vm_compute. reflexivity. }
  split; [exact H|].
  destruct (collector_receives_both_significators example_config days_to_sign_exit_model
              example_is_separating jupiter_collects_chart MARS VENUS jupiter_collects H)
    as (_ & N1 & N2 & A1 & A2 & _).
  repeat split; assumption.
Defined.

(** ** Solar condition, dignity tables, lunar phase, radicality *)

(** X21.  The visibility exception is refused below ten degrees of
    elongation, so when the configured combustion orb is below ten degrees
    no body is ever excused from combustion: a body other than the Sun
    past the cazimi orb and within the combustion orb is reported
    combust, Mercury and Venus included, and the exception can only lift
    the condition under the beams. *)
Theorem exception_never_excuses_combustion :
  forall (config : Config) (calculate_elongation : Q -> Q -> Q)
         (sun_altitude_at_civil_twilight : Q -> Q -> Q -> Q)
         (p : Planet) (planet_pos sun_pos : PlanetPosition) (lat lon jd_ut : Q),
    combustion_orb (orbs config) < 10 ->
    p <> SUN ->
    cazimi_orb_arcmin (orbs config) / 60
    < calculate_elongation (longitude planet_pos) (longitude sun_pos) ->
    calculate_elongation (longitude planet_pos) (longitude sun_pos)
    <= combustion_orb (orbs config) ->
    condition (_analyze_enhanced_solar_condition config calculate_elongation
                 sun_altitude_at_civil_twilight p planet_pos sun_pos lat lon jd_ut)
    = COMBUSTION
    /\ traditional_exception
         (_analyze_enhanced_solar_condition config calculate_elongation
            sun_altitude_at_civil_twilight p planet_pos sun_pos lat lon jd_ut)
       = false.
Proof.
  intros config ce sa p planet_pos sun_pos lat lon jd_ut Hc Hp Hlo Hhi.
  assert (X : _check_enhanced_combustion_exception ce sa p planet_pos sun_pos lat lon jd_ut
              = false).
  { unfold _check_enhanced_combustion_exception.
    destruct (Qltb (ce (longitude planet_pos) (longitude sun_pos)) 10) eqn:T;
      [reflexivity|]. qbool. exfalso. lra. }
  unfold _analyze_enhanced_solar_condition. rewrite X.
  destruct (Qleb (ce (longitude planet_pos) (longitude sun_pos))
              (cazimi_orb_arcmin (orbs config) / 60)) eqn:A; qbool; [exfalso; lra|].
  destruct (Qleb (ce (longitude planet_pos) (longitude sun_pos))
              (combustion_orb (orbs config))) eqn:B; qbool; [|exfalso; lra].
  destruct p; try (exfalso; apply Hp; reflexivity);
    destruct (combustion_resistant _); cbn; split; reflexivity.
Qed.

Lemma exception_never_excuses_combustion_witness :
  combustion_orb (orbs example_config) < 10
  /\ MERCURY <> SUN
  /\ cazimi_orb_arcmin (orbs example_config) / 60
     < calculate_elongation_model (longitude mercury_near_sun) (longitude sun_in_gemini)
  /\ calculate_elongation_model (longitude mercury_near_sun) (longitude sun_in_gemini)
     <= combustion_orb (orbs example_config)
  /\ condition (_analyze_enhanced_solar_condition example_config
                  calculate_elongation_model example_sun_altitude MERCURY
                  mercury_near_sun sun_in_gemini 51 0 2460000) = COMBUSTION.
Proof.
  assert (H1 : combustion_orb (orbs example_config) < 10) by (vm_compute; reflexivity).
  assert (H2 : MERCURY <> SUN) by discriminate.
  assert (H3 : cazimi_orb_arcmin (orbs example_config) / 60
               < calculate_elongation_model (longitude mercury_near_sun)
                   (longitude sun_in_gemini)) by (vm_compute; reflexivity).
  assert (H4 : calculate_elongation_model (longitude mercury_near_sun)
                 (longitude sun_in_gemini)
               <= combustion_orb (orbs example_config)) by (vm_compute; discriminate).
  split; [exact H1|]. split; [exact H2|]. split; [exact H3|]. split; [exact H4|].
  exact (proj1 (exception_never_excuses_combustion example_config
                  calculate_elongation_model example_sun_altitude MERCURY
                  mercury_near_sun sun_in_gemini 51 0 2460000 H1 H2 H3 H4)).
Defined.

(** X22.  The dignity tables agree with the rule they encode: a planet's
    detriment signs are exactly the signs opposite the signs it rules, and
    its fall is the sign opposite its exaltation.  Hence no planet scores
    rulership and detriment, or exaltation and fall, in the same sign. *)
Theorem detriment_and_fall_are_opposite :
  forall (p : Planet) (s : Sign),
    (existsb (sign_eqb s) (detriment_signs p) = planet_eqb (ruler (opposite_sign s)) p)
    /\ entry_is (falls p) s = entry_is (exaltations p) (opposite_sign s)
    /\ (planet_eqb (ruler s) p && existsb (sign_eqb s) (detriment_signs p) = false)
    /\ (entry_is (exaltations p) s && entry_is (falls p) s = false).
Proof.
  intros p s. destruct p; destruct s; vm_compute; repeat split; reflexivity.
Qed.

Lemma angular_separation_range (a b : Q) :
  0 <= a -> a < 360 -> 0 <= b -> b < 360 ->
  0 <= angular_separation a b /\ angular_separation a b <= 180.
Proof.
  intros Ha Ha' Hb Hb'. unfold angular_separation.
  destruct (Qabs_cases (a - b)) as [[H E]|[H E]];
    destruct (Qltb 180 (Qabs (a - b))) eqn:T; qbool; lra.
Qed.

(** X23.  For Sun and Moon longitudes in [[0, 360)] the elongation the
    engine computes is folded into [[0, 180]], so the Moon is never reported
    in a waning phase: the phase name is one of the first five of the
    chain and the phase bonus is one of their five bonuses; the bands from
    210 degrees on are never selected and the full-moon band is entered
    only between 150 and 180 degrees. *)
Theorem moon_is_never_reported_waning :
  forall (config : Config) (chart : HoraryChart),
    0 <= longitude (planets chart MOON) -> longitude (planets chart MOON) < 360 ->
    0 <= longitude (planets chart SUN) -> longitude (planets chart SUN) < 360 ->
    0 <= moon_elongation chart <= 180
    /\ In (_get_moon_phase_name chart)
          ["New Moon"; "Waxing Crescent"; "First Quarter"; "Waxing Gibbous"; "Full Moon"]
    /\ In (_moon_phase_bonus config chart)
          [new_moon (phase_bonus (moon config));
           waxing_crescent (phase_bonus (moon config));
           first_quarter (phase_bonus (moon config));
           waxing_gibbous (phase_bonus (moon config));
           full_moon (phase_bonus (moon config))].
Proof.
  intros config chart Hm Hm' Hs Hs'.
  pose proof (angular_separation_range _ _ Hm Hm' Hs Hs') as [Hlo Hhi].
  fold (moon_elongation chart) in Hlo, Hhi.
  split; [split; assumption|].
  unfold _get_moon_phase_name, _moon_phase_bonus, phase_name_at, phase_bonus_at.
  set (e := moon_elongation chart) in *.
  destruct (between 0 e 30) eqn:B1; [cbn; tauto|].
  destruct (between 30 e 60) eqn:B2; [cbn; tauto|].
  destruct (between 60 e 120) eqn:B3; [cbn; tauto|].
  destruct (between 120 e 150) eqn:B4; [cbn; tauto|].
  destruct (between 150 e 210) eqn:B5; [cbn; tauto|].
  exfalso. unfold between in *.
  apply andb_false_iff in B1, B2, B3, B4, B5.
  destruct B1 as [B1|B1], B2 as [B2|B2], B3 as [B3|B3], B4 as [B4|B4], B5 as [B5|B5];
    qbool; lra.
Qed.

Lemma moon_is_never_reported_waning_witness :
  (0 <= longitude (planets waxing_moon_chart MOON)
   /\ longitude (planets waxing_moon_chart MOON) < 360)
  /\ (0 <= longitude (planets waxing_moon_chart SUN)
      /\ longitude (planets waxing_moon_chart SUN) < 360)
  /\ 0 <= moon_elongation waxing_moon_chart <= 180.
Proof.
  assert (A : 0 <= longitude (planets waxing_moon_chart MOON)) by (vm_compute; discriminate).
  assert (B : longitude (planets waxing_moon_chart MOON) < 360) by (vm_compute; reflexivity).
  assert (C : 0 <= longitude (planets waxing_moon_chart SUN)) by (vm_compute; discriminate).
  assert (D : longitude (planets waxing_moon_chart SUN) < 360) by (vm_compute; reflexivity).
  split; [split; [exact A | exact B]|]. split; [split; [exact C | exact D]|].
  exact (proj1 (moon_is_never_reported_waning example_config waxing_moon_chart A B C D)).
Defined.

(** X24.  Ignoring Saturn in the seventh house can only lift that one
    consideration: a chart that is radical without the override gets the
    same answer with it, and a chart that becomes radical through the
    override was rejected for Saturn in the seventh house and for nothing
    else. *)
Theorem saturn_override_lifts_only_saturn :
  forall (config : Config) (chart : HoraryChart),
    (valid (_check_enhanced_radicality config chart false) = true ->
     _check_enhanced_radicality config chart true
     = _check_enhanced_radicality config chart false)
    /\ (valid (_check_enhanced_radicality config chart true) = true ->
        valid (_check_enhanced_radicality config chart false) = false ->
        rad_reason (_check_enhanced_radicality config chart false)
        = "Saturn in 7th house - astrologer may err in judgment (Bonatti)"
        /\ house (planets chart SATURN) = 7%Z
        /\ saturn_7th_enabled (radicality config) = true)
    /\ (valid (_check_enhanced_radicality config chart true) = false ->
        _check_enhanced_radicality config chart false
        = _check_enhanced_radicality config chart true
        \/ rad_reason (_check_enhanced_radicality config chart false)
           = "Saturn in 7th house - astrologer may err in judgment (Bonatti)").
Proof.
  intros config chart. unfold _check_enhanced_radicality.
  destruct (Qltb (py_mod (ascendant chart) 30) (asc_too_early (radicality config))).
  { cbn. repeat split; try discriminate; intros; try reflexivity; left; reflexivity. }
  destruct (Qltb (asc_too_late (radicality config)) (py_mod (ascendant chart) 30)).
  { cbn. repeat split; try discriminate; intros; try reflexivity; left; reflexivity. }
  rewrite andb_false_r. cbn [negb]. rewrite andb_true_r.
  destruct (saturn_7th_enabled (radicality config)); cbn [andb].
  - destruct (house (planets chart SATURN) =? 7)%Z eqn:S.
    + apply Z.eqb_eq in S. cbn [valid rad_reason].
      split; [discriminate|]. split; [intros _ _; repeat split; assumption|].
      intros _. right. reflexivity.
    + split; [reflexivity|]. split; [intros A B; rewrite A in B; discriminate B|].
      intros _. left. reflexivity.
  - split; [reflexivity|]. split; [intros A B; rewrite A in B; discriminate B|].
    intros _. left. reflexivity.
Qed.

(** ** The question analyzer *)

Lemma house_in_app (h : Z) (l l' : list Z) :
  house_in h (l ++ l')%list = house_in h l || house_in h l'.
Proof. unfold house_in. apply existsb_app. Qed.

Lemma fold_houses_closed_form (question : string) (l : list (Z * list string)) :
  NoDup (map fst l) ->
  forall houses,
    fold_left
      (fun houses entry =>
         if negb (house_in (fst entry) houses) && any_in (snd entry) question
         then append houses (fst entry) else houses) l houses
    = (houses
       ++ map fst
            (filter (fun entry =>
                       negb (house_in (fst entry) houses) && any_in (snd entry) question)
               l))%list.
Proof.
  induction l as [|e l IH]; intros Hnd houses; cbn [fold_left filter map].
  - rewrite app_nil_r. reflexivity.
  - cbn [map] in Hnd. apply NoDup_cons_iff in Hnd. destruct Hnd as [Hk Hnd].
    destruct (negb (house_in (fst e) houses) && any_in (snd e) question) eqn:C.
    + rewrite (IH Hnd). unfold append. rewrite <- app_assoc. cbn [map app].
      f_equal. f_equal. f_equal. apply filter_ext_in. intros e' He'.
      rewrite house_in_app.
      assert (F : house_in (fst e') [fst e] = false).
      { unfold house_in. cbn [existsb]. rewrite orb_false_r.
        destruct (Z.eqb (fst e') (fst e)) eqn:Q; [|reflexivity].
        exfalso. apply Z.eqb_eq in Q. apply Hk. rewrite <- Q.
        apply in_map. exact He'. }
      rewrite F, orb_false_r. reflexivity.
    + apply (IH Hnd).
Qed.

Lemma house_meanings_keys : map fst house_meanings = map Z.of_nat (seq 1 12).
Proof. reflexivity. Qed.

Lemma house_meanings_nodup : NoDup (map fst house_meanings).
Proof.
  change (map fst house_meanings) with [1; 2; 3; 4; 5; 6; 7; 8; 9; 10; 11; 12]%Z.
  repeat (apply NoDup_cons; [cbn [In]; lia|]). apply NoDup_nil.
Qed.

Lemma nodup_map_filter {A B : Type} (f : A -> B) (P : A -> bool) (l : list A) :
  NoDup (map f l) -> NoDup (map f (filter P l)).
Proof.
  induction l as [|x l IH]; cbn [map filter]; intro H; [constructor|].
  apply NoDup_cons_iff in H. destruct H as [Hx Hl].
  destruct (P x); cbn [map]; [|exact (IH Hl)].
  constructor; [|exact (IH Hl)].
  intro Hin. apply Hx. apply in_map_iff in Hin. destruct Hin as (y & Ey & Hy).
  apply filter_In in Hy. apply in_map_iff. exists y. split; [exact Ey | tauto].
Qed.

Lemma keyword_houses_members (question : string) (houses : list Z) (x : Z) :
  In x (keyword_houses question houses) ->
  (1 <= x <= 12)%Z /\ house_in x houses = false
  /\ exists keywords, In (x, keywords) house_meanings /\ any_in keywords question = true.
Proof.
  unfold keyword_houses. intro H. apply in_map_iff in H. destruct H as ([k kw] & E & H).
  cbn [fst] in E. subst k. apply filter_In in H. destruct H as [H C].
  cbn [fst snd] in C. apply andb_true_iff in C. destruct C as [C1 C2].
  apply negb_true_iff in C1.
  split; [|split; [exact C1|exists kw; split; assumption]].
  assert (K : In x (map fst house_meanings)).
  { apply in_map_iff. exists (x, kw). split; [reflexivity | exact H]. }
  rewrite house_meanings_keys in K. apply in_map_iff in K. destruct K as (n & <- & Hn).
  apply in_seq in Hn. lia.
Qed.

(** X25.  The houses of a question are the first house, then one
    quesited house out of 2, 3, 5, 6, 7, 9 and 10, then, in increasing
    order, every other house one of whose keywords occurs in the question.
    No house is listed twice, all lie between 1 and 12, and the quesited
    house handed to the significators is the second entry: it is never
    house 1, 4, 8, 11 or 12. *)
Theorem determined_houses_shape :
  forall (question question_type : string),
    exists h,
      In h [2; 3; 5; 6; 7; 9; 10]%Z
      /\ _determine_houses question question_type
         = (1 :: h :: keyword_houses question [1; h])%Z
      /\ _determine_significators (_determine_houses question question_type) = h
      /\ NoDup (_determine_houses question question_type)
      /\ forall x, In x (_determine_houses question question_type) -> (1 <= x <= 12)%Z.
Proof.
  intros question qt.
  assert (Shape : forall h, In h [2; 3; 5; 6; 7; 9; 10]%Z ->
            forall l, l = (1 :: h :: keyword_houses question [1; h])%Z ->
              _determine_significators l = h /\ NoDup l
              /\ forall x, In x l -> (1 <= x <= 12)%Z).
  { intros h Hh l ->. split; [reflexivity|]. split.
    - assert (N : NoDup (keyword_houses question [1%Z; h])).
      { unfold keyword_houses. apply nodup_map_filter. exact house_meanings_nodup. }
      constructor; [|constructor; [|exact N]].
      + intros [E|Hin].
        * subst h. cbn in Hh. lia.
        * apply keyword_houses_members in Hin. destruct Hin as (_ & F & _).
          unfold house_in in F. cbn [existsb] in F. rewrite Z.eqb_refl in F.
          discriminate F.
      + intro Hin. apply keyword_houses_members in Hin. destruct Hin as (_ & F & _).
        unfold house_in in F. cbn [existsb] in F. rewrite Z.eqb_refl in F.
        rewrite orb_true_r in F. discriminate F.
    - intros x [<-|[<-|Hx]]; [lia | cbn in Hh; lia |].
      apply keyword_houses_members in Hx. tauto. }
  assert (Closed : forall h,
            fold_left
              (fun houses entry =>
                 if negb (house_in (fst entry) houses) && any_in (snd entry) question
                 then append houses (fst entry) else houses)
              house_meanings (append [1%Z] h)
            = (1 :: h :: keyword_houses question [1; h])%Z).
  { intro h. rewrite (fold_houses_closed_form question house_meanings house_meanings_nodup).
    reflexivity. }
  unfold _determine_houses.
  repeat match goal with
         | |- context [if ?b then _ else _] =>
             lazymatch b with
             | context [if _ then _ else _] => fail
             | _ => destruct b
             end
         end;
    rewrite Closed;
    match goal with
    | |- exists h, _ /\ (1 :: ?k :: _)%Z = _ /\ _ =>
        exists k; split; [cbn; tauto|]; split; [reflexivity|];
        apply (Shape k); [cbn; tauto | reflexivity]
    end.
Qed.

Ltac split_any H :=
  unfold any_in in H; cbn [existsb] in H;
  repeat (apply orb_false_iff in H; let K := fresh "K" in destruct H as [K H]).

(** X26.  When the question type is the one [_determine_question_type]
    finds for the same question, the quesited house is a function of the
    type alone (of the words far, foreign and abroad too for a journey):
    the additional keyword tests for spouse and child in
    [_determine_houses] never change it, because a question holding one of
    these words is already typed lost_object, marriage or pregnancy.  The
    type is one of ten values. *)
Theorem quesited_house_follows_question_type :
  forall (lower : string -> string) (question : string),
    In (question_type (analyze_question lower question))
       ["lost_object"; "marriage"; "pregnancy"; "travel"; "money"; "career"; "health";
        "lawsuit"; "relationship"; "general"]
    /\ quesited_house (analyze_question lower question)
       = house_of_type (lower question)
           (question_type (analyze_question lower question))
    /\ relevant_houses (analyze_question lower question)
       = (1 :: quesited_house (analyze_question lower question)
            :: keyword_houses (lower question)
                 [1; quesited_house (analyze_question lower question)])%Z.
Proof.
  intros lower question. unfold analyze_question. generalize (lower question) as q.
  intro q. unfold analyze_lowered. cbn [question_type quesited_house relevant_houses].
  unfold _determine_question_type, question_patterns. cbn [find snd].
  destruct (any_in ["where is"; "lost"; "missing"; "find"; "stolen"] q) eqn:T1.
  { unfold _determine_houses, house_of_type. cbn [String.eqb Ascii.eqb Bool.eqb andb orb].
    rewrite (fold_houses_closed_form q house_meanings house_meanings_nodup).
    split; [cbn; tauto|]. split; reflexivity. }
  destruct (any_in ["marry"; "wedding"; "spouse"; "husband"; "wife"] q) eqn:T2.
  { unfold _determine_houses, house_of_type. cbn [String.eqb Ascii.eqb Bool.eqb andb orb].
    rewrite (fold_houses_closed_form q house_meanings house_meanings_nodup).
    split; [cbn; tauto|]. split; reflexivity. }
  assert (S : str_in "spouse" q = false) by (split_any T2; assumption).
  destruct (any_in ["pregnant"; "child"; "baby"; "conceive"] q) eqn:T3.
  { unfold _determine_houses, house_of_type. cbn [String.eqb Ascii.eqb Bool.eqb andb orb].
    rewrite S.
    rewrite (fold_houses_closed_form q house_meanings house_meanings_nodup).
    split; [cbn; tauto|]. split; reflexivity. }
  assert (C : str_in "child" q = false) by (split_any T3; assumption).
  repeat match goal with
         | |- context [if any_in ?kw q then _ else _] =>
             lazymatch kw with
             | ["far"; "foreign"; "abroad"] => fail
             | _ => destruct (any_in kw q)
             end
         end;
    unfold _determine_houses, house_of_type;
    cbn [String.eqb Ascii.eqb Bool.eqb andb orb]; rewrite ?S, ?C; cbn [orb];
    try destruct (any_in ["far"; "foreign"; "abroad"] q);
    rewrite (fold_houses_closed_form q house_meanings house_meanings_nodup);
    (split; [cbn; tauto|]); split; reflexivity.
Qed.

(** ** Derived houses and planetary hours *)

(** X27.  [_turn] always answers a house between 1 and 12; it counts
    [offset] steps forward from [base], so offset 0 gives the base house
    itself, offsets add up, and twelve steps come back to the same house.
    The house counted as the n-th from a base in the inclusive way is
    therefore reached with offset n - 1, not n. *)
Theorem turn_counts_steps_forward :
  forall (base offset : Z),
    (1 <= _turn base offset <= 12)%Z
    /\ ((1 <= base <= 12)%Z -> _turn base 0 = base)
    /\ (forall offset', _turn (_turn base offset) offset' = _turn base (offset + offset'))
    /\ _turn base (offset + 12) = _turn base offset
    /\ ((1 <= base <= 11)%Z -> _turn base 1 = (base + 1)%Z).
Proof.
  intros base offset. unfold _turn.
  split; [pose proof (Z.mod_pos_bound (base + offset - 1) 12 ltac:(lia)); lia|].
  split; [intro H; rewrite Z.mod_small by lia; lia|].
  split.
  - intro offset'.
    replace ((base + offset - 1) mod 12 + 1 + offset' - 1)%Z
      with ((base + offset - 1) mod 12 + offset')%Z by lia.
    rewrite Zplus_mod_idemp_l.
    replace (base + offset - 1 + offset')%Z with (base + (offset + offset') - 1)%Z by lia.
    reflexivity.
  - split.
    + replace (base + (offset + 12) - 1)%Z with (base + offset - 1 + 1 * 12)%Z by lia.
      rewrite Z_mod_plus_full. reflexivity.
    + intro H. rewrite Z.mod_small by lia. lia.
Qed.

Lemma planetary_hour_index (weekday : Z) :
  exists start_idx,
    index (PLANETARY_DAY_RULERS weekday) PLANET_SEQUENCE = Some start_idx
    /\ (0 <= start_idx < 7)%Z
    /\ nth_error PLANET_SEQUENCE (Z.to_nat start_idx) = Some (PLANETARY_DAY_RULERS weekday).
Proof.
  assert (R : forall p, In p PLANET_SEQUENCE ->
            exists i, index p PLANET_SEQUENCE = Some i /\ (0 <= i < 7)%Z
                      /\ nth_error PLANET_SEQUENCE (Z.to_nat i) = Some p).
  { intros p Hp. cbn in Hp.
    repeat (destruct Hp as [<-|Hp];
            [eexists; split; [reflexivity|split; [lia|reflexivity]]|]).
    destruct Hp. }
  apply R. unfold PLANETARY_DAY_RULERS.
  repeat match goal with
         | |- context [match ?x with _ => _ end] => destruct x
         end; cbn; tauto.
Qed.

Lemma sequence_lookup (i : Z) :
  (0 <= i < 7)%Z ->
  exists p, nth_error PLANET_SEQUENCE (Z.to_nat i) = Some p /\ In p traditional_planets.
Proof.
  intro H.
  assert (C : (i = 0 \/ i = 1 \/ i = 2 \/ i = 3 \/ i = 4 \/ i = 5 \/ i = 6)%Z) by lia.
  destruct C as [->|[->|[->|[->|[->|[->| ->]]]]]]; cbn; eexists;
    (split; [reflexivity | cbn; tauto]).
Qed.

(** X28.  The planetary day and hour are always found, whatever the
    weekday and hour, and are traditional planets; hour 0 belongs to the
    ruler of the day, the hours repeat every seven, and for the weekdays
    0 to 6 the sequence carried on for twenty-four hours arrives at the
    ruler of the next day. *)
Theorem planetary_hours_follow_the_week :
  forall (weekday hour_index : Z),
    (exists hour_ruler,
       _calculate_general_info weekday hour_index
       = Some (PLANETARY_DAY_RULERS weekday, hour_ruler)
       /\ In hour_ruler traditional_planets
       /\ In (PLANETARY_DAY_RULERS weekday) traditional_planets)
    /\ _calculate_general_info weekday 0
       = Some (PLANETARY_DAY_RULERS weekday, PLANETARY_DAY_RULERS weekday)
    /\ _calculate_general_info weekday (hour_index + 7)
       = _calculate_general_info weekday hour_index
    /\ ((0 <= weekday <= 6)%Z ->
        _calculate_general_info weekday 24
        = Some (PLANETARY_DAY_RULERS weekday, PLANETARY_DAY_RULERS ((weekday + 1) mod 7))).
Proof.
  intros weekday hour_index. unfold _calculate_general_info.
  destruct (planetary_hour_index weekday) as (s & Es & Hs & Ns). rewrite Es.
  split.
  { destruct (sequence_lookup ((s + hour_index) mod 7)) as (p & Ep & Hp);
      [apply Z.mod_pos_bound; lia|].
    rewrite Ep. exists p. split; [reflexivity|]. split; [exact Hp|].
    destruct (sequence_lookup s Hs) as (r & Er & Hr). congruence. }
  split; [rewrite Z.add_0_r, Z.mod_small by lia; rewrite Ns; reflexivity|].
  split.
  - replace (s + (hour_index + 7))%Z with (s + hour_index + 1 * 7)%Z by lia.
    rewrite Z_mod_plus_full. reflexivity.
  - intro H. clear Ns Hs.
    assert (C : (weekday = 0 \/ weekday = 1 \/ weekday = 2 \/ weekday = 3
                 \/ weekday = 4 \/ weekday = 5 \/ weekday = 6)%Z) by lia.
    destruct C as [->|[->|[->|[->|[->|[->| ->]]]]]]; cbn in Es; injection Es as <-;
      reflexivity.
Qed.

(** ** Timing text *)

Lemma py_int_floor (x : Q) :
  0 <= x -> inject_Z (py_int x) <= x /\ x < inject_Z (py_int x) + 1.
Proof.
  intro H. assert (E : py_int x = Qfloor x).
  { unfold py_int. destruct x as [n d]. cbn [Qnum Qden Qfloor].
    unfold Qle in H. cbn in H. apply Z.quot_div_nonneg; lia. }
  rewrite E. split; [apply Qfloor_le|].
  pose proof (Qlt_floor x) as L. rewrite inject_Z_plus in L.
  change (inject_Z 1) with 1 in L. exact L.
Qed.

Lemma py_int_between (x : Q) (lo hi : Z) :
  inject_Z lo <= x -> x < inject_Z hi -> (0 <= lo)%Z -> (lo <= py_int x < hi)%Z.
Proof.
  intros Hlo Hhi H0.
  assert (Hx : 0 <= x).
  { apply Qle_trans with (inject_Z lo); [|exact Hlo].
    change 0 with (inject_Z 0). rewrite <- Zle_Qle. exact H0. }
  destruct (py_int_floor x Hx) as [A B].
  split.
  - assert (L : inject_Z lo < inject_Z (py_int x) + 1) by lra.
    change 1 with (inject_Z 1) in L. rewrite <- inject_Z_plus in L.
    rewrite <- Zlt_Qlt in L. lia.
  - assert (L : inject_Z (py_int x) < inject_Z hi) by lra.
    rewrite <- Zlt_Qlt in L. exact L.
Qed.

(** X29.  The timing text is chosen by the number of days: hours below
    half a day (negative values included), a day below one, then whole
    days from 1 to 6, whole weeks from 1 to 4 and whole months from 1 to
    12, each count being the integer part of the days, of a seventh or of
    a thirtieth of them; from 365 days on, and for an infinite time, more
    than a year.  The count is never zero and the unit stays in the plural
    for a count of one. *)
Theorem timing_text_counts :
  _format_timing_description Inf = "More than a year"
  /\ forall (d : Q),
       (d < 1 # 2 /\ _format_timing_description (Fin d) = "Within hours")
       \/ (1 # 2 <= d /\ d < 1 /\ _format_timing_description (Fin d) = "Within a day")
       \/ (1 <= d /\ d < 7 /\ (1 <= py_int d <= 6)%Z
           /\ _format_timing_description (Fin d)
              = "Within " ++ str_int (py_int d) ++ " days")
       \/ (7 <= d /\ d < 30 /\ (1 <= py_int (d / 7) <= 4)%Z
           /\ _format_timing_description (Fin d)
              = "Within " ++ str_int (py_int (d / 7)) ++ " weeks")
       \/ (30 <= d /\ d < 365 /\ (1 <= py_int (d / 30) <= 12)%Z
           /\ _format_timing_description (Fin d)
              = "Within " ++ str_int (py_int (d / 30)) ++ " months")
       \/ (365 <= d /\ _format_timing_description (Fin d) = "More than a year").
Proof.
  split; [reflexivity|].
  intro d. unfold _format_timing_description.
  destruct (Qltb d (1 # 2)) eqn:T1; qbool; [left; split; [exact T1 | reflexivity]|].
  right.
  destruct (Qltb d 1) eqn:T2; qbool; [left; repeat split; assumption|].
  right.
  destruct (Qltb d 7) eqn:T3; qbool.
  { left. split; [exact T2|]. split; [exact T3|]. split; [|reflexivity].
    assert (B : (1 <= py_int d < 7)%Z).
    { apply py_int_between; [exact T2 | exact T3 | lia]. }
    lia. }
  right.
  destruct (Qltb d 30) eqn:T4; qbool.
  { left. split; [exact T3|]. split; [exact T4|]. split; [|reflexivity].
    assert (B : (1 <= py_int (d / 7) < 5)%Z).
    { apply py_int_between; [| |lia].
      - apply Qle_shift_div_l; [reflexivity|]. change (inject_Z 1) with 1. lra.
      - apply Qlt_shift_div_r; [reflexivity|]. change (inject_Z 5) with 5. lra. }
    lia. }
  right.
  destruct (Qltb d 365) eqn:T5; qbool.
  { left. split; [exact T4|]. split; [exact T5|]. split; [|reflexivity].
    assert (B : (1 <= py_int (d / 30) < 13)%Z).
    { apply py_int_between; [| |lia].
      - apply Qle_shift_div_l; [reflexivity|]. change (inject_Z 1) with 1. lra.
      - apply Qlt_shift_div_r; [reflexivity|]. change (inject_Z 13) with 13. lra. }
    lia. }
  right. split; [exact T5 | reflexivity].
Qed.

(** ** The Moon's last and next aspect *)

Lemma collect_members {A B : Type} (f : A -> result (list B)) (l : list A)
    (zs : list B) (z : B) :
  collect f l = Ok zs -> In z zs -> exists x ys, In x l /\ f x = Ok ys /\ In z ys.
Proof.
  revert zs. induction l as [|x xs IH]; intros zs H Hz; cbn [collect] in H.
  - injection H as <-. destruct Hz.
  - apply bind_ok in H. destruct H as (ys & Ey & H).
    apply bind_ok in H. destruct H as (rest & Er & H).
    injection H as <-. apply in_app_or in Hz. destruct Hz as [Hz|Hz].
    + exists x, ys. split; [left; reflexivity | split; assumption].
    + destruct (IH rest Er Hz) as (x' & ys' & Hx' & Ey' & Hz').
      exists x', ys'. split; [right; exact Hx' | split; assumption].
Qed.

(** X30.  The Moon's last aspect, when there is one, is a separating
    aspect to another traditional planet within one and a half times the
    configured orb, found only when the Moon's speed is not zero and dated
    by the orb over that speed; it is never the aspect reported as the
    Moon's next aspect, since no aspect is both separating and applying. *)
Theorem moon_last_aspect_is_separating :
  forall (config : Config) (get_real_moon_speed : Q -> Q)
         (positions : Planet -> PlanetPosition) (jd_ut : Q) (la : LunarAspect),
    _calculate_moon_last_aspect config get_real_moon_speed positions jd_ut
    = Ok (Some la) ->
    In (la_planet la) other_planets
    /\ la_applying la = false
    /\ ~ get_real_moon_speed jd_ut == 0
    /\ la_orb la = orb_diff (longitude (positions MOON))
                     (longitude (positions (la_planet la))) (la_aspect la)
    /\ la_orb la <= aspect_orb config (la_aspect la) * (3 # 2)
    /\ _is_moon_separating_from_aspect (positions MOON) (positions (la_planet la))
         (la_aspect la) (get_real_moon_speed jd_ut) = true
    /\ perfection_eta_days la = Fin (la_orb la / get_real_moon_speed jd_ut)
    /\ forall na,
         _calculate_moon_next_aspect config get_real_moon_speed positions jd_ut
         = Some na ->
         ~ (la_planet na = la_planet la /\ la_aspect na = la_aspect la).
Proof.
  intros config speed_of positions jd_ut la H.
  unfold _calculate_moon_last_aspect in H.
  apply bind_ok in H. destruct H as (cands & Hc & H).
  injection H as H. apply py_min_key_found in H. destruct H as [Hin _].
  destruct (collect_members _ _ _ _ Hc Hin) as (p & ys & Hp & Ey & Hy).
  destruct (collect_members _ _ _ _ Ey Hy) as (k & zs & _ & Ez & Hz).
  cbv beta in Ez.
  destruct (Qleb _ _ && _is_moon_separating_from_aspect _ _ _ _) eqn:C.
  2:{ injection Ez as <-. destruct Hz. }
  apply andb_true_iff in C. destruct C as [C1 C2]. apply Qleb_true in C1.
  apply bind_ok in Ez. destruct Ez as (t & Et & Ez).
  injection Ez as <-. destruct Hz as [<-|[]].
  unfold py_div in Et. destruct (Qeqb (speed_of jd_ut) 0) eqn:Z; [discriminate Et|].
  injection Et as <-. apply Qeqb_false in Z.
  cbn [la_planet la_aspect la_orb la_applying perfection_eta_days].
  split; [exact Hp|]. split; [reflexivity|]. split; [exact Z|].
  split; [reflexivity|]. split; [exact C1|]. split; [exact C2|]. split; [reflexivity|].
  intros na Hn [Ep Ek].
  unfold _calculate_moon_next_aspect in Hn.
  apply py_min_key_found in Hn. destruct Hn as [Hn _].
  apply in_flat_map in Hn. destruct Hn as (p' & _ & Hn).
  apply in_flat_map in Hn. destruct Hn as (k' & _ & Hn).
  destruct (Qleb _ _ && _is_moon_applying_to_aspect _ _ _ _) eqn:D; [|destruct Hn].
  destruct Hn as [<-|[]]. cbn [la_planet la_aspect] in Ep, Ek. subst p' k'.
  apply andb_true_iff in D. destruct D as [_ D].
  unfold _is_moon_separating_from_aspect in C2.
  unfold _is_moon_applying_to_aspect in D.
  destruct (moon_orbs (positions MOON) (positions p) k (speed_of jd_ut)) as [c f].
  qbool. lra.
Qed.

Lemma moon_last_aspect_is_separating_witness :
  _calculate_moon_last_aspect example_config example_moon_speed
    (planets moon_between_significators_chart) 2460000 = Ok (Some moon_left_mars)
  /\ la_applying moon_left_mars = false
  /\ ~ example_moon_speed 2460000 == 0.
Proof.
  assert (H : _calculate_moon_last_aspect example_config example_moon_speed
                (planets moon_between_significators_chart) 2460000
              = Ok (Some moon_left_mars)).
  { vm_compute. reflexivity. }
  split; [exact H|].
  destruct (moon_last_aspect_is_separating example_config example_moon_speed
              (planets moon_between_significators_chart) 2460000 moon_left_mars H)
    as (_ & A & Z & _).
  split; [exact A | exact Z].
Defined.
